(** * xk6-dns: nameserver address parsing, record types and the resolution client

    A shallow embedding of the Go package [dns] of the xk6-dns extension:
    the nameserver address parsers ([resolveOptions.ParseNameserver] of
    module.go, [ParseNameserverAddr] and its later form [parseNameserverAddr]
    with [parseHostAndPort]), the [RecordType] constants,
    [Nameserver.Addr], [fmtNAPTRAnswer] and the two revisions of
    [Client.Resolve], together with the functions of the Go standard
    library ([net.SplitHostPort], [net.ParseIP], [net.IP.String],
    [strconv.Atoi], [strconv.Itoa]) and of the DNS library they call.

    Go strings are byte sequences and are modelled by [string] (a list of
    8-bit [ascii]); Go's [int] is 64 bits wide and is modelled by [Z] with
    the range checks of the library functions written out; [uint16] is a
    [Z] in [0, 65535] and a conversion to it wraps modulo [2^16]; a byte
    slice is a list of [Z] in [0, 255], the nil slice the empty list; a
    multiple return [(v, err)] is a pair whose second component is
    [option error], [None] standing for [nil]. What [Resolve] does on the
    network is made explicit: the transport is a function from the message
    and the dial target to the outcome of the exchange, and the result of
    [Resolve] lists the exchanges it performed. *)

From Stdlib Require Import ZArith List Bool Ascii String Lia.
Import ListNotations.

Open Scope string_scope.
Open Scope Z_scope.

(** ** Go string primitives *)

Module GoString.

(** [len(s)] *)
Definition len (s : string) : Z := Z.of_nat (String.length s).

(** [s[i]]; an index out of range panics in Go and is [None] here. *)
Definition at_ (s : string) (i : Z) : option ascii :=
  if i <? 0 then None else String.get (Z.to_nat i) s.

(** [s[i] == c] *)
Definition byteIs (s : string) (i : Z) (c : ascii) : bool :=
  match at_ s i with
  | Some x => Ascii.eqb x c
  | None => false
  end.

(** [s[lo:hi]] *)
Definition slice (s : string) (lo hi : Z) : string :=
  String.substring (Z.to_nat lo) (Z.to_nat (hi - lo)) s.

(** [s[lo:]] *)
Definition sliceFrom (s : string) (lo : Z) : string :=
  slice s lo (len s).

(** [bytealg.IndexByteString]: index of the first [c] in [s], or [-1]. *)
Fixpoint IndexByteString (s : string) (c : ascii) : Z :=
  match s with
  | EmptyString => -1
  | String x r =>
      if Ascii.eqb x c then 0
      else let k := IndexByteString r c in
           if k <? 0 then -1 else k + 1
  end.

(** [bytealg.LastIndexByteString]: index of the last [c] in [s], or [-1]. *)
Fixpoint LastIndexByteString (s : string) (c : ascii) : Z :=
  match s with
  | EmptyString => -1
  | String x r =>
      let k := LastIndexByteString r c in
      if 0 <=? k then k + 1
      else if Ascii.eqb x c then 0 else -1
  end.

(** [strings.ContainsRune(s, r)] for an ASCII rune. *)
Definition ContainsRune (s : string) (c : ascii) : bool :=
  0 <=? IndexByteString s c.

(** [strings.Contains(s, substr)] *)
Fixpoint Contains (s substr : string) : bool :=
  String.prefix substr s ||
  match s with
  | EmptyString => false
  | String _ r => Contains r substr
  end.

(** Number of occurrences of a byte. *)
Fixpoint count (s : string) (c : ascii) : nat :=
  match s with
  | EmptyString => O
  | String x r => ((if Ascii.eqb x c then 1 else 0) + count r c)%nat
  end.

End GoString.

Import GoString.

(** ** Errors *)

(** The classification a DNS error carries: a domain that does not exist,
    or any other failure the server reports. *)
Inductive DNSErrorKind : Type :=
| NonExistingDomain
| OtherFailure.

(** The error values the package produces. [fmt.Errorf] with a [%w] verb
    keeps the wrapped error; the text before and after the verb is kept as
    written in the format string, with the other verbs already rendered. *)
Inductive error : Type :=
| errorString (msg : string)
  (** [errors.New], or [fmt.Errorf] without [%w] *)
| wrapError (before : string) (err : error) (after : string)
  (** [fmt.Errorf(before + "%w" + after, err)] *)
| AddrError (Err Addr : string)
  (** [*net.AddrError] *)
| NumError (Func Num : string) (Err : error)
  (** [*strconv.NumError] *)
| DNSError (Kind : DNSErrorKind) (Rcode : Z) (Message : string).
  (** the package's DNS error, see [newDNSError] *)

(** [strconv.ErrSyntax] and [strconv.ErrRange]. *)
Definition ErrSyntax : error := errorString "invalid syntax".
Definition ErrRange : error := errorString "value out of range".

(** ** strconv *)

Module strconv.

Definition isDigit (c : ascii) : bool :=
  let n := Z.of_nat (nat_of_ascii c) in (48 <=? n) && (n <=? 57).

Definition digitVal (c : ascii) : Z := Z.of_nat (nat_of_ascii c) - 48.

(** What the digit loop gives: the value read, a byte that is not a
    decimal digit, or a value that does not fit 64 bits. *)
Inductive scanned : Type :=
| Value (n : Z)
| BadByte
| TooBig.

Definition maxUint64 : Z := 2 ^ 64 - 1.

(** The smallest number such that [cutoff * 10 > maxUint64]. *)
Definition cutoff : Z := maxUint64 / 10 + 1.

(** The digit loop of [ParseUint] in base 10, byte by byte:
    [n = n*10 + (c - '0')], stopping at the first byte that is not a
    decimal digit or at the first digit that takes the value past 64
    bits, whichever comes first. (The fast path of [Atoi], for texts
    shorter than 19 bytes, is the same loop without the test for size,
    which no such text fails.) *)
Fixpoint digits (s : string) (n : Z) : scanned :=
  match s with
  | EmptyString => Value n
  | String ch r =>
      if isDigit ch then
        if cutoff <=? n then TooBig
        else
          let n1 := n * 10 + digitVal ch in
          if maxUint64 <? n1 then TooBig else digits r n1
      else BadByte
  end.

Definition maxInt : Z := 2 ^ 63 - 1.
Definition minInt : Z := - 2 ^ 63.

(** [strconv.Atoi]: an optional sign followed by one or more decimal
    digits; the result must fit a 64-bit [int]. On a range error the
    value is the nearest bound. *)
Definition Atoi (s : string) : Z * option error :=
  let syntaxErr := (0, Some (NumError "Atoi" s ErrSyntax)) in
  match s with
  | EmptyString => syntaxErr
  | String c0 r =>
      let neg := Ascii.eqb c0 "-" in
      let body := if neg || Ascii.eqb c0 "+" then r else s in
      match body with
      | EmptyString => syntaxErr
      | _ =>
          match digits body 0 with
          | BadByte => syntaxErr
          | TooBig =>
              if neg then (minInt, Some (NumError "Atoi" s ErrRange))
              else (maxInt, Some (NumError "Atoi" s ErrRange))
          | Value un =>
              let n := if neg then - un else un in
              if maxInt <? n then (maxInt, Some (NumError "Atoi" s ErrRange))
              else if n <? minInt then (minInt, Some (NumError "Atoi" s ErrRange))
              else (n, None)
          end
      end
  end.

Definition digitChar (d : Z) : ascii := ascii_of_nat (Z.to_nat (48 + d)).

(** [formatBits] in base 10: the digits of [u], least significant first,
    pushed in front of [acc]. Twenty rounds cover every 64-bit value. *)
Fixpoint formatBits (fuel : nat) (u : Z) (acc : string) : string :=
  match fuel with
  | O => acc
  | S f =>
      let acc' := String (digitChar (u mod 10)) acc in
      if u / 10 =? 0 then acc' else formatBits f (u / 10) acc'
  end.

(** [strconv.Itoa] *)
Definition Itoa (i : Z) : string :=
  if i <? 0 then String "-" (formatBits 20 (- i) "")
  else formatBits 20 i "".

End strconv.


(** ** net: addresses *)

Module net.

(** [net.IP] is a byte slice; [nil] is the empty list. *)
Definition IP : Type := list Z.

Definition load (l : list Z) (i : Z) : Z := nth (Z.to_nat i) l 0.

Fixpoint store_nat (l : list Z) (i : nat) (v : Z) : list Z :=
  match l, i with
  | [], _ => []
  | _ :: r, O => v :: r
  | x :: r, S j => x :: store_nat r j v
  end.

(** [l[i] = v] *)
Definition store (l : list Z) (i : Z) (v : Z) : list Z :=
  store_nat l (Z.to_nat i) v.

Definition missingPort : string := "missing port in address".
Definition tooManyColons : string := "too many colons in address".

(** [net.SplitHostPort] *)
Definition SplitHostPort (hostport : string) : string * string * option error :=
  let addrErr (why : string) := ("", "", Some (AddrError why hostport)) in
  (* The port starts after the last colon. *)
  let i := LastIndexByteString hostport ":" in
  if i <? 0 then addrErr missingPort
  else
    let bracketed := byteIs hostport 0 "[" in
    let end_ := IndexByteString hostport "]" in
    let finish (host : string) (j k : Z) :=
      if 0 <=? IndexByteString (sliceFrom hostport j) "[" then
        addrErr "unexpected '[' in address"
      else if 0 <=? IndexByteString (sliceFrom hostport k) "]" then
        addrErr "unexpected ']' in address"
      else (host, sliceFrom hostport (i + 1), None) in
    if bracketed then
      (* Expect the first ']' just before the last ':'. *)
      if end_ <? 0 then addrErr "missing ']' in address"
      else if end_ + 1 =? len hostport then addrErr missingPort
      else if end_ + 1 =? i then finish (slice hostport 1 end_) 1 (end_ + 1)
      else if byteIs hostport (end_ + 1) ":" then addrErr tooManyColons
      else addrErr missingPort
    else
      let host := slice hostport 0 i in
      if 0 <=? IndexByteString host ":" then addrErr tooManyColons
      else finish host 0 0.

(** [parseIPv4Fields] of [net/netip]: four decimal octets without leading
    zeros, separated by single dots. [prev] is the byte before the current
    one ([None] at index 0). *)
Fixpoint parseIPv4Fields (s : string) (prev : option ascii)
    (val pos digLen : Z) (fields : list Z) : option (list Z) :=
  match s with
  | EmptyString => if pos <? 3 then None else Some (store fields 3 val)
  | String c r =>
      if strconv.isDigit c then
        if (digLen =? 1) && (val =? 0) then None
        else
          let val' := val * 10 + strconv.digitVal c in
          if 255 <? val' then None
          else parseIPv4Fields r (Some c) val' pos (digLen + 1) fields
      else if Ascii.eqb c "." then
        let first := match prev with None => true | Some _ => false end in
        let last := match r with EmptyString => true | _ => false end in
        let afterDot :=
          match prev with Some p => Ascii.eqb p "." | None => false end in
        if first || last || afterDot then None
        else if pos =? 3 then None
        else parseIPv4Fields r (Some c) 0 (pos + 1) 0 (store fields pos val)
      else None
  end.

Definition parseIPv4 (s : string) : option (list Z) :=
  parseIPv4Fields s None 0 0 0 [0; 0; 0; 0].

Definition hexVal (c : ascii) : option Z :=
  let n := Z.of_nat (nat_of_ascii c) in
  if (48 <=? n) && (n <=? 57) then Some (n - 48)
  else if (97 <=? n) && (n <=? 102) then Some (n - 97 + 10)
  else if (65 <=? n) && (n <=? 70) then Some (n - 65 + 10)
  else None.

(** The inner loop of [parseIPv6]: reads hexadecimal digits into [acc];
    returns the number of digits, the value and the unread rest, or [None]
    for a group of more than four digits. *)
Fixpoint hexGroup (s : string) (off acc : Z) : option (Z * Z * string) :=
  match s with
  | EmptyString => Some (off, acc, s)
  | String c r =>
      match hexVal c with
      | None => Some (off, acc, s)
      | Some v =>
          let acc' := Z.shiftl acc 4 + v in
          if 3 <? off then None
          else if 65535 <? acc' then None
          else hexGroup r (off + 1) acc'
      end
  end.

(** [ip[i:i+4]] receives the four fields of an embedded IPv4 address. *)
Definition store4 (ip : list Z) (i : Z) (f : list Z) : list Z :=
  store (store (store (store ip i (load f 0)) (i + 1) (load f 1))
           (i + 2) (load f 2)) (i + 3) (load f 3).

(** The main loop of [parseIPv6], [for i < 16]. Every round that continues
    adds 2 to [i], so eight rounds exhaust it. The result is the state
    after the loop: the unread rest, [i], the bytes and the position of the
    ellipsis. *)
Fixpoint parseIPv6_loop (rounds : nat) (s : string) (i : Z) (ip : list Z)
    (ellipsis : Z) : option (string * Z * list Z * Z) :=
  match rounds with
  | O => Some (s, i, ip, ellipsis)
  | S rounds' =>
      if negb (i <? 16) then Some (s, i, ip, ellipsis)
      else
        match hexGroup s 0 0 with
        | None => None
        | Some (off, acc, rest) =>
            if off =? 0 then None
            else
              match rest with
              | String "." _ =>
                  (* followed by a dot: trailing IPv4 *)
                  if (ellipsis <? 0) && negb (i =? 12) then None
                  else if 16 <? i + 4 then None
                  else
                    match parseIPv4 s with
                    | None => None
                    | Some f => Some ("", i + 4, store4 ip i f, ellipsis)
                    end
              | _ =>
                  let ip' :=
                    store (store ip i (Z.shiftr acc 8)) (i + 1)
                          (Z.land acc 255) in
                  let i' := i + 2 in
                  match rest with
                  | EmptyString => Some ("", i', ip', ellipsis)
                  | String c r1 =>
                      if negb (Ascii.eqb c ":") then None
                      else
                        match r1 with
                        | EmptyString => None
                        | String c2 r2 =>
                            if Ascii.eqb c2 ":" then
                              if 0 <=? ellipsis then None
                              else
                                match r2 with
                                | EmptyString => Some ("", i', ip', i')
                                | _ => parseIPv6_loop rounds' r2 i' ip' i'
                                end
                            else parseIPv6_loop rounds' r1 i' ip' ellipsis
                        end
                  end
              end
        end
  end.

(** [for j := i - 1; j >= ellipsis; j-- { ip[j+n] = ip[j] }] *)
Fixpoint moveUp (cnt : nat) (j n : Z) (ip : list Z) : list Z :=
  match cnt with
  | O => ip
  | S c => moveUp c (j - 1) n (store ip (j + n) (load ip j))
  end.

(** [clear(ip[from : from+n])] *)
Fixpoint clearRange (cnt : nat) (from : Z) (ip : list Z) : list Z :=
  match cnt with
  | O => ip
  | S c => clearRange c (from + 1) (store ip from 0)
  end.

Definition zero16 : list Z := repeat 0 16.

(** [parseIPv6] of [net/netip]: the sixteen bytes and the zone. *)
Definition parseIPv6 (in_ : string) : option (list Z * string) :=
  let pc := IndexByteString in_ "%" in
  let s := if 0 <=? pc then slice in_ 0 pc else in_ in
  let zone := if 0 <=? pc then sliceFrom in_ (pc + 1) else "" in
  if (0 <=? pc) && (len zone =? 0) then None
  else
    let lead := (2 <=? len s) && byteIs s 0 ":" && byteIs s 1 ":" in
    let ellipsis := if lead then 0 else -1 in
    let s := if lead then sliceFrom s 2 else s in
    if lead && (len s =? 0) then Some (zero16, zone)
    else
      match parseIPv6_loop 8 s 0 zero16 ellipsis with
      | None => None
      | Some (s, i, ip, ellipsis) =>
          if negb (len s =? 0) then None
          else if i <? 16 then
            if ellipsis <? 0 then None
            else
              let n := 16 - i in
              let ip := moveUp (Z.to_nat (i - ellipsis)) (i - 1) n ip in
              Some (clearRange (Z.to_nat n) ellipsis ip, zone)
          else if 0 <=? ellipsis then None
          else Some (ip, zone)
      end.

(** The IPv4-mapped form [Addr.As16] gives an IPv4 address. *)
Definition v4InV6 (f : list Z) : list Z :=
  repeat 0 10 ++ [255; 255] ++ f.

(** [netip.ParseAddr] followed by the test of [net.parseIP]: the first of
    ['.'], [':'] and ['%'] in [s] selects the parser; an address with a zone
    is refused. *)
Fixpoint parseIP_scan (rest whole : string) : option (list Z) :=
  match rest with
  | EmptyString => None
  | String c r =>
      if Ascii.eqb c "." then option_map v4InV6 (parseIPv4 whole)
      else if Ascii.eqb c ":" then
        match parseIPv6 whole with
        | Some (ip, EmptyString) => Some ip
        | _ => None
        end
      else if Ascii.eqb c "%" then None
      else parseIP_scan r whole
  end.

(** [net.ParseIP]: the 16-byte form of the address, or [nil]. *)
Definition ParseIP (s : string) : IP :=
  match parseIP_scan s s with
  | Some ip => ip
  | None => []
  end.

Definition hexDigit (d : Z) : ascii :=
  if d <? 10 then ascii_of_nat (Z.to_nat (48 + d))
  else ascii_of_nat (Z.to_nat (97 + d - 10)).

(** [appendHex]: lower-case hexadecimal without leading zeros. *)
Definition appendHex (x : Z) : string :=
  (if 4096 <=? x then String (hexDigit (Z.shiftr x 12)) "" else "") ++
  (if 256 <=? x then String (hexDigit (Z.land (Z.shiftr x 8) 15)) "" else "") ++
  (if 16 <=? x then String (hexDigit (Z.land (Z.shiftr x 4) 15)) "" else "") ++
  String (hexDigit (Z.land x 15)) "".

(** [hexString]: two hexadecimal digits a byte. *)
Fixpoint hexString (b : list Z) : string :=
  match b with
  | [] => ""
  | x :: r =>
      String (hexDigit (Z.shiftr x 4)) (String (hexDigit (Z.land x 15)) (hexString r))
  end.

(** [Addr.v6u16(i)] *)
Definition v6u16 (ip : list Z) (i : Z) : Z :=
  Z.lor (Z.shiftl (load ip (2 * i)) 8) (load ip (2 * i + 1)).

(** [for j < 8 && ip.v6u16(j) == 0 { j++ }] *)
Fixpoint zeroRunEnd (fuel : nat) (ip : list Z) (j : Z) : Z :=
  match fuel with
  | O => j
  | S f =>
      if (j <? 8) && (v6u16 ip j =? 0) then zeroRunEnd f ip (j + 1) else j
  end.

(** The first loop of [appendTo6]: the first longest run of at least two
    zero groups, [(255, 255)] when there is none. *)
Fixpoint longestZeroRun (fuel : nat) (ip : list Z) (i zeroStart zeroEnd : Z)
    : Z * Z :=
  match fuel with
  | O => (zeroStart, zeroEnd)
  | S f =>
      let j := zeroRunEnd 8 ip i in
      let l := j - i in
      if (2 <=? l) && ((zeroEnd - zeroStart) mod 256 <? l)
      then longestZeroRun f ip (i + 1) i j
      else longestZeroRun f ip (i + 1) zeroStart zeroEnd
  end.

(** The second loop of [appendTo6]. *)
Fixpoint print6 (fuel : nat) (ip : list Z) (i zeroStart zeroEnd : Z) : string :=
  match fuel with
  | O => ""
  | S f =>
      if negb (i <? 8) then ""
      else if i =? zeroStart then
        "::" ++
        (if 8 <=? zeroEnd then ""
         else appendHex (v6u16 ip zeroEnd) ++ print6 f ip (zeroEnd + 1) zeroStart zeroEnd)
      else
        (if 0 <? i then ":" else "") ++
        appendHex (v6u16 ip i) ++ print6 f ip (i + 1) zeroStart zeroEnd
  end.

Definition string6 (ip : list Z) : string :=
  let '(zs, ze) := longestZeroRun 8 ip 0 255 255 in
  print6 8 ip 0 zs ze.

Definition string4 (p : list Z) : string :=
  strconv.Itoa (load p 0) ++ "." ++ strconv.Itoa (load p 1) ++ "." ++
  strconv.Itoa (load p 2) ++ "." ++ strconv.Itoa (load p 3).

Definition isZeros (p : list Z) : bool := forallb (Z.eqb 0) p.

(** [IP.To4]: the 4-byte form of an IPv4 address, or [nil]. *)
Definition To4 (ip : IP) : IP :=
  if Z.of_nat (List.length ip) =? 4 then ip
  else if (Z.of_nat (List.length ip) =? 16) && isZeros (firstn 10 ip) &&
          (load ip 10 =? 255) && (load ip 11 =? 255)
  then skipn 12 ip
  else [].

(** [IP.String] *)
Definition IPString (ip : IP) : string :=
  let n := Z.of_nat (List.length ip) in
  if n =? 0 then "<nil>"
  else if negb (n =? 4) && negb (n =? 16) then "?" ++ hexString ip
  else
    let p4 := To4 ip in
    if Z.of_nat (List.length p4) =? 4 then string4 p4
    else string6 ip.

End net.

(** ** The DNS library the client is built on (github.com/miekg/dns) *)

Module miekg.

Definition TypeA : Z := 1.
Definition TypeAAAA : Z := 28.
Definition ClassINET : Z := 1.
Definition RcodeSuccess : Z := 0.
Definition RcodeNameError : Z := 3.

Record Question : Type := mkQuestion {
  Name : string;
  Qtype : Z;
  Qclass : Z
}.

Record NAPTR : Type := mkNAPTR {
  Order : Z;
  Preference : Z;
  Flags : string;
  Service : string;
  Regexp : string;
  Replacement : string
}.

(** The resource records of an answer section. [RR_other] stands for every
    record type the library knows besides those named here and carries the
    Go type name the [%T] verb prints for it. *)
Inductive RR : Type :=
| RR_A (A : net.IP)
| RR_AAAA (AAAA : net.IP)
| RR_CNAME (Target : string)
| RR_NS (Ns : string)
| RR_PTR (Ptr : string)
| RR_NAPTR (rr : NAPTR)
| RR_other (goType : string).

(** What [%T] prints for a record. *)
Definition typeName (a : RR) : string :=
  match a with
  | RR_A _ => "*dns.A"
  | RR_AAAA _ => "*dns.AAAA"
  | RR_CNAME _ => "*dns.CNAME"
  | RR_NS _ => "*dns.NS"
  | RR_PTR _ => "*dns.PTR"
  | RR_NAPTR _ => "*dns.NAPTR"
  | RR_other t => t
  end.

(** [dns.Msg], without the random message id. *)
Record Msg : Type := mkMsg {
  RecursionDesired : bool;
  Rcode : Z;
  Questions : list Question;
  Answer : list RR
}.

Definition emptyMsg : Msg := mkMsg false 0 [] [].

(** [Msg.SetQuestion(z, t)] *)
Definition SetQuestion (m : Msg) (z : string) (t : Z) : Msg :=
  mkMsg true (Rcode m) [mkQuestion z t ClassINET] (Answer m).

(** The outcome of [Client.ExchangeContext]: a response, or the error of the
    transport. *)
Inductive exchanged : Type :=
| Response (r : Msg)
| Failure (err : error).

(** A transport: what the network answers to a message sent to a dial
    target. *)
Definition transport : Type := Msg -> string -> exchanged.

End miekg.

(** ** Package dns *)

(** [uint16(x)] *)
Definition uint16 (x : Z) : Z := x mod 65536.

(** *** record_type.go *)

Definition RecordType : Type := Z.

Definition RecordTypeA : RecordType := 1.
Definition RecordTypeAAAA : RecordType := 28.
Definition RecordTypeCNAME : RecordType := 5.
Definition RecordTypeNS : RecordType := 2.
Definition RecordTypePTR : RecordType := 12.

(** Modelled from the spec: the constant [RecordTypeNAPTR], which the tests
    use and the later revision of the client decodes, is declared in a
    revision of record_type.go that is missing; like the other constants it
    is aligned with the library's value for the type, 35. *)
Definition RecordTypeNAPTR : RecordType := 35.

(** Modelled from the spec: the generated file record_type_gen.go is
    missing. Its name table lists the canonical name of every supported
    record type. *)
Definition recordTypeNames : list (string * RecordType) :=
  [ ("A", RecordTypeA); ("AAAA", RecordTypeAAAA); ("CNAME", RecordTypeCNAME);
    ("NS", RecordTypeNS); ("PTR", RecordTypePTR); ("NAPTR", RecordTypeNAPTR) ].

Fixpoint lookupName (tbl : list (string * RecordType)) (s : string)
    : option RecordType :=
  match tbl with
  | [] => None
  | (n, v) :: r => if String.eqb n s then Some v else lookupName r s
  end.

Fixpoint lookupValue (tbl : list (string * RecordType)) (v : RecordType)
    : option string :=
  match tbl with
  | [] => None
  | (n, w) :: r => if Z.eqb w v then Some n else lookupValue r v
  end.

(** Modelled from the spec: [RecordTypeString] of the missing
    record_type_gen.go, the spec's [parse]: a case-sensitive lookup by
    canonical name that fails when the name is not in the supported set. *)
Definition RecordTypeString (s : string) : RecordType * option error :=
  match lookupName recordTypeNames s with
  | Some v => (v, None)
  | None =>
      (0, Some (errorString (s ++ " does not belong to RecordType values")))
  end.

(** Modelled from the spec: the [String] method of the missing
    record_type_gen.go, the spec's [name]: the canonical name of a supported
    record type. *)
Definition RecordType_String (t : RecordType) : string :=
  match lookupValue recordTypeNames t with
  | Some n => n
  | None => "RecordType(" ++ strconv.Itoa t ++ ")"
  end.

(** Modelled from the spec: the sentinel [ErrUnsupportedRecordType] of the
    missing errors file; only its identity matters. *)
Definition ErrUnsupportedRecordType : error :=
  errorString "unsupported record type".

(** Modelled from the spec: [newDNSError] of the missing errors file: a
    DNS error that carries the numeric status and a classification which
    tells a domain that does not exist from the other failures. *)
Definition newDNSError (rcode : Z) (message : string) : error :=
  DNSError (if rcode =? miekg.RcodeNameError then NonExistingDomain
            else OtherFailure)
           rcode message.

(** *** nameserver.go *)

Record Nameserver : Type := mkNameserver {
  IP : net.IP;
  Port : Z
}.

(** [Nameserver{}] *)
Definition noNameserver : Nameserver := mkNameserver [] 0.

(** [Nameserver.Addr] *)
Definition Addr (n : Nameserver) : string :=
  net.IPString (IP n) ++ ":" ++ strconv.Itoa (Port n).

(** [NewNameserver] *)
Definition NewNameserver (ip : net.IP) (port : Z) : Nameserver :=
  mkNameserver ip port.

(** [ParseNameserverAddr], the exported revision. The first part finds
    [hostStr] and [portStr] or returns early with an error. *)
Definition ParseNameserverAddr (addr : string) : Nameserver * option error :=
  let split : string * string + error :=
    (* Check if the address contains a port *)
    if negb (ContainsRune addr ":") then inl (addr, "")
    else
      (* Split the host and the port from the address string *)
      let '(hostStr, portStr, err) := net.SplitHostPort addr in
      match err with
      | None => inl (hostStr, portStr)
      | Some e =>
          (* IPv6 addresses can contain colons *)
          if negb (Contains addr "]") then
            inr (wrapError "invalid nameserver address format: " e "")
          else if byteIs addr 0 "[" && byteIs addr (len addr - 1) "]" then
            (* Try to trim the brackets from the IPv6 address *)
            inl (slice addr 1 (len addr - 1), portStr)
          else inr (wrapError "invalid IPv6 namerserver address format: " e "")
      end in
  match split with
  | inr e => (noNameserver, Some e)
  | inl (hostStr, portStr) =>
      (* Parse the host part into an IP *)
      let ip := net.ParseIP hostStr in
      match ip with
      | [] => (noNameserver,
               Some (errorString ("invalid nameserver IP address: " ++ hostStr)))
      | _ =>
          let portStr := if String.eqb portStr "" then "53" else portStr in
          (* Convert the port to an integer *)
          let '(port, err) := strconv.Atoi portStr in
          match err with
          | Some e =>
              (noNameserver,
               Some (wrapError "nameserver port is not a number: " e ""))
          | None =>
              if (port <? 0) || (65535 <? port) then
                (noNameserver,
                 Some (errorString
                         ("nameserver port out of range: " ++ strconv.Itoa port)))
              else (mkNameserver ip (uint16 port), None)
          end
      end
  end.

(** [parseHostAndPort] *)
Definition parseHostAndPort (addr : string) : string * string * option error :=
  let port := "53" in
  (* Check if the address contains a port *)
  if ContainsRune addr ":" then
    (* Split the host and the port from the address string *)
    let '(host, port, err) := net.SplitHostPort addr in
    match err with
    | None => (host, port, None)
    | Some e =>
        if Contains addr "]" && (byteIs addr 0 "[" && byteIs addr (len addr - 1) "]")
        then (slice addr 1 (len addr - 1), port, None)
        else ("", "", Some (wrapError "invalid nameserver address format: " e ""))
    end
  else (addr, port, None).

(** [parseNameserverAddr], the unexported revision built on
    [parseHostAndPort]. *)
Definition parseNameserverAddr (addr : string) : Nameserver * option error :=
  let '(hostStr, portStr, err) := parseHostAndPort addr in
  match err with
  | Some e => (noNameserver, Some e)
  | None =>
      (* Parse the host part into an IP *)
      let ip := net.ParseIP hostStr in
      match ip with
      | [] => (noNameserver,
               Some (errorString ("invalid nameserver IP address: " ++ hostStr)))
      | _ =>
          let portStr := if String.eqb portStr "" then "53" else portStr in
          (* Convert the port to an integer *)
          let '(port, err) := strconv.Atoi portStr in
          match err with
          | Some e =>
              (noNameserver,
               Some (wrapError "nameserver port is not a number: " e ""))
          | None =>
              if (port <? 0) || (65535 <? port) then
                (noNameserver,
                 Some (errorString
                         ("nameserver port out of range: " ++ strconv.Itoa port)))
              else (mkNameserver ip (uint16 port), None)
          end
      end
  end.

(** *** module.go *)

Record resolveOptions : Type := mkResolveOptions {
  nameserver : string
}.

(** [resolveOptions.ParseNameserver] *)
Definition ParseNameserver (ro : resolveOptions) : Nameserver * option error :=
  let '(hostStr, portStr, err) :=
    (* If a port was explicitly provided, let's extract and use it. *)
    if ContainsRune (nameserver ro) ":" then net.SplitHostPort (nameserver ro)
    else (nameserver ro, "53", None) in
  match err with
  | Some e => (noNameserver, Some (wrapError "invalid nameserver address: " e ""))
  | None =>
      (* Convert the port to an integer *)
      let '(port, err) := strconv.Atoi portStr in
      match err with
      | Some e => (noNameserver, Some (wrapError "invalid port: " e ""))
      | None => (NewNameserver (net.ParseIP hostStr) (uint16 port), None)
      end
  end.

(** *** client.go *)

(** The one-byte string holding a double quote, the Go literal of a backslash-escaped quote. *)
Definition dquote : string := String (ascii_of_nat 34) EmptyString.

(** [fmtNAPTRAnswer] *)
Definition fmtNAPTRAnswer (answer : miekg.NAPTR) : string :=
  strconv.Itoa (miekg.Order answer) ++ " " ++
  strconv.Itoa (miekg.Preference answer) ++ " " ++
  dquote ++ miekg.Flags answer ++ dquote ++ " " ++
  dquote ++ miekg.Service answer ++ dquote ++ " " ++
  dquote ++ miekg.Regexp answer ++ dquote ++ " " ++
  miekg.Replacement answer.

(** What a call of [Resolve] does and returns: the exchanges it performed
    with the transport (message and dial target, in order), the result list
    ([[]] for [nil]) and the error. *)
Record resolved : Type := mkResolved {
  exchanges : list (miekg.Msg * string);
  ips : list string;
  err : option error
}.

(** The revision of the client that converts the record type by a switch
    and decodes A, AAAA, CNAME, NS and PTR answers. *)
Module ClientRev1.

(** The loop over [response.Answer]. *)
Fixpoint decodeAnswers (answer : list miekg.RR) (ips : list string)
    : list string * option error :=
  match answer with
  | [] => (ips, None)
  | a :: rest =>
      match a with
      | miekg.RR_A ip => decodeAnswers rest (ips ++ [net.IPString ip])
      | miekg.RR_AAAA ip => decodeAnswers rest (ips ++ [net.IPString ip])
      | miekg.RR_CNAME target => decodeAnswers rest (ips ++ [target])
      | miekg.RR_NS ns => decodeAnswers rest (ips ++ [ns])
      | miekg.RR_PTR ptr => decodeAnswers rest (ips ++ [ptr])
      | _ =>
          ([], Some (errorString ("unhandled DNS answer type " ++ miekg.typeName a)))
      end
  end.

(** The records the loop has a case for. *)
Definition decodable (a : miekg.RR) : bool :=
  match a with
  | miekg.RR_A _ | miekg.RR_AAAA _ | miekg.RR_CNAME _ | miekg.RR_NS _
  | miekg.RR_PTR _ => true
  | _ => false
  end.

(** The switch that converts the record type for [SetQuestion];
    [concreteType] is declared without a value and so starts at 0. *)
Definition concreteType (rt : RecordType) : Z :=
  if rt =? RecordTypeA then miekg.TypeA
  else if rt =? RecordTypeAAAA then miekg.TypeAAAA
  else 0.

(** [Client.Resolve] *)
Definition Resolve (exchange : miekg.transport) (query recordType : string)
    (nameserver : Nameserver) : resolved :=
  let '(rt, err) := RecordTypeString recordType in
  match err with
  | Some e => mkResolved [] [] (Some (wrapError "invalid record type: " e ""))
  | None =>
      (* Prepare the DNS query message *)
      let message :=
        miekg.SetQuestion miekg.emptyMsg (query ++ ".") (concreteType rt) in
      (* Query the nameserver *)
      let sent := [(message, Addr nameserver)] in
      match exchange message (Addr nameserver) with
      | miekg.Failure e => mkResolved sent [] (Some e)
      | miekg.Response response =>
          let '(ips, err) := decodeAnswers (miekg.Answer response) [] in
          mkResolved sent ips err
      end
  end.

End ClientRev1.

(** The revision of the client that converts the record type by
    [uint16(concreteType)], checks the response code and decodes A, AAAA and
    NAPTR answers. *)
Module ClientRev2.

(** The loop over [response.Answer]. *)
Fixpoint decodeAnswers (answer : list miekg.RR) (ips : list string)
    : list string * option error :=
  match answer with
  | [] => (ips, None)
  | a :: rest =>
      match a with
      | miekg.RR_A ip => decodeAnswers rest (ips ++ [net.IPString ip])
      | miekg.RR_AAAA ip => decodeAnswers rest (ips ++ [net.IPString ip])
      | miekg.RR_NAPTR t => decodeAnswers rest (ips ++ [fmtNAPTRAnswer t])
      | _ =>
          ([], Some (wrapError "resolve operation failed with "
                       ErrUnsupportedRecordType
                       (": unhandled DNS answer type " ++ miekg.typeName a)))
      end
  end.

(** The records the loop has a case for. *)
Definition decodable (a : miekg.RR) : bool :=
  match a with
  | miekg.RR_A _ | miekg.RR_AAAA _ | miekg.RR_NAPTR _ => true
  | _ => false
  end.

(** [Client.Resolve] *)
Definition Resolve (exchange : miekg.transport) (query recordType : string)
    (nameserver : Nameserver) : resolved :=
  let '(concreteType, err) := RecordTypeString recordType in
  match err with
  | Some _ =>
      mkResolved [] []
        (Some (wrapError "resolve operation failed with "
                 ErrUnsupportedRecordType
                 (", " ++ recordType ++ " is an invalid DNS record type")))
  | None =>
      (* Prepare the DNS query message *)
      let message :=
        miekg.SetQuestion miekg.emptyMsg (query ++ ".") (uint16 concreteType) in
      (* Query the nameserver *)
      let sent := [(message, Addr nameserver)] in
      match exchange message (Addr nameserver) with
      | miekg.Failure e =>
          mkResolved sent [] (Some (wrapError "querying the DNS nameserver failed: " e ""))
      | miekg.Response response =>
          if negb (miekg.Rcode response =? miekg.RcodeSuccess) then
            mkResolved sent [] (Some (newDNSError (miekg.Rcode response) "DNS query failed"))
          else
            let '(ips, err) := decodeAnswers (miekg.Answer response) [] in
            mkResolved sent ips err
      end
  end.

End ClientRev2.

(** ** Notions the statements use *)

(** A byte of an address. *)
Definition isByte (b : Z) : Prop := 0 <= b < 256.

(** A well-formed nameserver: the address is a byte slice and the port a
    [uint16]. *)
Definition wfNameserver (n : Nameserver) : Prop :=
  Forall isByte (IP n) /\ 0 <= Port n < 65536.

(** Every byte of a string passes a test. *)
Fixpoint allBytes (p : ascii -> bool) (s : string) : bool :=
  match s with
  | EmptyString => true
  | String c r => p c && allBytes p r
  end.

Definition notBracket (c : ascii) : bool :=
  negb (Ascii.eqb c "[") && negb (Ascii.eqb c "]").

(** The question names of the messages a call of [Resolve] sent. *)
Definition questionNames (r : resolved) : list string :=
  flat_map (fun x => map miekg.Name (miekg.Questions (fst x))) (exchanges r).

(** The dial targets a call of [Resolve] handed to the transport. *)
Definition dialTargets (r : resolved) : list string :=
  map snd (exchanges r).

(** An address in IPv4 form: [To4] does not give [nil]. *)
Definition isIPv4 (ip : net.IP) : Prop := net.To4 ip <> [].

(** ASCII lower case, as [strings.ToLower] on ASCII text. *)
Definition lowerByte (c : ascii) : ascii :=
  let n := nat_of_ascii c in
  if (65 <=? n)%nat && (n <=? 90)%nat then ascii_of_nat (n + 32) else c.

Fixpoint ToLower (s : string) : string :=
  match s with
  | EmptyString => EmptyString
  | String c r => String (lowerByte c) (ToLower r)
  end.

(** The second part of [ParseNameserverAddr] and of [parseNameserverAddr],
    which is the same text in both: from the parse of the host to the
    end. *)
Definition parseIPAndPort (hostStr portStr : string) : Nameserver * option error :=
  let ip := net.ParseIP hostStr in
  match ip with
  | [] => (noNameserver,
           Some (errorString ("invalid nameserver IP address: " ++ hostStr)))
  | _ =>
      let portStr := if String.eqb portStr "" then "53" else portStr in
      let '(port, err) := strconv.Atoi portStr in
      match err with
      | Some e =>
          (noNameserver, Some (wrapError "nameserver port is not a number: " e ""))
      | None =>
          if (port <? 0) || (65535 <? port) then
            (noNameserver,
             Some (errorString ("nameserver port out of range: " ++ strconv.Itoa port)))
          else (mkNameserver ip (uint16 port), None)
      end
  end.

(** A parse that succeeds with the address printed as [ip] and the port
    [port]. *)
Definition parsesTo (r : Nameserver * option error) (ip : string) (port : Z)
    : Prop :=
  snd r = None /\ net.IPString (IP (fst r)) = ip /\ Port (fst r) = port.

(** A parse that fails with the invalid-address-format error, around the
    error of [net.SplitHostPort]. *)
Definition invalidAddressFormat (r : Nameserver * option error) : Prop :=
  exists cause,
    r = (noNameserver,
         Some (wrapError "invalid nameserver address format: " cause "")).

(** Sample data: a nameserver, and two responses with success status, one
    whose second answer is a record without a decoder (MX), and one with the
    status of a name error. *)
Definition sampleNameserver : Nameserver :=
  mkNameserver (net.ParseIP "203.0.113.1") 53.

Definition sampleUnhandled : miekg.Msg :=
  miekg.mkMsg true miekg.RcodeSuccess []
    [miekg.RR_A (net.ParseIP "203.0.113.1"); miekg.RR_other "*dns.MX";
     miekg.RR_A (net.ParseIP "203.0.113.11")].

Definition sampleNameError : miekg.Msg :=
  miekg.mkMsg true miekg.RcodeNameError []
    [miekg.RR_A (net.ParseIP "203.0.113.1")].

(** ** Further notions *)

(** The string the earlier revision of the client gives for a record it
    decodes. *)
Definition renderRev1 (a : miekg.RR) : string :=
  match a with
  | miekg.RR_A ip => net.IPString ip
  | miekg.RR_AAAA ip => net.IPString ip
  | miekg.RR_CNAME target => target
  | miekg.RR_NS ns => ns
  | miekg.RR_PTR ptr => ptr
  | _ => ""
  end.

(** The string the later revision of the client gives for a record it
    decodes. *)
Definition renderRev2 (a : miekg.RR) : string :=
  match a with
  | miekg.RR_A ip => net.IPString ip
  | miekg.RR_AAAA ip => net.IPString ip
  | miekg.RR_NAPTR t => fmtNAPTRAnswer t
  | _ => ""
  end.

(** An address record, A or AAAA. *)
Definition isAddressRecord (a : miekg.RR) : bool :=
  match a with
  | miekg.RR_A _ | miekg.RR_AAAA _ => true
  | _ => false
  end.

(** The errors [ParseNameserverAddr] and [parseNameserverAddr] return. *)
Inductive parseError (addr : string) : error -> Prop :=
| invalidFormat (why : string) :
    parseError addr
      (wrapError "invalid nameserver address format: " (AddrError why addr) "")
| invalidIPv6Format (why : string) :
    parseError addr
      (wrapError "invalid IPv6 namerserver address format: " (AddrError why addr) "")
| invalidIP (hostStr : string) :
    net.ParseIP hostStr = [] ->
    parseError addr (errorString ("invalid nameserver IP address: " ++ hostStr))
| invalidPort (portStr : string) (cause : error) :
    parseError addr
      (wrapError "nameserver port is not a number: "
         (NumError "Atoi" portStr cause) "")
| portOutOfRange (port : Z) :
    port < 0 \/ 65535 < port ->
    parseError addr
      (errorString ("nameserver port out of range: " ++ strconv.Itoa port)).

(** A byte of the text of an address: a hexadecimal digit, a colon or a
    dot. *)
Definition isAddressByte (c : ascii) : bool :=
  match net.hexVal c with
  | Some _ => true
  | None => Ascii.eqb c ":" || Ascii.eqb c "."
  end.

(** A byte of a decimal numeral with an optional sign. *)
Definition isNumberByte (c : ascii) : bool :=
  strconv.isDigit c || Ascii.eqb c "-" || Ascii.eqb c "+".

(** A byte of a dotted IPv4 address: a decimal digit or a dot. *)
Definition isDottedByte (c : ascii) : bool :=
  strconv.isDigit c || Ascii.eqb c ".".

(** The port text the parsers convert: "53" when the port substring is
    empty. *)
Definition portText (portStr : string) : string :=
  if String.eqb portStr "" then "53" else portStr.

(** ** strings, and the nameservers of the system (nameservers_unix.go) *)

Module strings.

(** The numeric value of a byte. *)
Definition code (c : ascii) : Z := Z.of_nat (nat_of_ascii c).

(** [asciiSpace]: tab, line feed, vertical tab, form feed, carriage return
    and space. *)
Definition asciiSpace (c : ascii) : bool :=
  ((9 <=? code c) && (code c <=? 13)) || (code c =? 32).

(** The value of the byte at an index, [-1] past the end. *)
Definition byteAt (s : string) (i : nat) : Z :=
  match String.get i s with
  | Some c => code c
  | None => -1
  end.

(** The width in bytes of the white space at the head of a string, 0 when
    there is none. [strings.Fields] splits around [asciiSpace] when the
    text is ASCII and around the runes of [unicode.IsSpace] otherwise; in
    UTF-8 those are the six ASCII bytes and the encodings of U+0085,
    U+00A0, U+1680, U+2000 to U+200A, U+2028, U+2029, U+202F, U+205F and
    U+3000. Each of these encodings starts with a leading byte, which the
    decoder never reads as the continuation of another rune, so a rune
    boundary lies wherever one of them occurs. *)
Definition spaceWidth (s : string) : nat :=
  match s with
  | EmptyString => 0%nat
  | String c r =>
      let b1 := byteAt r 0 in
      let b2 := byteAt r 1 in
      if asciiSpace c then 1%nat
      else if code c =? 194 then
        if (b1 =? 133) || (b1 =? 160) then 2%nat else 0%nat
      else if code c =? 225 then
        if (b1 =? 154) && (b2 =? 128) then 3%nat else 0%nat
      else if code c =? 226 then
        if (b1 =? 128) &&
           (((128 <=? b2) && (b2 <=? 138)) || (b2 =? 168) || (b2 =? 169) ||
            (b2 =? 175))
        then 3%nat
        else if (b1 =? 129) && (b2 =? 159) then 3%nat else 0%nat
      else if code c =? 227 then
        if (b1 =? 128) && (b2 =? 128) then 3%nat else 0%nat
      else 0%nat
  end.

(** The field in progress, closed: nothing when it is empty. *)
Definition closeField (cur : string) : list string :=
  match cur with
  | EmptyString => []
  | _ => [cur]
  end.

(** The scan of [strings.Fields]: [skip] bytes of a white-space rune are
    still to be passed over, [cur] is the field read so far. *)
Fixpoint fieldsFrom (s : string) (skip : nat) (cur : string) : list string :=
  match s with
  | EmptyString => closeField cur
  | String c r =>
      match skip with
      | S k => fieldsFrom r k cur
      | O =>
          match spaceWidth s with
          | O => fieldsFrom r O (cur ++ String c "")
          | S w => (closeField cur ++ fieldsFrom r w "")%list
          end
      end
  end.

(** [strings.Fields] *)
Definition Fields (s : string) : list string := fieldsFrom s 0 "".

(** The scan of [strings.Split(s, "\n")]: [cur] is the piece read so
    far. *)
Fixpoint splitFrom (s : string) (cur : string) : list string :=
  match s with
  | EmptyString => [cur]
  | String c r =>
      if code c =? 10 then cur :: splitFrom r ""
      else splitFrom r (cur ++ String c "")
  end.

(** [strings.Split(s, "\n")] *)
Definition SplitLines (s : string) : list string := splitFrom s "".

(** [strings.HasPrefix] *)
Definition HasPrefix (s prefix : string) : bool := String.prefix prefix s.

End strings.

(** The loop of [systemNameservers] over the lines of the file. *)
Fixpoint systemNameservers_lines (lines : list string) (servers : list string)
    : list string :=
  match lines with
  | [] => servers
  | line :: rest =>
      if strings.HasPrefix line "nameserver" then
        let fields := strings.Fields line in
        if (1 <? Z.of_nat (List.length fields)) then
          systemNameservers_lines rest (servers ++ [nth 1 fields ""])
        else systemNameservers_lines rest servers
      else systemNameservers_lines rest servers
  end.

(** [systemNameservers]; [ReadFile] is [os.ReadFile], from the name of a
    file to its content or an error. *)
Definition systemNameservers (ReadFile : string -> string * option error)
    : list string * option error :=
  let '(content, err) := ReadFile "/etc/resolv.conf" in
  match err with
  | Some e => ([], Some e)
  | None =>
      let lines := strings.SplitLines content in
      (systemNameservers_lines lines [], None)
  end.

(** The servers [systemNameservers] finds when the file holds [content]. *)
Definition serversIn (content : string) : list string :=
  fst (systemNameservers (fun _ => (content, None))).

(** A byte of plain text: ASCII and not white space. *)
Definition isPlainByte (c : ascii) : bool :=
  negb (strings.asciiSpace c) && (strings.code c <? 128).

Definition notAsciiSpace (c : ascii) : bool := negb (strings.asciiSpace c).

Definition notNewline (c : ascii) : bool := negb (strings.code c =? 10).

(** The line feed, the separator of [systemNameservers]. *)
Definition newline : string := String (ascii_of_nat 10) EmptyString.

(** A blank inside a line: ASCII white space other than the line feed. *)
Definition isBlankByte (c : ascii) : bool :=
  strings.asciiSpace c && notNewline c.

(** What may follow the address on a line: nothing, or a blank and any
    text of the same line. *)
Definition restOfLine (tail : string) : bool :=
  match tail with
  | EmptyString => true
  | String c junk => isBlankByte c && allBytes notNewline junk
  end.

(** ** The module (module.go) *)

Module metrics.

(** A tag set; [With] sets the value of a key, [tagValue] reads it. *)
Definition TagSet : Type := list (string * string).

Definition With (tags : TagSet) (key value : string) : TagSet :=
  (key, value) :: tags.

Fixpoint tagValue (tags : TagSet) (key : string) : option string :=
  match tags with
  | [] => None
  | (k, v) :: rest => if String.eqb k key then Some v else tagValue rest key
  end.

(** A sample: the metric, by the name it is registered under, the tags and
    the value. The time stamp is left out. *)
Record Sample : Type := mkSample {
  Metric : string;
  Tags : TagSet;
  Value : Z
}.

(** [metrics.PushIfNotDone]: the sample is appended to the output unless
    the context is done. *)
Definition PushIfNotDone (done : bool) (output : list Sample) (sample : Sample)
    : list Sample :=
  if done then output else (output ++ [sample])%list.

End metrics.

(** The metrics of a module instance, as [registerMetrics] names them. *)
Definition DNSResolutions : string := "dns_resolutions".
Definition DNSResolutionDuration : string := "dns_resolution_duration".
Definition DNSLookups : string := "dns_lookups".
Definition DNSLookupDuration : string := "dns_lookup_duration".

(** How a promise is settled. *)
Inductive settlement : Type :=
| Rejected (reason : error)
| Resolved (value : list string).

(** What a call of the module does: how the promise it returns is settled
    once the goroutine has ended, the exchanges performed with the
    transport and the samples pushed. *)
Record moduleRun : Type := mkModuleRun {
  settled : settlement;
  sent : list (miekg.Msg * string);
  pushed : list metrics.Sample
}.

(** A promise rejected before the goroutine is started. *)
Definition rejectedEarly (reason : error) : moduleRun :=
  mkModuleRun (Rejected reason) [] [].

(** The state of the context at the two calls of [PushIfNotDone]. *)
Record context : Type := mkContext {
  doneAtFirstPush : bool;
  doneAtSecondPush : bool
}.

(** [emitResolutionMetrics]; [stateTags] are the current tags of the
    state. It is the same text in both revisions of the module. *)
Definition emitResolutionMetrics (stateTags : metrics.TagSet) (ctx : context)
    (duration : Z) (query recordType : string) (nameserver : Nameserver)
    : list metrics.Sample :=
  let tags := stateTags in
  let tags := metrics.With tags "query" query in
  let tags := metrics.With tags "recordType" recordType in
  let tags := metrics.With tags "nameserver" (Addr nameserver) in
  (* Increment the DNS lookups counter *)
  let samples :=
    metrics.PushIfNotDone (doneAtFirstPush ctx) []
      (metrics.mkSample DNSResolutions tags 1) in
  (* Emit the DNS lookup duration *)
  metrics.PushIfNotDone (doneAtSecondPush ctx) samples
    (metrics.mkSample DNSResolutionDuration tags duration).

(** [emitLookupMetrics], the same text in both revisions. *)
Definition emitLookupMetrics (stateTags : metrics.TagSet) (ctx : context)
    (duration : Z) (host : string) : list metrics.Sample :=
  let tags := stateTags in
  let tags := metrics.With tags "host" host in
  let samples :=
    metrics.PushIfNotDone (doneAtFirstPush ctx) []
      (metrics.mkSample DNSLookups tags 1) in
  metrics.PushIfNotDone (doneAtSecondPush ctx) samples
    (metrics.mkSample DNSLookupDuration tags duration).

(** [Client.Lookup] of the earlier client; [LookupHost] is
    [net.DefaultResolver.LookupHost]. *)
Definition Lookup_Rev1 (LookupHost : string -> list string * option error)
    (hostname : string) : list string * option error :=
  let '(ips, err) := LookupHost hostname in
  match err with
  | Some e => ([], Some e)
  | None => (ips, None)
  end.

(** [Client.Lookup] of the later client. *)
Definition Lookup_Rev2 (LookupHost : string -> list string * option error)
    (hostname : string) : list string * option error :=
  let '(ips, err) := LookupHost hostname in
  match err with
  | Some e =>
      ([], Some (wrapError ("lookup of " ++ hostname ++ " failed: ") e ""))
  | None => (ips, None)
  end.

Section ModuleInstance.

(** The values of the script, the conversion of one to a Go string by the
    runtime ([Runtime.ExportTo]) and its text under the verb [%v]. *)
Variable JSValue : Type.
Variable ExportTo : JSValue -> string * option error.
Variable format : JSValue -> string.

(** The transport of the client, the resolver of the system, the current
    tags of the state ([None] in the init context, where [vu.State()] is
    [nil]), the context and the milliseconds the operation took. *)
Variable exchange : miekg.transport.
Variable LookupHost : string -> list string * option error.
Variable state : option metrics.TagSet.
Variable ctx : context.
Variable elapsed : Z.

(** The goroutine of [Resolve], the same text in both revisions, around
    the client of each. *)
Definition resolveAsync
    (clientResolve : string -> string -> Nameserver -> resolved)
    (stateTags : metrics.TagSet) (queryStr recordTypeStr : string)
    (nameserver : Nameserver) : moduleRun :=
  let r := clientResolve queryStr recordTypeStr nameserver in
  match err r with
  | Some resolveErr => mkModuleRun (Rejected resolveErr) (exchanges r) []
  | None =>
      (* Emit the metrics *)
      let samples :=
        emitResolutionMetrics stateTags ctx elapsed queryStr recordTypeStr
          nameserver in
      mkModuleRun (Resolved (ips r)) (exchanges r) samples
  end.

(** [ModuleInstance.Lookup], the same text in both revisions, around the
    client of each. *)
Definition moduleLookup
    (clientLookup : string -> list string * option error)
    (hostname : JSValue) : moduleRun :=
  match state with
  | None =>
      rejectedEarly (errorString "lookup can not be used in the init context")
  | Some stateTags =>
      let '(hostnameStr, err) := ExportTo hostname in
      match err with
      | Some _ =>
          rejectedEarly
            (errorString
               ("hostname must be a string; got " ++ format hostname ++ " instead"))
      | None =>
          let '(ips, err) := clientLookup hostnameStr in
          match err with
          | Some e => mkModuleRun (Rejected e) [] []
          | None =>
              (* Emit the metrics *)
              let samples :=
                emitLookupMetrics stateTags ctx elapsed hostnameStr in
              mkModuleRun (Resolved ips) [] samples
          end
      end
  end.

(** The module of module.go, with the earlier client. *)

(** The options object of the script and its conversion to
    [resolveOptions] by the runtime. *)
Variable JSObject : Type.
Variable ExportOptions : JSObject -> resolveOptions * option error.

(** [newResolveOptionsFrom] *)
Definition newResolveOptionsFrom (obj : JSObject) : error + resolveOptions :=
  let '(options, err) := ExportOptions obj in
  match err with
  | Some _ => inl (errorString "options must be a ResolveOptions object")
  | None => inr options
  end.

(** [ModuleInstance.Resolve] of module.go *)
Definition Resolve_Rev1 (query recordType : JSValue)
    (resolveDNSOptions : JSObject) : moduleRun :=
  match state with
  | None =>
      rejectedEarly (errorString "resolve can not be used in the init context")
  | Some stateTags =>
      let '(queryStr, err) := ExportTo query in
      match err with
      | Some _ =>
          rejectedEarly
            (errorString ("query must be a string; got " ++ format query ++ " instead"))
      | None =>
          let '(recordTypeStr, err) := ExportTo recordType in
          match err with
          | Some _ =>
              rejectedEarly
                (errorString
                   ("recordType must be a string; got " ++ format recordType
                    ++ " instead"))
          | None =>
              match newResolveOptionsFrom resolveDNSOptions with
              | inl err => rejectedEarly err
              | inr options =>
                  let '(nameserver, err) := ParseNameserver options in
                  match err with
                  | Some err => rejectedEarly err
                  | None =>
                      resolveAsync (ClientRev1.Resolve exchange) stateTags
                        queryStr recordTypeStr nameserver
                  end
              end
          end
      end
  end.

(** [ModuleInstance.Lookup] of module.go *)
Definition Lookup_module_Rev1 (hostname : JSValue) : moduleRun :=
  moduleLookup (Lookup_Rev1 LookupHost) hostname.

(** [ModuleInstance.Resolve] of the later module, with the later client
    and [ParseNameserverAddr]. *)
Definition Resolve_Rev2 (query recordType nameserverAddr : JSValue)
    : moduleRun :=
  match state with
  | None =>
      rejectedEarly (errorString "resolve can not be used in the init context")
  | Some stateTags =>
      let '(queryStr, err) := ExportTo query in
      match err with
      | Some _ =>
          rejectedEarly
            (errorString ("query must be a string; got " ++ format query ++ " instead"))
      | None =>
          let '(recordTypeStr, err) := ExportTo recordType in
          match err with
          | Some _ =>
              rejectedEarly
                (errorString
                   ("recordType must be a string; got " ++ format recordType
                    ++ " instead"))
          | None =>
              let '(nameserverAddrStr, err) := ExportTo nameserverAddr in
              match err with
              | Some _ =>
                  rejectedEarly
                    (errorString
                       ("nameserver must be a string; got "
                        ++ format nameserverAddr ++ " instead"))
              | None =>
                  let '(nameserver, err) := ParseNameserverAddr nameserverAddrStr in
                  match err with
                  | Some err => rejectedEarly err
                  | None =>
                      resolveAsync (ClientRev2.Resolve exchange) stateTags
                        queryStr recordTypeStr nameserver
                  end
              end
          end
      end
  end.

(** [ModuleInstance.Lookup] of the later module *)
Definition Lookup_module_Rev2 (hostname : JSValue) : moduleRun :=
  moduleLookup (Lookup_Rev2 LookupHost) hostname.

End ModuleInstance.

(** A sample of a resolution names in its tags the query, the record
    type and the nameserver. *)
Definition resolutionTags (query recordType target : string)
    (s : metrics.Sample) : Prop :=
  metrics.tagValue (metrics.Tags s) "query" = Some query /\
  metrics.tagValue (metrics.Tags s) "recordType" = Some recordType /\
  metrics.tagValue (metrics.Tags s) "nameserver" = Some target.

(** What a run of [Lookup] is like: no exchange with the DNS transport, no
    sample for a promise that is rejected, and a promise resolved only with
    the addresses the resolver of the system returned, without error, for
    the host name the runtime converted, which every sample carries as its
    host tag. *)
Definition lookupOutcome (JSValue : Type)
    (ExportTo : JSValue -> string * option error)
    (LookupHost : string -> list string * option error)
    (hostname : JSValue) (r : moduleRun) : Prop :=
  sent r = [] /\
  match settled r with
  | Rejected _ => pushed r = []
  | Resolved addrs =>
      exists h,
        ExportTo hostname = (h, None) /\
        LookupHost h = (addrs, None) /\
        Forall (fun s => metrics.tagValue (metrics.Tags s) "host" = Some h)
          (pushed r)
  end.

(** A transport that refuses the connection at one target and answers
    with [response] at every other. *)
Definition refusedAt (target : string) (response : miekg.Msg) : miekg.transport :=
  fun _ address =>
    if String.eqb address target
    then miekg.Failure (errorString "connection refused")
    else miekg.Response response.

(** A transport that answers with [response] at one target and finds no
    route to any other. *)
Definition answersAt (target : string) (response : miekg.Msg) : miekg.transport :=
  fun _ address =>
    if String.eqb address target
    then miekg.Response response
    else miekg.Failure (errorString "no route to host").

(** * Properties *)

(** ** Strings *)

Lemma IndexByteString_lower (s : string) (c : ascii) :
  -1 <= IndexByteString s c.
Proof.
  induction s as [|x r IH]; simpl; [lia|].
  destruct (Ascii.eqb x c); [lia|].
  destruct (IndexByteString r c <? 0) eqn:E; [lia|].
  apply Z.ltb_ge in E. lia.
Qed.

Lemma IndexByteString_count (s : string) (c : ascii) :
  IndexByteString s c < 0 <-> count s c = O.
Proof.
  induction s as [|x r IH]; simpl.
  - split; [reflexivity|lia].
  - destruct (Ascii.eqb x c); simpl.
    + split; [lia|discriminate].
    + destruct (IndexByteString r c <? 0) eqn:E.
      * apply Z.ltb_lt in E. split; [intros _; apply IH; exact E|lia].
      * apply Z.ltb_ge in E. split; [lia|]. intros H. apply IH in H. lia.
Qed.

Lemma LastIndexByteString_lower (s : string) (c : ascii) :
  -1 <= LastIndexByteString s c.
Proof.
  induction s as [|x r IH]; simpl; [lia|].
  destruct (0 <=? LastIndexByteString r c) eqn:E.
  - apply Z.leb_le in E. lia.
  - destruct (Ascii.eqb x c); lia.
Qed.

Lemma LastIndexByteString_count (s : string) (c : ascii) :
  LastIndexByteString s c < 0 <-> count s c = O.
Proof.
  induction s as [|x r IH]; simpl.
  - split; [reflexivity|lia].
  - destruct (0 <=? LastIndexByteString r c) eqn:E.
    + apply Z.leb_le in E. split; [lia|].
      intros H. assert (count r c = O) as H0 by lia. apply IH in H0. lia.
    + apply Z.leb_gt in E. apply IH in E. rewrite E.
      destruct (Ascii.eqb x c); simpl; split; try lia; discriminate.
Qed.

Lemma ContainsRune_false_count (s : string) (c : ascii) :
  ContainsRune s c = false <-> count s c = O.
Proof.
  unfold ContainsRune. rewrite Z.leb_gt. apply IndexByteString_count.
Qed.

Lemma ContainsRune_true_count (s : string) (c : ascii) :
  ContainsRune s c = true <-> (1 <= count s c)%nat.
Proof.
  destruct (ContainsRune s c) eqn:E.
  - split; [intros _|reflexivity].
    destruct (count s c) eqn:C; [|lia].
    apply ContainsRune_false_count in C. congruence.
  - apply ContainsRune_false_count in E. split; [discriminate|lia].
Qed.

Lemma Contains_byte (s : string) (c : ascii) :
  Contains s (String c EmptyString) = ContainsRune s c.
Proof.
  unfold ContainsRune.
  induction s as [|x r IH]; [reflexivity|].
  cbn [Contains IndexByteString String.prefix].
  destruct (Ascii.eqb_spec x c) as [->|N].
  - destruct (ascii_dec c c) as [_|N]; [|contradiction].
    destruct r; reflexivity.
  - destruct (ascii_dec c x) as [->|_]; [contradiction|].
    rewrite IH. cbn [orb].
    pose proof (IndexByteString_lower r c).
    destruct (IndexByteString r c <? 0) eqn:E.
    + apply Z.ltb_lt in E.
      transitivity false; [apply Z.leb_gt; exact E|reflexivity].
    + apply Z.ltb_ge in E.
      transitivity true; [apply Z.leb_le; exact E|symmetry; apply Z.leb_le; lia].
Qed.

(** With two occurrences of [c] or more, the part of [s] before the last
    one still holds one. *)
Lemma IndexByteString_before_last (s : string) (c : ascii) :
  (2 <= count s c)%nat ->
  0 <= IndexByteString (slice s 0 (LastIndexByteString s c)) c.
Proof.
  unfold slice. rewrite Z.sub_0_r. change (Z.to_nat 0) with O.
  induction s as [|x r IH]; simpl count; [lia|].
  intros H. cbn [LastIndexByteString].
  pose proof (LastIndexByteString_lower r c) as L.
  destruct (0 <=? LastIndexByteString r c) eqn:E.
  - apply Z.leb_le in E.
    replace (Z.to_nat (LastIndexByteString r c + 1))
      with (S (Z.to_nat (LastIndexByteString r c))) by lia.
    cbn [String.substring IndexByteString].
    destruct (Ascii.eqb x c) eqn:X; [lia|].
    simpl in H. specialize (IH H).
    destruct (_ <? 0) eqn:F; [apply Z.ltb_lt in F; lia|lia].
  - apply Z.leb_gt in E. apply LastIndexByteString_count in E.
    destruct (Ascii.eqb x c); simpl in H; lia.
Qed.

Lemma append_assoc (s1 s2 s3 : string) : (s1 ++ s2) ++ s3 = s1 ++ (s2 ++ s3).
Proof.
  induction s1 as [|c r IH]; simpl; [reflexivity|]. rewrite IH. reflexivity.
Qed.

(** ** Splitting host and port *)

(** [net.SplitHostPort] refuses every address with two colons or more and
    no closing bracket. *)
Lemma SplitHostPort_bare_IPv6 (addr : string) :
  (2 <= count addr ":")%nat ->
  count addr "]" = O ->
  exists why, net.SplitHostPort addr = ("", "", Some (AddrError why addr)).
Proof.
  intros Hc Hb. unfold net.SplitHostPort.
  assert (0 <= LastIndexByteString addr ":") as Hi.
  { pose proof (LastIndexByteString_lower addr ":").
    destruct (Z.eq_dec (LastIndexByteString addr ":") (-1)) as [E|E]; [|lia].
    assert (LastIndexByteString addr ":" < 0) as F by lia.
    apply LastIndexByteString_count in F. lia. }
  apply Z.ltb_ge in Hi. rewrite Hi.
  destruct (byteIs addr 0 "[").
  - apply IndexByteString_count in Hb. apply Z.ltb_lt in Hb. rewrite Hb.
    eexists. reflexivity.
  - pose proof (IndexByteString_before_last addr ":" Hc) as H.
    apply Z.leb_le in H. rewrite H. eexists. reflexivity.
Qed.

(** The two revisions of the parser in terms of their common second
    part. *)
Lemma ParseNameserverAddr_parts (addr : string) :
  ParseNameserverAddr addr =
    if negb (ContainsRune addr ":") then parseIPAndPort addr ""
    else
      let '(hostStr, portStr, err) := net.SplitHostPort addr in
      match err with
      | None => parseIPAndPort hostStr portStr
      | Some e =>
          if negb (Contains addr "]") then
            (noNameserver,
             Some (wrapError "invalid nameserver address format: " e ""))
          else if byteIs addr 0 "[" && byteIs addr (len addr - 1) "]" then
            parseIPAndPort (slice addr 1 (len addr - 1)) portStr
          else
            (noNameserver,
             Some (wrapError "invalid IPv6 namerserver address format: " e ""))
      end.
Proof.
  unfold ParseNameserverAddr, parseIPAndPort.
  destruct (negb (ContainsRune addr ":")); [reflexivity|].
  destruct (net.SplitHostPort addr) as [[h p] [e|]]; [|reflexivity].
  destruct (negb (Contains addr "]")); [reflexivity|].
  destruct (byteIs addr 0 "[" && byteIs addr (len addr - 1) "]"); reflexivity.
Qed.

Lemma parseNameserverAddr_parts (addr : string) :
  parseNameserverAddr addr =
    let '(hostStr, portStr, err) := parseHostAndPort addr in
    match err with
    | Some e => (noNameserver, Some e)
    | None => parseIPAndPort hostStr portStr
    end.
Proof. reflexivity. Qed.

Lemma parseIPAndPort_default (host : string) :
  net.ParseIP host <> [] ->
  parseIPAndPort host "" = (mkNameserver (net.ParseIP host) 53, None).
Proof.
  intros H. unfold parseIPAndPort.
  destruct (net.ParseIP host) as [|b ip]; [contradiction|reflexivity].
Qed.

Lemma parseIPAndPort_53 (host : string) :
  net.ParseIP host <> [] ->
  parseIPAndPort host "53" = (mkNameserver (net.ParseIP host) 53, None).
Proof.
  intros H. unfold parseIPAndPort.
  destruct (net.ParseIP host) as [|b ip]; [contradiction|reflexivity].
Qed.

(** C1. The nameserver address parser on the documented input shapes: an
    input without a colon is the host as a whole, with port 53;
    "203.0.113.1" gives 203.0.113.1 and port 53, "203.0.113.1:5353" port
    5353, "[fd00::1]" the host fd00::1 and port 53, "[fd00::1]:5353" the
    host fd00::1 and port 5353; an unbracketed IPv6 literal without a port
    (two colons or more, no closing bracket) fails with the
    invalid-address-format error. Both revisions of the parser agree. *)
Theorem nameserver_address_shapes :
  (forall addr, ContainsRune addr ":" = false ->
     parseHostAndPort addr = (addr, "53", None) /\
     (net.ParseIP addr <> [] ->
      ParseNameserverAddr addr = (mkNameserver (net.ParseIP addr) 53, None) /\
      parseNameserverAddr addr = (mkNameserver (net.ParseIP addr) 53, None)) /\
     (net.ParseIP addr = [] ->
      ParseNameserverAddr addr =
        (noNameserver,
         Some (errorString ("invalid nameserver IP address: " ++ addr))) /\
      parseNameserverAddr addr =
        (noNameserver,
         Some (errorString ("invalid nameserver IP address: " ++ addr))))) /\
  (parsesTo (ParseNameserverAddr "203.0.113.1") "203.0.113.1" 53 /\
   parsesTo (parseNameserverAddr "203.0.113.1") "203.0.113.1" 53) /\
  (parsesTo (ParseNameserverAddr "203.0.113.1:5353") "203.0.113.1" 5353 /\
   parsesTo (parseNameserverAddr "203.0.113.1:5353") "203.0.113.1" 5353) /\
  (parseHostAndPort "[fd00::1]" = ("fd00::1", "", None) /\
   parsesTo (ParseNameserverAddr "[fd00::1]") "fd00::1" 53 /\
   parsesTo (parseNameserverAddr "[fd00::1]") "fd00::1" 53) /\
  (parseHostAndPort "[fd00::1]:5353" = ("fd00::1", "5353", None) /\
   parsesTo (ParseNameserverAddr "[fd00::1]:5353") "fd00::1" 5353 /\
   parsesTo (parseNameserverAddr "[fd00::1]:5353") "fd00::1" 5353) /\
  (forall addr, (2 <= count addr ":")%nat -> count addr "]" = O ->
     invalidAddressFormat (ParseNameserverAddr addr) /\
     invalidAddressFormat (parseNameserverAddr addr)).
Proof.
  split; [|split; [|split; [|split; [|split]]]].
  - intros addr H.
    rewrite ParseNameserverAddr_parts, parseNameserverAddr_parts.
    unfold parseHostAndPort. rewrite H. cbn [negb].
    split; [reflexivity|]. split.
    + intros Hip. split.
      * apply parseIPAndPort_default; exact Hip.
      * apply parseIPAndPort_53; exact Hip.
    + intros Hip. unfold parseIPAndPort. rewrite Hip. split; reflexivity.
  - split; repeat split; reflexivity.
  - split; repeat split; reflexivity.
  - split; [reflexivity|]. split; repeat split; reflexivity.
  - split; [reflexivity|]. split; repeat split; reflexivity.
  - intros addr Hc Hb.
    destruct (SplitHostPort_bare_IPv6 addr Hc Hb) as [why Hs].
    assert (ContainsRune addr ":" = true) as Hcolon
      by (apply ContainsRune_true_count; lia).
    assert (Contains addr "]" = false) as Hbr
      by (rewrite Contains_byte; apply ContainsRune_false_count; exact Hb).
    unfold invalidAddressFormat.
    rewrite ParseNameserverAddr_parts, parseNameserverAddr_parts.
    unfold parseHostAndPort.
    rewrite Hcolon, Hs, Hbr. cbn [negb andb].
    split; eexists; reflexivity.
Qed.

(** The claim C1 at "203.0.113.1" (no colon) and at "fd00::1" (two colons,
    no bracket). *)
Lemma nameserver_address_shapes_witness :
  parseHostAndPort "203.0.113.1" = ("203.0.113.1", "53", None) /\
  ParseNameserverAddr "203.0.113.1" =
    (mkNameserver (net.ParseIP "203.0.113.1") 53, None) /\
  invalidAddressFormat (ParseNameserverAddr "fd00::1") /\
  invalidAddressFormat (parseNameserverAddr "fd00::1").
Proof.
  destruct nameserver_address_shapes as [H1 [_ [_ [_ [_ H6]]]]].
  destruct (H1 "203.0.113.1" eq_refl) as [Ha [Hb _]].
  destruct Hb as [Hb _]; [discriminate|].
  destruct (H6 "fd00::1") as [Hc Hd]; [simpl; lia|reflexivity|].
  repeat split; assumption.
Defined.

(** ** The resolution client *)

(** What both revisions send when the record type is supported: one message
    with one question, to the address of the nameserver. *)
Lemma ClientRev1_sent (exchange : miekg.transport) (query recordType : string)
    (ns : Nameserver) (rt : RecordType) :
  RecordTypeString recordType = (rt, None) ->
  exchanges (ClientRev1.Resolve exchange query recordType ns) =
    [(miekg.SetQuestion miekg.emptyMsg (query ++ ".") (ClientRev1.concreteType rt),
      Addr ns)].
Proof.
  intros H. unfold ClientRev1.Resolve. rewrite H.
  destruct (exchange _ _) as [r|e]; [|reflexivity].
  destruct (ClientRev1.decodeAnswers _ _); reflexivity.
Qed.

Lemma ClientRev2_sent (exchange : miekg.transport) (query recordType : string)
    (ns : Nameserver) (rt : RecordType) :
  RecordTypeString recordType = (rt, None) ->
  exchanges (ClientRev2.Resolve exchange query recordType ns) =
    [(miekg.SetQuestion miekg.emptyMsg (query ++ ".") (uint16 rt), Addr ns)].
Proof.
  intros H. unfold ClientRev2.Resolve. rewrite H.
  destruct (exchange _ _) as [r|e]; [|reflexivity].
  destruct (negb _); [reflexivity|].
  destruct (ClientRev2.decodeAnswers _ _); reflexivity.
Qed.

(** Resolve reads of the transport one answer only, the one to its
    question at the address of the nameserver: two transports that answer
    alike there give the same result. *)
Lemma ClientRev1_Resolve_at (exchange exchange' : miekg.transport)
    (query recordType : string) (ns : Nameserver) (rt : RecordType) :
  RecordTypeString recordType = (rt, None) ->
  exchange' (miekg.SetQuestion miekg.emptyMsg (query ++ ".")
               (ClientRev1.concreteType rt)) (Addr ns) =
  exchange (miekg.SetQuestion miekg.emptyMsg (query ++ ".")
              (ClientRev1.concreteType rt)) (Addr ns) ->
  ClientRev1.Resolve exchange' query recordType ns =
  ClientRev1.Resolve exchange query recordType ns.
Proof.
  intros H E. unfold ClientRev1.Resolve. rewrite H. cbv beta iota zeta.
  rewrite E. reflexivity.
Qed.

Lemma ClientRev2_Resolve_at (exchange exchange' : miekg.transport)
    (query recordType : string) (ns : Nameserver) (rt : RecordType) :
  RecordTypeString recordType = (rt, None) ->
  exchange' (miekg.SetQuestion miekg.emptyMsg (query ++ ".") (uint16 rt))
    (Addr ns) =
  exchange (miekg.SetQuestion miekg.emptyMsg (query ++ ".") (uint16 rt))
    (Addr ns) ->
  ClientRev2.Resolve exchange' query recordType ns =
  ClientRev2.Resolve exchange query recordType ns.
Proof.
  intros H E. unfold ClientRev2.Resolve. rewrite H. cbv beta iota zeta.
  rewrite E. reflexivity.
Qed.

(** A failure of the transport there is the error Resolve returns: as it
    is in the earlier revision, wrapped in the later one. *)
Lemma ClientRev1_Resolve_failure (exchange : miekg.transport)
    (query recordType : string) (ns : Nameserver) (rt : RecordType) (e : error) :
  RecordTypeString recordType = (rt, None) ->
  exchange (miekg.SetQuestion miekg.emptyMsg (query ++ ".")
              (ClientRev1.concreteType rt)) (Addr ns) = miekg.Failure e ->
  ClientRev1.Resolve exchange query recordType ns =
    mkResolved
      [(miekg.SetQuestion miekg.emptyMsg (query ++ ".") (ClientRev1.concreteType rt),
        Addr ns)]
      [] (Some e).
Proof.
  intros H E. unfold ClientRev1.Resolve. rewrite H. cbv beta iota zeta.
  rewrite E. reflexivity.
Qed.

Lemma ClientRev2_Resolve_failure (exchange : miekg.transport)
    (query recordType : string) (ns : Nameserver) (rt : RecordType) (e : error) :
  RecordTypeString recordType = (rt, None) ->
  exchange (miekg.SetQuestion miekg.emptyMsg (query ++ ".") (uint16 rt))
    (Addr ns) = miekg.Failure e ->
  ClientRev2.Resolve exchange query recordType ns =
    mkResolved
      [(miekg.SetQuestion miekg.emptyMsg (query ++ ".") (uint16 rt), Addr ns)]
      [] (Some (wrapError "querying the DNS nameserver failed: " e "")).
Proof.
  intros H E. unfold ClientRev2.Resolve. rewrite H. cbv beta iota zeta.
  rewrite E. reflexivity.
Qed.

(** The question name is the query followed by a dot, whatever the query
    ends with. *)
Lemma Resolve_question_name (exchange : miekg.transport)
    (query recordType : string) (ns : Nameserver) (rt : RecordType) :
  RecordTypeString recordType = (rt, None) ->
  questionNames (ClientRev1.Resolve exchange query recordType ns) = [query ++ "."] /\
  questionNames (ClientRev2.Resolve exchange query recordType ns) = [query ++ "."].
Proof.
  intros H. unfold questionNames.
  rewrite (ClientRev1_sent _ _ _ _ _ H), (ClientRev2_sent _ _ _ _ _ H).
  split; reflexivity.
Qed.

Lemma append_dot_not_fixed (s : string) : (s ++ ".") ++ "." <> s ++ ".".
Proof.
  induction s as [|c r IH]; simpl; [discriminate|].
  intros H. apply IH. congruence.
Qed.

(** C2. The question name of the outbound message is the query with a dot
    appended, also when the query ends with a dot already: for a domain [d]
    the queries [d] and [d ++ "."] give the different question names
    [d ++ "."] and [d ++ ".."], in both revisions of the client. The
    normalization the claim describes is not idempotent in the code. *)
Theorem Resolve_trailing_dot_doubled :
  forall (exchange : miekg.transport) (d : string) (ns : Nameserver),
    questionNames (ClientRev2.Resolve exchange d "A" ns) = [d ++ "."] /\
    questionNames (ClientRev2.Resolve exchange (d ++ ".") "A" ns) = [(d ++ ".") ++ "."] /\
    questionNames (ClientRev1.Resolve exchange d "A" ns) = [d ++ "."] /\
    questionNames (ClientRev1.Resolve exchange (d ++ ".") "A" ns) = [(d ++ ".") ++ "."] /\
    (d ++ ".") ++ "." <> d ++ "." /\
    questionNames (ClientRev2.Resolve exchange "9.8.7.6.5.4.3.2.1.0.e164.arpa." "NAPTR" ns) =
      ["9.8.7.6.5.4.3.2.1.0.e164.arpa.."].
Proof.
  intros exchange d ns.
  assert (RecordTypeString "A" = (RecordTypeA, None)) as HA by reflexivity.
  assert (RecordTypeString "NAPTR" = (RecordTypeNAPTR, None)) as HN by reflexivity.
  destruct (Resolve_question_name exchange d "A" ns _ HA) as [H1 H2].
  destruct (Resolve_question_name exchange (d ++ ".") "A" ns _ HA) as [H3 H4].
  destruct (Resolve_question_name exchange "9.8.7.6.5.4.3.2.1.0.e164.arpa." "NAPTR" ns _ HN)
    as [_ H5].
  repeat split; try assumption.
  apply append_dot_not_fixed.
Qed.

(** The decoding loop stops at the first record it has no case for and
    drops what it decoded before. *)
Lemma ClientRev1_decodeAnswers_unhandled (pre post : list miekg.RR) (a : miekg.RR)
    (acc : list string) :
  forallb ClientRev1.decodable pre = true ->
  ClientRev1.decodable a = false ->
  ClientRev1.decodeAnswers (pre ++ a :: post) acc =
    ([], Some (errorString ("unhandled DNS answer type " ++ miekg.typeName a))).
Proof.
  revert acc. induction pre as [|x pre IH]; intros acc Hpre Ha.
  - destruct a; try discriminate; reflexivity.
  - simpl in Hpre. apply andb_true_iff in Hpre as [Hx Hpre].
    destruct x; try discriminate; simpl; apply IH; assumption.
Qed.

Lemma ClientRev2_decodeAnswers_unhandled (pre post : list miekg.RR) (a : miekg.RR)
    (acc : list string) :
  forallb ClientRev2.decodable pre = true ->
  ClientRev2.decodable a = false ->
  ClientRev2.decodeAnswers (pre ++ a :: post) acc =
    ([], Some (wrapError "resolve operation failed with " ErrUnsupportedRecordType
                 (": unhandled DNS answer type " ++ miekg.typeName a))).
Proof.
  revert acc. induction pre as [|x pre IH]; intros acc Hpre Ha.
  - destruct a; try discriminate; reflexivity.
  - simpl in Hpre. apply andb_true_iff in Hpre as [Hx Hpre].
    destruct x; try discriminate; simpl; apply IH; assumption.
Qed.

(** A list with an element that fails a test splits at the first such
    element. *)
Lemma first_failing {A : Type} (p : A -> bool) (l : list A) :
  (exists a, In a l /\ p a = false) ->
  exists pre a post, l = (pre ++ a :: post)%list /\ forallb p pre = true /\ p a = false.
Proof.
  induction l as [|x l IH]; intros [a [Hin Ha]]; [destruct Hin|].
  destruct (p x) eqn:Hx.
  - destruct Hin as [->|Hin]; [congruence|].
    destruct IH as [pre [b [post [-> [Hpre Hb]]]]]; [exists a; auto|].
    exists (x :: pre), b, post. simpl. rewrite Hx, Hpre. auto.
  - exists [], x, l. auto.
Qed.

(** C3. A response with success status whose answer section holds a record
    the client has no decoder for makes Resolve return the
    unhandled-answer-type error (naming the first such record) and a nil
    result list, also when records before it decoded; in both revisions of
    the client, each with its own set of decoders. *)
Theorem Resolve_unhandled_answer_no_partial_list :
  forall (exchange : miekg.transport) (query recordType : string)
         (ns : Nameserver) (rt : RecordType) (response : miekg.Msg),
    RecordTypeString recordType = (rt, None) ->
    (forall m target, exchange m target = miekg.Response response) ->
    miekg.Rcode response = miekg.RcodeSuccess ->
    ((exists a, In a (miekg.Answer response) /\ ClientRev2.decodable a = false) ->
     exists pre a post,
       miekg.Answer response = (pre ++ a :: post)%list /\
       forallb ClientRev2.decodable pre = true /\
       ClientRev2.decodable a = false /\
       ips (ClientRev2.Resolve exchange query recordType ns) = [] /\
       err (ClientRev2.Resolve exchange query recordType ns) =
         Some (wrapError "resolve operation failed with " ErrUnsupportedRecordType
                 (": unhandled DNS answer type " ++ miekg.typeName a))) /\
    ((exists a, In a (miekg.Answer response) /\ ClientRev1.decodable a = false) ->
     exists pre a post,
       miekg.Answer response = (pre ++ a :: post)%list /\
       forallb ClientRev1.decodable pre = true /\
       ClientRev1.decodable a = false /\
       ips (ClientRev1.Resolve exchange query recordType ns) = [] /\
       err (ClientRev1.Resolve exchange query recordType ns) =
         Some (errorString ("unhandled DNS answer type " ++ miekg.typeName a))).
Proof.
  intros exchange query recordType ns rt response Hrt Hx Hok. split.
  - intros Hex. destruct (first_failing _ _ Hex) as [pre [a [post [E [Hpre Ha]]]]].
    exists pre, a, post. repeat split; try assumption;
      unfold ClientRev2.Resolve; rewrite Hrt, Hx, Hok, E;
      rewrite (ClientRev2_decodeAnswers_unhandled pre post a [] Hpre Ha);
      reflexivity.
  - intros Hex. destruct (first_failing _ _ Hex) as [pre [a [post [E [Hpre Ha]]]]].
    exists pre, a, post. repeat split; try assumption;
      unfold ClientRev1.Resolve; rewrite Hrt, Hx, E;
      rewrite (ClientRev1_decodeAnswers_unhandled pre post a [] Hpre Ha);
      reflexivity.
Qed.

(** The claim C3 on a response whose answers are an A record, an MX record
    and another A record. *)
Lemma Resolve_unhandled_answer_no_partial_list_witness :
  exists pre a post,
    miekg.Answer sampleUnhandled = (pre ++ a :: post)%list /\
    forallb ClientRev2.decodable pre = true /\
    ClientRev2.decodable a = false /\
    ips (ClientRev2.Resolve (fun _ _ => miekg.Response sampleUnhandled)
           "k6.test" "A" sampleNameserver) = [] /\
    err (ClientRev2.Resolve (fun _ _ => miekg.Response sampleUnhandled)
           "k6.test" "A" sampleNameserver) =
      Some (wrapError "resolve operation failed with " ErrUnsupportedRecordType
              (": unhandled DNS answer type " ++ miekg.typeName a)).
Proof.
  apply (proj1 (Resolve_unhandled_answer_no_partial_list
                  (fun _ _ => miekg.Response sampleUnhandled)
                  "k6.test" "A" sampleNameserver RecordTypeA sampleUnhandled
                  eq_refl (fun _ _ => eq_refl) eq_refl)).
  exists (miekg.RR_other "*dns.MX"). split; [simpl; auto|reflexivity].
Defined.

(** C4. A response whose status is not success makes Resolve return the
    DNS error built from the numeric status, classified as a non-existing
    domain exactly when the status is the name error, with a nil result
    list; the outcome does not depend on the answer section, which is not
    decoded. *)
Theorem Resolve_failure_status :
  forall (exchange : miekg.transport) (query recordType : string)
         (ns : Nameserver) (rt : RecordType) (response : miekg.Msg),
    RecordTypeString recordType = (rt, None) ->
    (forall m target, exchange m target = miekg.Response response) ->
    miekg.Rcode response <> miekg.RcodeSuccess ->
    exists kind,
      ClientRev2.Resolve exchange query recordType ns =
        mkResolved
          [(miekg.SetQuestion miekg.emptyMsg (query ++ ".") (uint16 rt), Addr ns)]
          []
          (Some (DNSError kind (miekg.Rcode response) "DNS query failed")) /\
      (kind = NonExistingDomain <-> miekg.Rcode response = miekg.RcodeNameError) /\
      (forall answer,
         ClientRev2.Resolve
           (fun _ _ => miekg.Response
                         (miekg.mkMsg (miekg.RecursionDesired response)
                            (miekg.Rcode response) (miekg.Questions response) answer))
           query recordType ns =
         ClientRev2.Resolve exchange query recordType ns).
Proof.
  intros exchange query recordType ns rt response Hrt Hx Hrc.
  assert ((miekg.Rcode response =? miekg.RcodeSuccess) = false) as Hb
    by (apply Z.eqb_neq; exact Hrc).
  exists (if miekg.Rcode response =? miekg.RcodeNameError
          then NonExistingDomain else OtherFailure).
  split; [|split].
  - unfold ClientRev2.Resolve. rewrite Hrt, Hx, Hb. reflexivity.
  - destruct (Z.eqb_spec (miekg.Rcode response) miekg.RcodeNameError) as [E|N].
    + split; auto.
    + split; [discriminate|contradiction].
  - intros answer. unfold ClientRev2.Resolve. rewrite Hrt, Hx. cbn [miekg.Rcode].
    rewrite Hb. reflexivity.
Qed.

(** The claim C4 on a response with the status of a name error. *)
Lemma Resolve_failure_status_witness :
  exists kind,
    ClientRev2.Resolve (fun _ _ => miekg.Response sampleNameError)
      "missing.domain" "A" sampleNameserver =
      mkResolved
        [(miekg.SetQuestion miekg.emptyMsg ("missing.domain" ++ ".") (uint16 RecordTypeA),
          Addr sampleNameserver)]
        []
        (Some (DNSError kind (miekg.Rcode sampleNameError) "DNS query failed")) /\
    (kind = NonExistingDomain <->
     miekg.Rcode sampleNameError = miekg.RcodeNameError) /\
    (forall answer,
       ClientRev2.Resolve
         (fun _ _ => miekg.Response
                       (miekg.mkMsg (miekg.RecursionDesired sampleNameError)
                          (miekg.Rcode sampleNameError)
                          (miekg.Questions sampleNameError) answer))
         "missing.domain" "A" sampleNameserver =
       ClientRev2.Resolve (fun _ _ => miekg.Response sampleNameError)
         "missing.domain" "A" sampleNameserver).
Proof.
  apply (Resolve_failure_status (fun _ _ => miekg.Response sampleNameError)
           "missing.domain" "A" sampleNameserver RecordTypeA sampleNameError
           eq_refl (fun _ _ => eq_refl)).
  discriminate.
Defined.

(** ** Record types *)

Lemma lookupName_not_in (tbl : list (string * RecordType)) (s : string) :
  ~ In s (map fst tbl) -> lookupName tbl s = None.
Proof.
  induction tbl as [|[n v] tbl IH]; intros H; [reflexivity|].
  simpl in *. destruct (String.eqb_spec n s) as [E|N].
  - exfalso. apply H. left. exact E.
  - apply IH. intros Hin. apply H. right. exact Hin.
Qed.

(** C6. Parsing the name of a supported record type and converting the
    result back to its name gives the name again; a string outside the
    supported set fails to parse, and Resolve then returns the
    unsupported-record-type error without sending anything; the lookup is
    case-sensitive, so the lower-case form of a supported name is outside
    the set. *)
Theorem RecordType_parse_name_roundtrip :
  (forall name v, In (name, v) recordTypeNames ->
     RecordTypeString name = (v, None) /\ RecordType_String v = name) /\
  (forall s, ~ In s (map fst recordTypeNames) ->
     (exists e, RecordTypeString s = (0, Some e)) /\
     forall (exchange : miekg.transport) (query : string) (ns : Nameserver),
       ClientRev2.Resolve exchange query s ns =
         mkResolved [] []
           (Some (wrapError "resolve operation failed with "
                    ErrUnsupportedRecordType
                    (", " ++ s ++ " is an invalid DNS record type")))) /\
  (forall name, In name (map fst recordTypeNames) ->
     ~ In (ToLower name) (map fst recordTypeNames)).
Proof.
  split; [|split].
  - intros name v Hin. simpl in Hin.
    repeat (destruct Hin as [Hin|Hin]; [inversion Hin; subst; split; reflexivity|]).
    destruct Hin.
  - intros s Hs. pose proof (lookupName_not_in recordTypeNames s Hs) as L.
    split.
    + unfold RecordTypeString. rewrite L. eexists. reflexivity.
    + intros exchange query ns. unfold ClientRev2.Resolve, RecordTypeString.
      rewrite L. reflexivity.
  - intros name Hin. simpl in Hin.
    repeat (destruct Hin as [Hin|Hin];
            [subst name; simpl; intros H;
             repeat (destruct H as [H|H]; [discriminate H|]); exact H|]).
    destruct Hin.
Qed.

(** The claim C6 at the supported name "AAAA" and at its lower-case form. *)
Lemma RecordType_parse_name_roundtrip_witness :
  (RecordTypeString "AAAA" = (RecordTypeAAAA, None) /\
   RecordType_String RecordTypeAAAA = "AAAA") /\
  (exists e, RecordTypeString "aaaa" = (0, Some e)) /\
  ~ In (ToLower "AAAA") (map fst recordTypeNames).
Proof.
  destruct RecordType_parse_name_roundtrip as [H1 [H2 H3]].
  split; [|split].
  - apply H1. simpl. tauto.
  - apply (H2 "aaaa"). simpl. intros H.
    repeat (destruct H as [H|H]; [discriminate H|]). exact H.
  - apply H3. simpl. tauto.
Defined.

(** ** The tail of the parsers: address and port *)

(** What a successful parse holds: the address is what [net.ParseIP] gave
    for the host, never [nil]; the port is the integer [strconv.Atoi] read,
    inside the range of a [uint16]. *)
Lemma parseIPAndPort_success (hostStr portStr : string) (ns : Nameserver) :
  parseIPAndPort hostStr portStr = (ns, None) ->
  IP ns = net.ParseIP hostStr /\ net.ParseIP hostStr <> [] /\
  0 <= Port ns <= 65535 /\
  strconv.Atoi (if String.eqb portStr "" then "53" else portStr) = (Port ns, None).
Proof.
  unfold parseIPAndPort.
  destruct (net.ParseIP hostStr) as [|b ip] eqn:Hip; [discriminate|].
  destruct (strconv.Atoi _) as [port [e|]] eqn:Ha; [discriminate|].
  destruct ((port <? 0) || (65535 <? port)) eqn:Hr; [discriminate|].
  intros H. inversion H; subst ns; clear H. cbn [IP Port].
  apply orb_false_iff in Hr as [H0 H1].
  apply Z.ltb_ge in H0. apply Z.ltb_ge in H1.
  assert (uint16 port = port) as U by (unfold uint16; apply Z.mod_small; lia).
  rewrite U. repeat split; try lia; try discriminate; reflexivity.
Qed.

(** A port substring that is not a number fails with the invalid-port
    error. *)
Lemma parseIPAndPort_invalid_port (hostStr portStr : string) (n : Z) (e : error) :
  net.ParseIP hostStr <> [] ->
  portStr <> "" ->
  strconv.Atoi portStr = (n, Some e) ->
  parseIPAndPort hostStr portStr =
    (noNameserver, Some (wrapError "nameserver port is not a number: " e "")).
Proof.
  intros Hip Hp Ha. unfold parseIPAndPort.
  destruct (net.ParseIP hostStr) as [|b ip]; [contradiction|].
  destruct (String.eqb_spec portStr ""); [contradiction|].
  rewrite Ha. reflexivity.
Qed.

(** A port that is a number outside [0, 65535] fails with the
    out-of-range error. *)
Lemma parseIPAndPort_port_out_of_range (hostStr portStr : string) (n : Z) :
  net.ParseIP hostStr <> [] ->
  portStr <> "" ->
  strconv.Atoi portStr = (n, None) ->
  n < 0 \/ 65535 < n ->
  parseIPAndPort hostStr portStr =
    (noNameserver,
     Some (errorString ("nameserver port out of range: " ++ strconv.Itoa n))).
Proof.
  intros Hip Hp Ha Hr. unfold parseIPAndPort.
  destruct (net.ParseIP hostStr) as [|b ip]; [contradiction|].
  destruct (String.eqb_spec portStr ""); [contradiction|].
  rewrite Ha.
  assert ((n <? 0) || (65535 <? n) = true) as ->; [|reflexivity].
  apply orb_true_iff. destruct Hr; [left; apply Z.ltb_lt|right; apply Z.ltb_lt]; lia.
Qed.

(** Both revisions of [ParseNameserverAddr] return a nameserver only
    through the tail: some host string parsed to its address, which is not
    [nil], and its port is in range. *)
Lemma ParseNameserverAddr_success (addr : string) (ns : Nameserver) :
  ParseNameserverAddr addr = (ns, None) ->
  (exists hostStr, IP ns = net.ParseIP hostStr /\ net.ParseIP hostStr <> []) /\
  0 <= Port ns <= 65535.
Proof.
  rewrite ParseNameserverAddr_parts.
  destruct (negb (ContainsRune addr ":")).
  - intros H. apply parseIPAndPort_success in H as [H1 [H2 [H3 _]]]. eauto.
  - destruct (net.SplitHostPort addr) as [[h p] [e|]].
    + destruct (negb (Contains addr "]")); [discriminate|].
      destruct (byteIs addr 0 "[" && byteIs addr (len addr - 1) "]"); [|discriminate].
      intros H. apply parseIPAndPort_success in H as [H1 [H2 [H3 _]]]. eauto.
    + intros H. apply parseIPAndPort_success in H as [H1 [H2 [H3 _]]]. eauto.
Qed.

Lemma parseNameserverAddr_success (addr : string) (ns : Nameserver) :
  parseNameserverAddr addr = (ns, None) ->
  (exists hostStr, IP ns = net.ParseIP hostStr /\ net.ParseIP hostStr <> []) /\
  0 <= Port ns <= 65535.
Proof.
  rewrite parseNameserverAddr_parts.
  destruct (parseHostAndPort addr) as [[h p] [e|]]; [discriminate|].
  intros H. apply parseIPAndPort_success in H as [H1 [H2 [H3 _]]]. eauto.
Qed.

(** C7. [resolveOptions.ParseNameserver] converts the port with
    [uint16(port)] and no range check: "203.0.113.1:999999" gives a
    nameserver with port 999999 mod 65536 = 16959 and no error, where the
    claim says a port-out-of-range error and no truncation. Both revisions
    of [ParseNameserverAddr] refuse the same input. *)
Theorem ParseNameserver_truncates_port :
  ParseNameserver (mkResolveOptions "203.0.113.1:999999") =
    (mkNameserver (net.ParseIP "203.0.113.1") 16959, None) /\
  strconv.Atoi "999999" = (999999, None) /\
  uint16 999999 = 16959 /\
  ParseNameserverAddr "203.0.113.1:999999" =
    (noNameserver, Some (errorString "nameserver port out of range: 999999")) /\
  parseNameserverAddr "203.0.113.1:999999" =
    (noNameserver, Some (errorString "nameserver port out of range: 999999")) /\
  ParseNameserverAddr "203.0.113.1:abc" =
    (noNameserver,
     Some (wrapError "nameserver port is not a number: "
             (NumError "Atoi" "abc" ErrSyntax) "")) /\
  parsesTo (ParseNameserverAddr "203.0.113.1:") "203.0.113.1" 53 /\
  parsesTo (parseNameserverAddr "203.0.113.1:") "203.0.113.1" 53.
Proof.
  split; [vm_compute; reflexivity|].
  split; [reflexivity|].
  split; [reflexivity|].
  split; [vm_compute; reflexivity|].
  split; [vm_compute; reflexivity|].
  split; [vm_compute; reflexivity|].
  split; repeat split; vm_compute; reflexivity.
Qed.

(** C8. [resolveOptions.ParseNameserver] passes the result of
    [net.ParseIP] on without testing it: the hostname "not-an-ip" gives a
    nameserver with a nil address and no error, where the claim says an
    invalid-IP-address error and no nameserver with a nil address. Both
    revisions of [ParseNameserverAddr] refuse the same input. *)
Theorem ParseNameserver_nil_address :
  net.ParseIP "not-an-ip" = [] /\
  ParseNameserver (mkResolveOptions "not-an-ip") = (mkNameserver [] 53, None) /\
  Addr (fst (ParseNameserver (mkResolveOptions "not-an-ip"))) = "<nil>:53" /\
  ParseNameserverAddr "not-an-ip" =
    (noNameserver, Some (errorString "invalid nameserver IP address: not-an-ip")) /\
  parseNameserverAddr "not-an-ip" =
    (noNameserver, Some (errorString "invalid nameserver IP address: not-an-ip")).
Proof.
  split; [reflexivity|].
  split; [vm_compute; reflexivity|].
  split; [vm_compute; reflexivity|].
  split; vm_compute; reflexivity.
Qed.

(** ** Decimal numerals *)

Lemma digit_cases (d : Z) :
  0 <= d < 10 ->
  d = 0 \/ d = 1 \/ d = 2 \/ d = 3 \/ d = 4 \/ d = 5 \/ d = 6 \/ d = 7 \/
  d = 8 \/ d = 9.
Proof. lia. Qed.

Lemma digitChar_isDigit (d : Z) :
  0 <= d < 10 ->
  strconv.isDigit (strconv.digitChar d) = true /\
  strconv.digitVal (strconv.digitChar d) = d.
Proof.
  intros H. apply digit_cases in H.
  repeat (destruct H as [H|H]; [subst d; split; reflexivity|]).
  subst d; split; reflexivity.
Qed.

(** Reading back what [formatBits] wrote: the digits of [u] come first and
    shift what was read before by their number [m]. *)
(** One step of the digit loop on a digit that leaves the value within
    64 bits. *)
Lemma digits_step (c : ascii) (r : string) (k : Z) :
  strconv.isDigit c = true ->
  0 <= k ->
  k * 10 + strconv.digitVal c <= strconv.maxUint64 ->
  strconv.digits (String c r) k = strconv.digits r (k * 10 + strconv.digitVal c).
Proof.
  intros Hc Hk Hb. cbn [strconv.digits]. rewrite Hc.
  assert (strconv.maxUint64 = 18446744073709551615) as Hmax by reflexivity.
  assert (strconv.cutoff = 1844674407370955162) as Hcut by reflexivity.
  assert ((48 <=? Z.of_nat (nat_of_ascii c)) = true) as H48.
  { unfold strconv.isDigit in Hc. apply andb_true_iff in Hc. apply Hc. }
  apply Z.leb_le in H48.
  assert (0 <= strconv.digitVal c) as Hv by (unfold strconv.digitVal; lia).
  assert ((strconv.cutoff <=? k) = false) as -> by (apply Z.leb_gt; lia).
  cbv zeta.
  assert ((strconv.maxUint64 <? k * 10 + strconv.digitVal c) = false) as ->
    by (apply Z.ltb_ge; lia).
  reflexivity.
Qed.

Lemma formatBits_digits (fuel : nat) :
  forall u, 0 <= u < 10 ^ Z.of_nat fuel ->
    exists m, 0 <= m /\
      forall acc k,
        0 <= k ->
        k * 10 ^ m + u <= strconv.maxUint64 ->
        strconv.digits (strconv.formatBits fuel u acc) k =
        strconv.digits acc (k * 10 ^ m + u).
Proof.
  induction fuel as [|f IH]; intros u Hu.
  - simpl in Hu. exists 0. split; [lia|]. intros acc k _ _.
    assert (u = 0) by lia. subst u. simpl. f_equal. lia.
  - pose proof (Z.mod_pos_bound u 10 ltac:(lia)) as Hd.
    destruct (digitChar_isDigit (u mod 10) Hd) as [Hdig Hval].
    pose proof (Z.div_mod u 10 ltac:(lia)) as Hdm.
    cbn [strconv.formatBits].
    destruct (Z.eqb_spec (u / 10) 0) as [Hq|Hq].
    + exists 1. split; [lia|]. intros acc k Hk Hb.
      rewrite digits_step; [|exact Hdig|exact Hk|rewrite Hval; lia].
      rewrite Hval. f_equal. lia.
    + assert (0 <= u / 10 < 10 ^ Z.of_nat f) as Hq'.
      { split; [apply Z.div_pos; lia|].
        apply Z.div_lt_upper_bound; [lia|].
        replace (Z.of_nat (S f)) with (Z.of_nat f + 1) in Hu by lia.
        rewrite Z.pow_add_r in Hu by lia. lia. }
      destruct (IH (u / 10) Hq') as [m [Hm Hrec]].
      exists (m + 1). split; [lia|]. intros acc k Hk Hb.
      rewrite Z.pow_add_r in Hb by lia.
      assert (0 < 10 ^ m) as Hp by (apply Z.pow_pos_nonneg; lia).
      assert (0 <= k * 10 ^ m) as Hkp by (apply Z.mul_nonneg_nonneg; lia).
      rewrite Hrec by lia.
      rewrite digits_step; [|exact Hdig|lia|rewrite Hval; lia].
      rewrite Hval. f_equal. rewrite Z.pow_add_r by lia. lia.
Qed.

(** [formatBits] starts with a digit. *)
Lemma formatBits_head (fuel : nat) :
  forall u acc,
    (exists c r, acc = String c r /\ strconv.isDigit c = true) \/ (0 < fuel)%nat ->
    exists c r, strconv.formatBits fuel u acc = String c r /\
                strconv.isDigit c = true.
Proof.
  induction fuel as [|f IH]; intros u acc H.
  - destruct H as [H|H]; [exact H|lia].
  - pose proof (Z.mod_pos_bound u 10 ltac:(lia)) as Hd.
    destruct (digitChar_isDigit (u mod 10) Hd) as [Hdig _].
    cbn [strconv.formatBits].
    destruct (u / 10 =? 0); [eauto|].
    apply IH. left. eauto.
Qed.

(** [strconv.Atoi] reads back what [strconv.Itoa] wrote, for every
    non-negative [int]. *)
Lemma Atoi_Itoa (n : Z) :
  0 <= n <= strconv.maxInt ->
  strconv.Atoi (strconv.Itoa n) = (n, None).
Proof.
  intros Hn. unfold strconv.Itoa.
  assert (strconv.maxInt = 9223372036854775807) as Hmax by reflexivity.
  assert (strconv.minInt = -9223372036854775808) as Hmin by reflexivity.
  assert (10 ^ Z.of_nat 20 = 100000000000000000000) as Hpow by reflexivity.
  assert ((n <? 0) = false) as -> by (apply Z.ltb_ge; lia).
  assert (0 <= n < 10 ^ Z.of_nat 20) as Hb by lia.
  destruct (formatBits_digits 20 n Hb) as [m [_ Hdig]].
  destruct (formatBits_head 20 n "" (or_intror (Nat.lt_0_succ 19))) as [c [r [E Hc]]].
  assert (strconv.maxUint64 = 18446744073709551615) as Hmu by reflexivity.
  specialize (Hdig "" 0 ltac:(lia) ltac:(lia)). rewrite E in *.
  replace (0 * 10 ^ m + n) with n in Hdig by lia.
  unfold strconv.Atoi.
  assert (Ascii.eqb c "-" = false /\ Ascii.eqb c "+" = false) as [-> ->].
  { split; destruct (Ascii.eqb_spec c "-"), (Ascii.eqb_spec c "+");
      subst; try reflexivity; discriminate. }
  cbn [orb]. rewrite Hdig. cbn [strconv.digits].
  assert ((strconv.maxInt <? n) = false) as -> by (apply Z.ltb_ge; lia).
  assert ((n <? strconv.minInt) = false) as -> by (apply Z.ltb_ge; lia).
  reflexivity.
Qed.

(** ** NAPTR answers *)



(** ** The text of an address holds no bracket *)

Lemma allBytes_app (p : ascii -> bool) (s t : string) :
  allBytes p (s ++ t) = allBytes p s && allBytes p t.
Proof.
  induction s as [|c r IH]; simpl; [reflexivity|].
  rewrite IH. apply andb_assoc.
Qed.

Lemma allBytes_notBracket_count (s : string) :
  allBytes notBracket s = true -> count s "[" = O /\ count s "]" = O.
Proof.
  induction s as [|c r IH]; simpl; [auto|].
  intros H. apply andb_true_iff in H as [Hc Hr].
  destruct (IH Hr) as [H1 H2]. rewrite H1, H2.
  unfold notBracket in Hc. apply andb_true_iff in Hc as [Ha Hb].
  apply negb_true_iff in Ha. apply negb_true_iff in Hb.
  rewrite Ha, Hb. auto.
Qed.

Lemma hexDigit_notBracket (d : Z) :
  0 <= d < 16 -> notBracket (net.hexDigit d) = true.
Proof.
  intros H.
  assert (d = 0 \/ d = 1 \/ d = 2 \/ d = 3 \/ d = 4 \/ d = 5 \/ d = 6 \/ d = 7 \/
          d = 8 \/ d = 9 \/ d = 10 \/ d = 11 \/ d = 12 \/ d = 13 \/ d = 14 \/
          d = 15) as C by lia.
  repeat (destruct C as [C|C]; [subst d; reflexivity|]).
  subst d; reflexivity.
Qed.

Lemma digitChar_notBracket (d : Z) :
  0 <= d < 10 -> notBracket (strconv.digitChar d) = true.
Proof.
  intros H. apply digit_cases in H.
  repeat (destruct H as [H|H]; [subst d; reflexivity|]).
  subst d; reflexivity.
Qed.

Lemma formatBits_notBracket (fuel : nat) :
  forall u acc,
    allBytes notBracket acc = true ->
    allBytes notBracket (strconv.formatBits fuel u acc) = true.
Proof.
  induction fuel as [|f IH]; intros u acc H; [exact H|].
  pose proof (Z.mod_pos_bound u 10 ltac:(lia)) as Hd.
  assert (allBytes notBracket (String (strconv.digitChar (u mod 10)) acc) = true)
    as H' by (simpl; rewrite (digitChar_notBracket _ Hd), H; reflexivity).
  cbn [strconv.formatBits].
  destruct (u / 10 =? 0); [exact H'|]. apply IH. exact H'.
Qed.

Lemma Itoa_notBracket (i : Z) : allBytes notBracket (strconv.Itoa i) = true.
Proof.
  unfold strconv.Itoa. destruct (i <? 0).
  - cbn [allBytes]. rewrite formatBits_notBracket; reflexivity.
  - apply formatBits_notBracket. reflexivity.
Qed.

Lemma load_isByte (l : list Z) (i : Z) : Forall isByte l -> isByte (net.load l i).
Proof.
  intros H. unfold net.load.
  destruct (nth_in_or_default (Z.to_nat i) l 0) as [Hin|E].
  - rewrite Forall_forall in H. apply H. exact Hin.
  - rewrite E. unfold isByte. lia.
Qed.

Lemma lor_16 (x y : Z) :
  0 <= x < 65536 -> 0 <= y < 65536 -> 0 <= Z.lor x y < 65536.
Proof.
  intros Hx Hy. split; [apply Z.lor_nonneg; lia|].
  destruct (Z.eq_dec (Z.lor x y) 0) as [E|N]; [lia|].
  assert (0 < Z.lor x y) as P
    by (assert (0 <= Z.lor x y) by (apply Z.lor_nonneg; lia); lia).
  change 65536 with (2 ^ 16). apply Z.log2_lt_pow2; [exact P|].
  rewrite Z.log2_lor by lia. apply Z.max_lub_lt.
  - destruct (Z.eq_dec x 0) as [->|]; [simpl; lia|].
    apply Z.log2_lt_pow2; [lia|]. change (2 ^ 16) with 65536. lia.
  - destruct (Z.eq_dec y 0) as [->|]; [simpl; lia|].
    apply Z.log2_lt_pow2; [lia|]. change (2 ^ 16) with 65536. lia.
Qed.

Lemma v6u16_range (ip : list Z) (i : Z) :
  Forall isByte ip -> 0 <= net.v6u16 ip i < 65536.
Proof.
  intros H. unfold net.v6u16.
  pose proof (load_isByte ip (2 * i) H) as Ha.
  pose proof (load_isByte ip (2 * i + 1) H) as Hb.
  unfold isByte in *. apply lor_16; [|lia].
  rewrite Z.shiftl_mul_pow2 by lia. change (2 ^ 8) with 256. lia.
Qed.

Lemma land_15 (x : Z) : 0 <= Z.land x 15 < 16.
Proof.
  change 15 with (Z.ones 4). rewrite Z.land_ones by lia.
  change (2 ^ 4) with 16. apply Z.mod_pos_bound. lia.
Qed.

Lemma appendHex_notBracket (x : Z) :
  0 <= x < 65536 -> allBytes notBracket (net.appendHex x) = true.
Proof.
  intros H. unfold net.appendHex.
  assert (0 <= Z.shiftr x 12 < 16) as H12.
  { rewrite Z.shiftr_div_pow2 by lia. change (2 ^ 12) with 4096.
    split; [apply Z.div_pos; lia|apply Z.div_lt_upper_bound; lia]. }
  repeat rewrite allBytes_app.
  destruct (4096 <=? x), (256 <=? x), (16 <=? x); cbn [allBytes];
    repeat rewrite hexDigit_notBracket by (first [exact H12|apply land_15]);
    reflexivity.
Qed.

Lemma hexString_notBracket (b : list Z) :
  Forall isByte b -> allBytes notBracket (net.hexString b) = true.
Proof.
  induction 1 as [|x l Hx Hl IH]; [reflexivity|].
  cbn [net.hexString allBytes]. rewrite IH.
  unfold isByte in Hx.
  assert (0 <= Z.shiftr x 4 < 16) as H4.
  { rewrite Z.shiftr_div_pow2 by lia. change (2 ^ 4) with 16.
    split; [apply Z.div_pos; lia|apply Z.div_lt_upper_bound; lia]. }
  rewrite (hexDigit_notBracket _ H4), (hexDigit_notBracket _ (land_15 x)).
  reflexivity.
Qed.

Lemma print6_notBracket (ip : list Z) (zs ze : Z) :
  Forall isByte ip ->
  forall fuel i, allBytes notBracket (net.print6 fuel ip i zs ze) = true.
Proof.
  intros H. induction fuel as [|f IH]; intros i; [reflexivity|].
  cbn [net.print6].
  destruct (negb (i <? 8)); [reflexivity|].
  destruct (i =? zs).
  - rewrite allBytes_app. destruct (8 <=? ze); [reflexivity|].
    rewrite allBytes_app, appendHex_notBracket, IH by (apply v6u16_range; exact H).
    reflexivity.
  - repeat rewrite allBytes_app.
    rewrite appendHex_notBracket, IH by (apply v6u16_range; exact H).
    destruct (0 <? i); reflexivity.
Qed.

Lemma IPString_notBracket (ip : net.IP) :
  Forall isByte ip -> allBytes notBracket (net.IPString ip) = true.
Proof.
  intros H. unfold net.IPString.
  destruct (Z.of_nat (List.length ip) =? 0); [reflexivity|].
  destruct (negb _ && negb _).
  - rewrite allBytes_app, hexString_notBracket by exact H. reflexivity.
  - destruct (Z.of_nat (List.length (net.To4 ip)) =? 4).
    + unfold net.string4. repeat rewrite allBytes_app.
      repeat rewrite Itoa_notBracket. reflexivity.
    + unfold net.string6. destruct (net.longestZeroRun 8 ip 0 255 255) as [zs ze].
      apply print6_notBracket. exact H.
Qed.

(** The text [Addr] gives holds no bracket. *)
Lemma Addr_notBracket (n : Nameserver) :
  Forall isByte (IP n) ->
  ContainsRune (Addr n) "[" = false /\ ContainsRune (Addr n) "]" = false.
Proof.
  intros H.
  assert (allBytes notBracket (Addr n) = true) as A.
  { unfold Addr. repeat rewrite allBytes_app.
    rewrite IPString_notBracket, Itoa_notBracket by exact H. reflexivity. }
  apply allBytes_notBracket_count in A as [A1 A2].
  split; apply ContainsRune_false_count; assumption.
Qed.

(** ** Only a bracketed host can be an IPv6 address *)

Lemma store_length (l : list Z) (i v : Z) :
  List.length (net.store l i v) = List.length l.
Proof.
  unfold net.store. generalize (Z.to_nat i) as k.
  induction l as [|x r IH]; intros k; [reflexivity|].
  destruct k; simpl; [reflexivity|]. rewrite IH. reflexivity.
Qed.

Lemma parseIPv4Fields_length (s : string) :
  forall prev val pos digLen fields f,
    net.parseIPv4Fields s prev val pos digLen fields = Some f ->
    List.length f = List.length fields.
Proof.
  induction s as [|c r IH]; intros prev val pos digLen fields f; cbn [net.parseIPv4Fields].
  - destruct (pos <? 3); [discriminate|].
    intros H. inversion H. apply store_length.
  - destruct (strconv.isDigit c).
    + destruct ((digLen =? 1) && (val =? 0)); [discriminate|].
      destruct (255 <? _); [discriminate|]. apply IH.
    + destruct (Ascii.eqb c "."); [|discriminate].
      destruct (_ || _ || _); [discriminate|].
      destruct (pos =? 3); [discriminate|].
      intros H. apply IH in H. rewrite H. apply store_length.
Qed.

Lemma To4_v4InV6 (f : list Z) :
  List.length f = 4%nat -> net.To4 (net.v4InV6 f) = f.
Proof.
  intros H.
  destruct f as [|a [|b [|c [|d [|e f]]]]]; try discriminate H.
  reflexivity.
Qed.

Lemma parseIP_scan_no_colon (rest whole : string) (ip : list Z) :
  count rest ":" = O ->
  net.parseIP_scan rest whole = Some ip ->
  exists f, List.length f = 4%nat /\ ip = net.v4InV6 f.
Proof.
  induction rest as [|c r IH]; cbn [net.parseIP_scan count]; [discriminate|].
  intros Hc. destruct (Ascii.eqb c ".").
  - destruct (net.parseIPv4 whole) as [f|] eqn:E; [|discriminate].
    intros H. inversion H. exists f. split; [|reflexivity].
    apply parseIPv4Fields_length in E. exact E.
  - destruct (Ascii.eqb c ":"); [simpl in Hc; discriminate|].
    destruct (Ascii.eqb c "%"); [discriminate|]. apply IH. exact Hc.
Qed.

(** A host without a colon parses to an IPv4 address or not at all. *)
Lemma ParseIP_no_colon (host : string) :
  ContainsRune host ":" = false ->
  net.ParseIP host <> [] ->
  isIPv4 (net.ParseIP host).
Proof.
  intros Hc. apply ContainsRune_false_count in Hc.
  unfold net.ParseIP, isIPv4.
  destruct (net.parseIP_scan host host) as [ip|] eqn:E; [|contradiction].
  destruct (parseIP_scan_no_colon host host ip Hc E) as [f [L ->]].
  intros _. rewrite (To4_v4InV6 f L).
  destruct f; [discriminate L|discriminate].
Qed.

(** Without an opening bracket in front, [net.SplitHostPort] returns a
    host that holds no colon. *)
Lemma SplitHostPort_unbracketed (addr h p : string) :
  byteIs addr 0 "[" = false ->
  net.SplitHostPort addr = (h, p, None) ->
  ContainsRune h ":" = false.
Proof.
  intros Hb. unfold net.SplitHostPort. rewrite Hb.
  destruct (LastIndexByteString addr ":" <? 0); [discriminate|].
  destruct (0 <=? IndexByteString (slice addr 0 _) ":") eqn:E; [discriminate|].
  destruct (0 <=? IndexByteString (sliceFrom addr 0) "["); [discriminate|].
  destruct (0 <=? IndexByteString (sliceFrom addr 0) "]"); [discriminate|].
  intros H. inversion H; subst. exact E.
Qed.

(** A nameserver parsed from an address that does not start with a bracket
    has an IPv4 address: an IPv6 host is accepted in brackets only. *)
Lemma ParseNameserverAddr_unbracketed (addr : string) (ns : Nameserver) :
  byteIs addr 0 "[" = false ->
  ParseNameserverAddr addr = (ns, None) ->
  isIPv4 (IP ns).
Proof.
  intros Hb. rewrite ParseNameserverAddr_parts.
  destruct (ContainsRune addr ":") eqn:Hc; cbn [negb].
  - destruct (net.SplitHostPort addr) as [[h p] [e|]] eqn:Hs.
    + destruct (negb (Contains addr "]")); [discriminate|].
      rewrite Hb. discriminate.
    + intros H. apply parseIPAndPort_success in H as [H1 [H2 _]].
      rewrite H1. apply ParseIP_no_colon; [|exact H2].
      apply (SplitHostPort_unbracketed addr h p Hb Hs).
  - intros H. apply parseIPAndPort_success in H as [H1 [H2 _]].
    rewrite H1. apply ParseIP_no_colon; assumption.
Qed.

Lemma parseNameserverAddr_unbracketed (addr : string) (ns : Nameserver) :
  byteIs addr 0 "[" = false ->
  parseNameserverAddr addr = (ns, None) ->
  isIPv4 (IP ns).
Proof.
  intros Hb. rewrite parseNameserverAddr_parts. unfold parseHostAndPort.
  destruct (ContainsRune addr ":") eqn:Hc.
  - destruct (net.SplitHostPort addr) as [[h p] [e|]] eqn:Hs.
    + rewrite Hb. rewrite andb_false_r. discriminate.
    + intros H. apply parseIPAndPort_success in H as [H1 [H2 _]].
      rewrite H1. apply ParseIP_no_colon; [|exact H2].
      apply (SplitHostPort_unbracketed addr h p Hb Hs).
  - intros H. apply parseIPAndPort_success in H as [H1 [H2 _]].
    rewrite H1. apply ParseIP_no_colon; assumption.
Qed.

(** ** The dial target *)

(** C10. [Addr] is the text of the address, a colon and the port in
    decimal, and holds no bracket; the IPv6 nameserver fd00::1 on port 53
    gives "fd00::1:53" and a nil address "<nil>:53". Resolve hands exactly
    this text to the transport, in both revisions: for every transport,
    what Resolve returns is decided by what the transport answers to the
    question at the target [Addr n], and by nothing else the transport
    does. Two transports that answer alike to that message at that target
    give the same result, whatever they do for any other target, and a
    failure of the transport at that target is the error Resolve returns.
    The parser accepts an IPv6 host in brackets only (an accepted address
    without a leading bracket gives an IPv4 nameserver) and refuses
    "fd00::1:53". *)
Theorem Addr_is_the_dial_target :
  (forall n : Nameserver,
     wfNameserver n ->
     Addr n = net.IPString (IP n) ++ ":" ++ strconv.Itoa (Port n) /\
     strconv.Atoi (strconv.Itoa (Port n)) = (Port n, None) /\
     ContainsRune (Addr n) "[" = false /\
     ContainsRune (Addr n) "]" = false /\
     forall (exchange : miekg.transport) (query name : string) (v : RecordType),
       RecordTypeString name = (v, None) ->
       (forall exchange' : miekg.transport,
          exchange' (miekg.SetQuestion miekg.emptyMsg (query ++ ".") (uint16 v))
            (Addr n) =
          exchange (miekg.SetQuestion miekg.emptyMsg (query ++ ".") (uint16 v))
            (Addr n) ->
          ClientRev2.Resolve exchange' query name n =
          ClientRev2.Resolve exchange query name n) /\
       (forall e : error,
          exchange (miekg.SetQuestion miekg.emptyMsg (query ++ ".") (uint16 v))
            (Addr n) = miekg.Failure e ->
          ips (ClientRev2.Resolve exchange query name n) = [] /\
          err (ClientRev2.Resolve exchange query name n) =
            Some (wrapError "querying the DNS nameserver failed: " e "")) /\
       (forall exchange' : miekg.transport,
          exchange' (miekg.SetQuestion miekg.emptyMsg (query ++ ".")
                       (ClientRev1.concreteType v)) (Addr n) =
          exchange (miekg.SetQuestion miekg.emptyMsg (query ++ ".")
                      (ClientRev1.concreteType v)) (Addr n) ->
          ClientRev1.Resolve exchange' query name n =
          ClientRev1.Resolve exchange query name n) /\
       (forall e : error,
          exchange (miekg.SetQuestion miekg.emptyMsg (query ++ ".")
                      (ClientRev1.concreteType v)) (Addr n) = miekg.Failure e ->
          ips (ClientRev1.Resolve exchange query name n) = [] /\
          err (ClientRev1.Resolve exchange query name n) = Some e) /\
       dialTargets (ClientRev2.Resolve exchange query name n) = [Addr n] /\
       dialTargets (ClientRev1.Resolve exchange query name n) = [Addr n]) /\
  net.IPString (net.ParseIP "fd00::1") = "fd00::1" /\
  Addr (mkNameserver (net.ParseIP "fd00::1") 53) = "fd00::1:53" /\
  Addr (mkNameserver [] 53) = "<nil>:53" /\
  (forall addr ns,
     byteIs addr 0 "[" = false ->
     (ParseNameserverAddr addr = (ns, None) -> isIPv4 (IP ns)) /\
     (parseNameserverAddr addr = (ns, None) -> isIPv4 (IP ns))) /\
  ~ isIPv4 (net.ParseIP "fd00::1") /\
  invalidAddressFormat (ParseNameserverAddr "fd00::1:53") /\
  invalidAddressFormat (parseNameserverAddr "fd00::1:53").
Proof.
  split; [|split; [|split; [|split; [|split; [|split; [|split]]]]]].
  - intros n [Hip Hport].
    destruct (Addr_notBracket n Hip) as [B1 B2].
    split; [reflexivity|]. split.
    { apply Atoi_Itoa.
      assert (strconv.maxInt = 9223372036854775807) as Hmax by reflexivity. lia. }
    split; [exact B1|]. split; [exact B2|].
    intros exchange query name v Hrt.
    split; [intros exchange' E; apply (ClientRev2_Resolve_at _ _ _ _ _ _ Hrt E)|].
    split.
    { intros e E. rewrite (ClientRev2_Resolve_failure _ _ _ _ _ _ Hrt E).
      split; reflexivity. }
    split; [intros exchange' E; apply (ClientRev1_Resolve_at _ _ _ _ _ _ Hrt E)|].
    split.
    { intros e E. rewrite (ClientRev1_Resolve_failure _ _ _ _ _ _ Hrt E).
      split; reflexivity. }
    unfold dialTargets.
    rewrite (ClientRev2_sent _ _ _ _ _ Hrt), (ClientRev1_sent _ _ _ _ _ Hrt).
    split; reflexivity.
  - vm_compute. reflexivity.
  - vm_compute. reflexivity.
  - vm_compute. reflexivity.
  - intros addr ns Hb. split.
    + apply ParseNameserverAddr_unbracketed. exact Hb.
    + apply parseNameserverAddr_unbracketed. exact Hb.
  - unfold isIPv4. intros H. apply H. vm_compute. reflexivity.
  - eexists. vm_compute. reflexivity.
  - eexists. vm_compute. reflexivity.
Qed.

(** The claim C10 on the IPv6 nameserver fd00::1, port 53, and a transport
    that refuses the connection at "fd00::1:53" and answers at every other
    target: Resolve returns the refusal. *)
Lemma Addr_is_the_dial_target_witness :
  ContainsRune (Addr (mkNameserver (net.ParseIP "fd00::1") 53)) "[" = false /\
  err (ClientRev2.Resolve (refusedAt "fd00::1:53" sampleUnhandled) "k6.test" "AAAA"
         (mkNameserver (net.ParseIP "fd00::1") 53)) =
    Some (wrapError "querying the DNS nameserver failed: "
            (errorString "connection refused") "") /\
  err (ClientRev1.Resolve (refusedAt "fd00::1:53" sampleUnhandled) "k6.test" "AAAA"
         (mkNameserver (net.ParseIP "fd00::1") 53)) =
    Some (errorString "connection refused").
Proof.
  destruct Addr_is_the_dial_target as [H _].
  destruct (H (mkNameserver (net.ParseIP "fd00::1") 53)) as [_ [_ [B [_ D]]]].
  - split; [|simpl; lia].
    vm_compute. repeat constructor; discriminate.
  - split; [exact B|].
    destruct (D (refusedAt "fd00::1:53" sampleUnhandled) "k6.test" "AAAA"
                RecordTypeAAAA eq_refl) as [_ [F2 [_ [F1 _]]]].
    split.
    + apply (F2 (errorString "connection refused")). reflexivity.
    + apply (F1 (errorString "connection refused")). reflexivity.
Defined.

(** * Further properties *)

(** ** The decoding loop and the exchanges of Resolve *)

Lemma ClientRev1_decodeAnswers_all (answer : list miekg.RR) :
  forall acc,
    forallb ClientRev1.decodable answer = true ->
    ClientRev1.decodeAnswers answer acc =
      ((acc ++ map renderRev1 answer)%list, None).
Proof.
  induction answer as [|a l IH]; intros acc H.
  - simpl. rewrite app_nil_r. reflexivity.
  - simpl in H. apply andb_true_iff in H as [Ha Hl].
    destruct a; try discriminate Ha; simpl; rewrite (IH _ Hl);
      rewrite <- app_assoc; reflexivity.
Qed.

Lemma ClientRev2_decodeAnswers_all (answer : list miekg.RR) :
  forall acc,
    forallb ClientRev2.decodable answer = true ->
    ClientRev2.decodeAnswers answer acc =
      ((acc ++ map renderRev2 answer)%list, None).
Proof.
  induction answer as [|a l IH]; intros acc H.
  - simpl. rewrite app_nil_r. reflexivity.
  - simpl in H. apply andb_true_iff in H as [Ha Hl].
    destruct a; try discriminate Ha; simpl; rewrite (IH _ Hl);
      rewrite <- app_assoc; reflexivity.
Qed.

(** The loop returns an error only together with a nil list. *)
Lemma ClientRev1_decodeAnswers_error (answer : list miekg.RR) :
  forall acc l e,
    ClientRev1.decodeAnswers answer acc = (l, Some e) -> l = [].
Proof.
  induction answer as [|a r IH]; intros acc l e H; [discriminate H|].
  destruct a; simpl in H; try (apply IH in H; exact H); inversion H; reflexivity.
Qed.

Lemma ClientRev2_decodeAnswers_error (answer : list miekg.RR) :
  forall acc l e,
    ClientRev2.decodeAnswers answer acc = (l, Some e) -> l = [].
Proof.
  induction answer as [|a r IH]; intros acc l e H; [discriminate H|].
  destruct a; simpl in H; try (apply IH in H; exact H); inversion H; reflexivity.
Qed.

(** X1. When the status is success and every answer has a decoder, Resolve
    returns no error and one string for each answer record, in the order of
    the answer section, duplicates included: the list is the answers mapped
    by the decoder of each record (both revisions; the earlier one does not
    look at the status). *)
Theorem Resolve_answers_in_order :
  forall (exchange : miekg.transport) (query recordType : string)
         (ns : Nameserver) (rt : RecordType) (response : miekg.Msg),
    RecordTypeString recordType = (rt, None) ->
    (forall m target, exchange m target = miekg.Response response) ->
    (miekg.Rcode response = miekg.RcodeSuccess ->
     forallb ClientRev2.decodable (miekg.Answer response) = true ->
     ips (ClientRev2.Resolve exchange query recordType ns) =
       map renderRev2 (miekg.Answer response) /\
     err (ClientRev2.Resolve exchange query recordType ns) = None /\
     List.length (ips (ClientRev2.Resolve exchange query recordType ns)) =
       List.length (miekg.Answer response)) /\
    (forallb ClientRev1.decodable (miekg.Answer response) = true ->
     ips (ClientRev1.Resolve exchange query recordType ns) =
       map renderRev1 (miekg.Answer response) /\
     err (ClientRev1.Resolve exchange query recordType ns) = None /\
     List.length (ips (ClientRev1.Resolve exchange query recordType ns)) =
       List.length (miekg.Answer response)).
Proof.
  intros exchange query recordType ns rt response Hrt Hx. split.
  - intros Hok Hall. unfold ClientRev2.Resolve.
    rewrite Hrt, Hx, Hok, (ClientRev2_decodeAnswers_all _ [] Hall).
    cbn. rewrite length_map. auto.
  - intros Hall. unfold ClientRev1.Resolve.
    rewrite Hrt, Hx, (ClientRev1_decodeAnswers_all _ [] Hall).
    cbn. rewrite length_map. auto.
Qed.

(** X1 on a response that holds the same A record twice. *)
Lemma Resolve_answers_in_order_witness :
  ips (ClientRev2.Resolve
         (fun _ _ => miekg.Response
            (miekg.mkMsg true 0 []
               [miekg.RR_A (net.ParseIP "203.0.113.11");
                miekg.RR_A (net.ParseIP "203.0.113.1");
                miekg.RR_A (net.ParseIP "203.0.113.11")]))
         "k6.test" "A" sampleNameserver) =
    ["203.0.113.11"; "203.0.113.1"; "203.0.113.11"].
Proof.
  destruct (Resolve_answers_in_order
              (fun _ _ => miekg.Response
                 (miekg.mkMsg true 0 []
                    [miekg.RR_A (net.ParseIP "203.0.113.11");
                     miekg.RR_A (net.ParseIP "203.0.113.1");
                     miekg.RR_A (net.ParseIP "203.0.113.11")]))
              "k6.test" "A" sampleNameserver RecordTypeA _
              eq_refl (fun _ _ => eq_refl)) as [H _].
  destruct (H eq_refl eq_refl) as [E _]. rewrite E. vm_compute. reflexivity.
Defined.

(** The loop returns no error only when every record has a decoder, and
    then the list is the records mapped by their decoders. *)
Lemma ClientRev1_decodeAnswers_ok (answer : list miekg.RR) :
  forall acc l,
    ClientRev1.decodeAnswers answer acc = (l, None) ->
    forallb ClientRev1.decodable answer = true /\
    l = (acc ++ map renderRev1 answer)%list.
Proof.
  induction answer as [|a r IH]; intros acc l H.
  - simpl in H. inversion H. rewrite app_nil_r. auto.
  - destruct a; simpl in H; try discriminate H;
      apply IH in H as [Hd ->]; rewrite <- app_assoc; auto.
Qed.

Lemma ClientRev2_decodeAnswers_ok (answer : list miekg.RR) :
  forall acc l,
    ClientRev2.decodeAnswers answer acc = (l, None) ->
    forallb ClientRev2.decodable answer = true /\
    l = (acc ++ map renderRev2 answer)%list.
Proof.
  induction answer as [|a r IH]; intros acc l H.
  - simpl in H. inversion H. rewrite app_nil_r. auto.
  - destruct a; simpl in H; try discriminate H;
      apply IH in H as [Hd ->]; rewrite <- app_assoc; auto.
Qed.

(** What Resolve makes of an answer of the transport to its question at
    the address of the nameserver, when every record has a decoder (and,
    in the later revision, the status is success). *)
Lemma ClientRev1_Resolve_answers (exchange : miekg.transport)
    (query recordType : string) (ns : Nameserver) (rt : RecordType)
    (response : miekg.Msg) :
  RecordTypeString recordType = (rt, None) ->
  exchange (miekg.SetQuestion miekg.emptyMsg (query ++ ".")
              (ClientRev1.concreteType rt)) (Addr ns) = miekg.Response response ->
  forallb ClientRev1.decodable (miekg.Answer response) = true ->
  ClientRev1.Resolve exchange query recordType ns =
    mkResolved
      [(miekg.SetQuestion miekg.emptyMsg (query ++ ".") (ClientRev1.concreteType rt),
        Addr ns)]
      (map renderRev1 (miekg.Answer response)) None.
Proof.
  intros H E Hall. unfold ClientRev1.Resolve. rewrite H. cbv beta iota zeta.
  rewrite E, (ClientRev1_decodeAnswers_all _ [] Hall). reflexivity.
Qed.

Lemma ClientRev2_Resolve_answers (exchange : miekg.transport)
    (query recordType : string) (ns : Nameserver) (rt : RecordType)
    (response : miekg.Msg) :
  RecordTypeString recordType = (rt, None) ->
  exchange (miekg.SetQuestion miekg.emptyMsg (query ++ ".") (uint16 rt))
    (Addr ns) = miekg.Response response ->
  miekg.Rcode response = miekg.RcodeSuccess ->
  forallb ClientRev2.decodable (miekg.Answer response) = true ->
  ClientRev2.Resolve exchange query recordType ns =
    mkResolved
      [(miekg.SetQuestion miekg.emptyMsg (query ++ ".") (uint16 rt), Addr ns)]
      (map renderRev2 (miekg.Answer response)) None.
Proof.
  intros H E Hok Hall. unfold ClientRev2.Resolve. rewrite H.
  cbv beta iota zeta.
  rewrite E, Hok, (ClientRev2_decodeAnswers_all _ [] Hall). reflexivity.
Qed.

(** Whenever Resolve returns an error the result list is nil. *)
Lemma ClientRev1_Resolve_error_nil (exchange : miekg.transport)
    (query recordType : string) (ns : Nameserver) :
  err (ClientRev1.Resolve exchange query recordType ns) <> None ->
  ips (ClientRev1.Resolve exchange query recordType ns) = [].
Proof.
  unfold ClientRev1.Resolve.
  destruct (RecordTypeString recordType) as [rt [e|]]; [reflexivity|].
  cbv beta iota zeta.
  destruct (exchange _ _) as [r|e]; [|reflexivity].
  destruct (ClientRev1.decodeAnswers _ _) as [l [e|]] eqn:D.
  - apply ClientRev1_decodeAnswers_error in D. subst l. reflexivity.
  - cbn. intros H. contradiction.
Qed.

Lemma ClientRev2_Resolve_error_nil (exchange : miekg.transport)
    (query recordType : string) (ns : Nameserver) :
  err (ClientRev2.Resolve exchange query recordType ns) <> None ->
  ips (ClientRev2.Resolve exchange query recordType ns) = [].
Proof.
  unfold ClientRev2.Resolve.
  destruct (RecordTypeString recordType) as [rt [e|]]; [reflexivity|].
  cbv beta iota zeta.
  destruct (exchange _ _) as [r|e]; [|reflexivity].
  destruct (negb _); [reflexivity|].
  destruct (ClientRev2.decodeAnswers _ _) as [l [e|]] eqn:D.
  - apply ClientRev2_decodeAnswers_error in D. subst l. reflexivity.
  - cbn. intros H. contradiction.
Qed.

(** X2. Whatever the query, the record type and the nameserver, Resolve
    reads of the transport one answer at most, the one to its question at
    the address of the nameserver: two transports that answer alike there
    give the same result, and when the record type does not parse any two
    transports do, the transport playing no part. A failure of the
    transport there is final: Resolve returns it (wrapped, in the later
    revision) with a nil list, whatever the transport would answer to
    another message or at another target. And whenever Resolve returns an
    error the result list is nil (both revisions). *)
Theorem Resolve_reads_one_answer :
  forall (exchange exchange' : miekg.transport) (query recordType : string)
         (ns : Nameserver),
    (((forall rt,
         RecordTypeString recordType = (rt, None) ->
         exchange' (miekg.SetQuestion miekg.emptyMsg (query ++ ".") (uint16 rt))
           (Addr ns) =
         exchange (miekg.SetQuestion miekg.emptyMsg (query ++ ".") (uint16 rt))
           (Addr ns)) ->
      ClientRev2.Resolve exchange' query recordType ns =
      ClientRev2.Resolve exchange query recordType ns) /\
     (forall rt e,
        RecordTypeString recordType = (rt, None) ->
        exchange (miekg.SetQuestion miekg.emptyMsg (query ++ ".") (uint16 rt))
          (Addr ns) = miekg.Failure e ->
        ips (ClientRev2.Resolve exchange query recordType ns) = [] /\
        err (ClientRev2.Resolve exchange query recordType ns) =
          Some (wrapError "querying the DNS nameserver failed: " e "")) /\
     (err (ClientRev2.Resolve exchange query recordType ns) <> None ->
      ips (ClientRev2.Resolve exchange query recordType ns) = [])) /\
    (((forall rt,
         RecordTypeString recordType = (rt, None) ->
         exchange' (miekg.SetQuestion miekg.emptyMsg (query ++ ".")
                      (ClientRev1.concreteType rt)) (Addr ns) =
         exchange (miekg.SetQuestion miekg.emptyMsg (query ++ ".")
                     (ClientRev1.concreteType rt)) (Addr ns)) ->
      ClientRev1.Resolve exchange' query recordType ns =
      ClientRev1.Resolve exchange query recordType ns) /\
     (forall rt e,
        RecordTypeString recordType = (rt, None) ->
        exchange (miekg.SetQuestion miekg.emptyMsg (query ++ ".")
                    (ClientRev1.concreteType rt)) (Addr ns) = miekg.Failure e ->
        ips (ClientRev1.Resolve exchange query recordType ns) = [] /\
        err (ClientRev1.Resolve exchange query recordType ns) = Some e) /\
     (err (ClientRev1.Resolve exchange query recordType ns) <> None ->
      ips (ClientRev1.Resolve exchange query recordType ns) = [])).
Proof.
  intros exchange exchange' query recordType ns. split; split.
  - intros H. destruct (RecordTypeString recordType) as [rt [e|]] eqn:P.
    + unfold ClientRev2.Resolve. rewrite P. reflexivity.
    + apply (ClientRev2_Resolve_at _ _ _ _ _ _ P). apply H. reflexivity.
  - split.
    + intros rt e P E. rewrite (ClientRev2_Resolve_failure _ _ _ _ _ _ P E).
      split; reflexivity.
    + apply ClientRev2_Resolve_error_nil.
  - intros H. destruct (RecordTypeString recordType) as [rt [e|]] eqn:P.
    + unfold ClientRev1.Resolve. rewrite P. reflexivity.
    + apply (ClientRev1_Resolve_at _ _ _ _ _ _ P). apply H. reflexivity.
  - split.
    + intros rt e P E. rewrite (ClientRev1_Resolve_failure _ _ _ _ _ _ P E).
      split; reflexivity.
    + apply ClientRev1_Resolve_error_nil.
Qed.

(** X18. The type of the question. For every name the parser of record
    types accepts, with whatever value: the earlier revision converts the
    value by a switch that has cases for A and AAAA only, and what it
    returns is decided by the transport's answer to the message with one
    question, for the query followed by a dot, in class IN and of type 1
    when the value is 1, 28 when it is 28 and 0 for every other value (a
    failure of the transport to that message is the error returned); the
    constants [RecordTypeCNAME], [RecordTypeNS] and [RecordTypePTR] of
    record_type.go are among the values converted to 0. The later revision
    puts the same question with the value itself, reduced to 16 bits, as
    its type. *)
Theorem Resolve_question_type :
  forall (exchange : miekg.transport) (query name : string) (ns : Nameserver)
         (rt : RecordType),
    RecordTypeString name = (rt, None) ->
    (forall e : error,
       exchange
         (miekg.mkMsg true 0
            [miekg.mkQuestion (query ++ ".")
               (if rt =? 1 then 1 else if rt =? 28 then 28 else 0)
               miekg.ClassINET] [])
         (Addr ns) = miekg.Failure e ->
       err (ClientRev1.Resolve exchange query name ns) = Some e) /\
    (forall e : error,
       exchange
         (miekg.mkMsg true 0
            [miekg.mkQuestion (query ++ ".") (rt mod 65536) miekg.ClassINET] [])
         (Addr ns) = miekg.Failure e ->
       err (ClientRev2.Resolve exchange query name ns) =
         Some (wrapError "querying the DNS nameserver failed: " e "")) /\
    (ClientRev1.concreteType RecordTypeA = 1 /\
     ClientRev1.concreteType RecordTypeAAAA = 28 /\
     ClientRev1.concreteType RecordTypeCNAME = 0 /\
     ClientRev1.concreteType RecordTypeNS = 0 /\
     ClientRev1.concreteType RecordTypePTR = 0) /\
    (uint16 RecordTypeA = 1 /\ uint16 RecordTypeAAAA = 28 /\
     uint16 RecordTypeCNAME = 5 /\ uint16 RecordTypeNS = 2 /\
     uint16 RecordTypePTR = 12).
Proof.
  intros exchange query name ns rt P. split; [|split; [|split]].
  - intros e E.
    rewrite (ClientRev1_Resolve_failure exchange query name ns rt e P);
      [reflexivity|exact E].
  - intros e E.
    rewrite (ClientRev2_Resolve_failure exchange query name ns rt e P);
      [reflexivity|exact E].
  - repeat split.
  - repeat split.
Qed.

(** X18 for the type AAAA, on a transport that refuses the connection at
    the address of the nameserver. *)
Lemma Resolve_question_type_witness :
  err (ClientRev1.Resolve (refusedAt (Addr sampleNameserver) sampleUnhandled)
         "k6.test" "AAAA" sampleNameserver) =
    Some (errorString "connection refused").
Proof.
  destruct (Resolve_question_type
              (refusedAt (Addr sampleNameserver) sampleUnhandled)
              "k6.test" "AAAA" sampleNameserver RecordTypeAAAA eq_refl)
    as [H _].
  apply H. vm_compute. reflexivity.
Defined.

Lemma address_records_decodable (l : list miekg.RR) :
  forallb isAddressRecord l = true ->
  forallb ClientRev1.decodable l = true /\
  forallb ClientRev2.decodable l = true /\
  map renderRev1 l = map renderRev2 l.
Proof.
  induction l as [|a l IH]; intros H; [auto|].
  simpl in H. apply andb_true_iff in H as [Ha Hl].
  destruct (IH Hl) as [H1 [H2 H3]].
  destruct a; try discriminate Ha; simpl; rewrite H1, H2, H3; auto.
Qed.

(** X3. The two revisions of Resolve agree on address lookups: for a
    record type the parser accepts as A or as AAAA they put the same
    question, at the same target, and when the transport answers that
    question at that target with success status and A or AAAA records
    only, both return the same list, the addresses in the order of the
    answer, and no error, whatever the transport does for any other
    message or target. *)
Theorem Resolve_revisions_agree_on_addresses :
  forall (exchange : miekg.transport) (query recordType : string)
         (ns : Nameserver) (rt : RecordType) (response : miekg.Msg),
    RecordTypeString recordType = (rt, None) ->
    rt = RecordTypeA \/ rt = RecordTypeAAAA ->
    exchange (miekg.SetQuestion miekg.emptyMsg (query ++ ".") rt) (Addr ns) =
      miekg.Response response ->
    miekg.Rcode response = miekg.RcodeSuccess ->
    forallb isAddressRecord (miekg.Answer response) = true ->
    ClientRev1.Resolve exchange query recordType ns =
      ClientRev2.Resolve exchange query recordType ns /\
    ips (ClientRev2.Resolve exchange query recordType ns) =
      map renderRev2 (miekg.Answer response) /\
    err (ClientRev2.Resolve exchange query recordType ns) = None.
Proof.
  intros exchange query recordType ns rt response P Hrt Hx Hok Hall.
  destruct (address_records_decodable _ Hall) as [H1 [H2 H3]].
  assert (ClientRev1.concreteType rt = rt /\ uint16 rt = rt) as [C1 C2]
    by (destruct Hrt as [-> | ->]; split; reflexivity).
  assert (ClientRev1.Resolve exchange query recordType ns =
          mkResolved [(miekg.SetQuestion miekg.emptyMsg (query ++ ".") rt, Addr ns)]
            (map renderRev1 (miekg.Answer response)) None) as R1.
  { rewrite <- C1 at 1. apply ClientRev1_Resolve_answers; [exact P| |exact H1].
    rewrite C1. exact Hx. }
  assert (ClientRev2.Resolve exchange query recordType ns =
          mkResolved [(miekg.SetQuestion miekg.emptyMsg (query ++ ".") rt, Addr ns)]
            (map renderRev2 (miekg.Answer response)) None) as R2.
  { rewrite <- C2 at 1. apply ClientRev2_Resolve_answers;
      [exact P| |exact Hok|exact H2].
    rewrite C2. exact Hx. }
  rewrite R1, R2, H3. repeat split; reflexivity.
Qed.

(** X3 on a transport that answers at the address of the nameserver only,
    with two AAAA records. *)
Lemma Resolve_revisions_agree_on_addresses_witness :
  ClientRev1.Resolve
    (answersAt (Addr sampleNameserver)
       (miekg.mkMsg true 0 []
          [miekg.RR_AAAA (net.ParseIP "fd00::1"); miekg.RR_AAAA (net.ParseIP "fd00::2")]))
    "k6.test" "AAAA" sampleNameserver =
  ClientRev2.Resolve
    (answersAt (Addr sampleNameserver)
       (miekg.mkMsg true 0 []
          [miekg.RR_AAAA (net.ParseIP "fd00::1"); miekg.RR_AAAA (net.ParseIP "fd00::2")]))
    "k6.test" "AAAA" sampleNameserver /\
  ips (ClientRev2.Resolve
         (answersAt (Addr sampleNameserver)
            (miekg.mkMsg true 0 []
               [miekg.RR_AAAA (net.ParseIP "fd00::1");
                miekg.RR_AAAA (net.ParseIP "fd00::2")]))
         "k6.test" "AAAA" sampleNameserver) = ["fd00::1"; "fd00::2"].
Proof.
  destruct (Resolve_revisions_agree_on_addresses
              (answersAt (Addr sampleNameserver)
                 (miekg.mkMsg true 0 []
                    [miekg.RR_AAAA (net.ParseIP "fd00::1");
                     miekg.RR_AAAA (net.ParseIP "fd00::2")]))
              "k6.test" "AAAA" sampleNameserver RecordTypeAAAA
              (miekg.mkMsg true 0 []
                 [miekg.RR_AAAA (net.ParseIP "fd00::1");
                  miekg.RR_AAAA (net.ParseIP "fd00::2")])
              eq_refl (or_intror eq_refl)) as [H1 [H2 _]].
  - vm_compute. reflexivity.
  - reflexivity.
  - reflexivity.
  - split; [exact H1|]. rewrite H2. vm_compute. reflexivity.
Defined.

(** ** What the address parsers return *)

Lemma store_Forall (l : list Z) (i v : Z) :
  Forall isByte l -> isByte v -> Forall isByte (net.store l i v).
Proof.
  intros Hl Hv. unfold net.store. generalize (Z.to_nat i) as k.
  induction Hl as [|x r Hx Hr IH]; intros k; [constructor|].
  destruct k; simpl; constructor; auto.
Qed.

Lemma isDigit_digitVal (c : ascii) :
  strconv.isDigit c = true -> 0 <= strconv.digitVal c <= 9.
Proof.
  unfold strconv.isDigit, strconv.digitVal. intros H.
  apply andb_true_iff in H as [H1 H2].
  apply Z.leb_le in H1. apply Z.leb_le in H2. lia.
Qed.

Lemma parseIPv4Fields_bytes (s : string) :
  forall prev val pos digLen fields f,
    0 <= val <= 255 ->
    Forall isByte fields ->
    net.parseIPv4Fields s prev val pos digLen fields = Some f ->
    Forall isByte f.
Proof.
  induction s as [|c r IH]; intros prev val pos digLen fields f Hv Hf;
    cbn [net.parseIPv4Fields].
  - destruct (pos <? 3); [discriminate|].
    intros H. inversion H. apply store_Forall; [exact Hf|unfold isByte; lia].
  - destruct (strconv.isDigit c) eqn:Hd.
    + destruct ((digLen =? 1) && (val =? 0)); [discriminate|].
      destruct (255 <? val * 10 + strconv.digitVal c) eqn:Hb; [discriminate|].
      apply Z.ltb_ge in Hb. apply isDigit_digitVal in Hd.
      apply IH; [lia|exact Hf].
    + destruct (Ascii.eqb c "."); [|discriminate].
      destruct (_ || _ || _); [discriminate|].
      destruct (pos =? 3); [discriminate|].
      apply IH; [lia|]. apply store_Forall; [exact Hf|unfold isByte; lia].
Qed.

Lemma parseIPv4_wf (s : string) (f : list Z) :
  net.parseIPv4 s = Some f -> List.length f = 4%nat /\ Forall isByte f.
Proof.
  intros H. split.
  - apply parseIPv4Fields_length in H. exact H.
  - apply parseIPv4Fields_bytes in H; [exact H|lia|].
    repeat constructor; unfold isByte; lia.
Qed.

Lemma hexVal_range (c : ascii) (v : Z) :
  net.hexVal c = Some v -> 0 <= v <= 15.
Proof.
  unfold net.hexVal. cbv zeta.
  set (n := Z.of_nat (nat_of_ascii c)).
  destruct ((48 <=? n) && (n <=? 57)) eqn:H1.
  - apply andb_true_iff in H1 as [A B]. apply Z.leb_le in A. apply Z.leb_le in B.
    intros H. inversion H. lia.
  - destruct ((97 <=? n) && (n <=? 102)) eqn:H2.
    + apply andb_true_iff in H2 as [A B]. apply Z.leb_le in A. apply Z.leb_le in B.
      intros H. inversion H. lia.
    + destruct ((65 <=? n) && (n <=? 70)) eqn:H3; [|discriminate].
      apply andb_true_iff in H3 as [A B]. apply Z.leb_le in A. apply Z.leb_le in B.
      intros H. inversion H. lia.
Qed.

Lemma hexGroup_range (s : string) :
  forall off acc off' acc' rest,
    0 <= acc <= 65535 ->
    net.hexGroup s off acc = Some (off', acc', rest) ->
    0 <= acc' <= 65535.
Proof.
  induction s as [|c r IH]; intros off acc off' acc' rest Ha; cbn [net.hexGroup].
  - intros H. inversion H. subst. exact Ha.
  - destruct (net.hexVal c) as [v|] eqn:Hv.
    + destruct (3 <? off); [discriminate|].
      destruct (65535 <? Z.shiftl acc 4 + v) eqn:Hb; [discriminate|].
      apply Z.ltb_ge in Hb. apply hexVal_range in Hv.
      apply IH. rewrite Z.shiftl_mul_pow2 in * by lia. lia.
    + intros H. inversion H. subst. exact Ha.
Qed.

Lemma word_bytes (acc : Z) :
  0 <= acc <= 65535 -> isByte (Z.shiftr acc 8) /\ isByte (Z.land acc 255).
Proof.
  intros H. unfold isByte. split.
  - rewrite Z.shiftr_div_pow2 by lia. change (2 ^ 8) with 256.
    split; [apply Z.div_pos; lia|apply Z.div_lt_upper_bound; lia].
  - change 255 with (Z.ones 8). rewrite Z.land_ones by lia.
    change (2 ^ 8) with 256. apply Z.mod_pos_bound. lia.
Qed.

(** A 16-byte slice. *)
Lemma wf16_store (ip : list Z) (i v : Z) :
  List.length ip = 16%nat /\ Forall isByte ip -> isByte v ->
  List.length (net.store ip i v) = 16%nat /\ Forall isByte (net.store ip i v).
Proof.
  intros [L F] Hv. split; [rewrite store_length; exact L|].
  apply store_Forall; assumption.
Qed.

Lemma parseIPv6_loop_wf (rounds : nat) :
  forall s i ip ellipsis s' i' ip' ellipsis',
    List.length ip = 16%nat /\ Forall isByte ip ->
    net.parseIPv6_loop rounds s i ip ellipsis = Some (s', i', ip', ellipsis') ->
    List.length ip' = 16%nat /\ Forall isByte ip'.
Proof.
  induction rounds as [|n IH]; intros s i ip ellipsis s' i' ip' ellipsis' W;
    cbn [net.parseIPv6_loop].
  - intros H. inversion H. subst. exact W.
  - destruct (negb (i <? 16)); [intros H; inversion H; subst; exact W|].
    destruct (net.hexGroup s 0 0) as [[[off acc] rest]|] eqn:Hg; [|discriminate].
    destruct (off =? 0); [discriminate|].
    apply hexGroup_range in Hg; [|lia].
    destruct (word_bytes acc Hg) as [Bh Bl].
    assert (List.length (net.store (net.store ip i (Z.shiftr acc 8)) (i + 1)
                           (Z.land acc 255)) = 16%nat /\
            Forall isByte (net.store (net.store ip i (Z.shiftr acc 8)) (i + 1)
                             (Z.land acc 255))) as W'
      by (apply wf16_store; [apply wf16_store; assumption|assumption]).
    assert (forall f, net.parseIPv4 s = Some f ->
              List.length (net.store4 ip i f) = 16%nat /\
              Forall isByte (net.store4 ip i f)) as W4.
    { intros f Hf. apply parseIPv4_wf in Hf as [_ Ff]. unfold net.store4.
      repeat apply wf16_store; try exact W; apply load_isByte; exact Ff. }
    destruct rest as [|c r1].
    + intros H. inversion H. subst. exact W'.
    + destruct (Ascii.eqb_spec c ".") as [->|Nd].
      * destruct ((ellipsis <? 0) && negb (i =? 12)); [discriminate|].
        destruct (16 <? i + 4); [discriminate|].
        destruct (net.parseIPv4 s) as [f|] eqn:Hf; [|discriminate].
        intros H. inversion H. subst. apply W4. reflexivity.
      * assert (forall X Y : option (string * Z * list Z * Z),
                  match c with
                  | "."%char => X
                  | _ => Y
                  end = Y) as Hc.
        { intros X Y. destruct c as [[] [] [] [] [] [] [] []]; try reflexivity.
          contradiction Nd. reflexivity. }
        rewrite Hc.
        destruct (negb (Ascii.eqb c ":")); [discriminate|].
        destruct r1 as [|c2 r2]; [discriminate|].
        destruct (Ascii.eqb c2 ":").
        -- destruct (0 <=? ellipsis); [discriminate|].
           destruct r2.
           ++ intros H. inversion H. subst. exact W'.
           ++ apply IH. exact W'.
        -- apply IH. exact W'.
Qed.

Lemma moveUp_wf (cnt : nat) :
  forall j n ip,
    List.length ip = 16%nat /\ Forall isByte ip ->
    List.length (net.moveUp cnt j n ip) = 16%nat /\
    Forall isByte (net.moveUp cnt j n ip).
Proof.
  induction cnt as [|c IH]; intros j n ip W; [exact W|].
  cbn [net.moveUp]. apply IH. apply wf16_store; [exact W|].
  apply load_isByte. apply W.
Qed.

Lemma clearRange_wf (cnt : nat) :
  forall from ip,
    List.length ip = 16%nat /\ Forall isByte ip ->
    List.length (net.clearRange cnt from ip) = 16%nat /\
    Forall isByte (net.clearRange cnt from ip).
Proof.
  induction cnt as [|c IH]; intros from ip W; [exact W|].
  cbn [net.clearRange]. apply IH. apply wf16_store; [exact W|].
  unfold isByte. lia.
Qed.

Lemma zero16_wf :
  List.length net.zero16 = 16%nat /\ Forall isByte net.zero16.
Proof.
  split; [reflexivity|]. repeat constructor; unfold isByte; lia.
Qed.

Lemma parseIPv6_wf (s : string) (ip : list Z) (zone : string) :
  net.parseIPv6 s = Some (ip, zone) ->
  List.length ip = 16%nat /\ Forall isByte ip.
Proof.
  unfold net.parseIPv6.
  destruct ((0 <=? IndexByteString s "%") && _); [discriminate|].
  match goal with
  | |- context [if ?b && (len ?t =? 0) then Some (net.zero16, _) else _] =>
      destruct (b && (len t =? 0))
  end.
  - intros H. inversion H. subst. exact zero16_wf.
  - destruct (net.parseIPv6_loop _ _ _ _ _) as [[[[s' i'] ip'] e']|] eqn:L;
      [|discriminate].
    apply parseIPv6_loop_wf in L; [|exact zero16_wf].
    destruct (negb (len s' =? 0)); [discriminate|].
    destruct (i' <? 16).
    + destruct (e' <? 0); [discriminate|].
      intros H. inversion H. subst.
      apply clearRange_wf. apply moveUp_wf. exact L.
    + destruct (0 <=? e'); [discriminate|].
      intros H. inversion H. subst. exact L.
Qed.

Lemma parseIP_scan_wf (rest whole : string) (ip : list Z) :
  net.parseIP_scan rest whole = Some ip ->
  List.length ip = 16%nat /\ Forall isByte ip.
Proof.
  induction rest as [|c r IH]; cbn [net.parseIP_scan]; [discriminate|].
  destruct (Ascii.eqb c ".").
  - destruct (net.parseIPv4 whole) as [f|] eqn:E; [|discriminate].
    apply parseIPv4_wf in E as [L F].
    intros H. inversion H. subst. unfold net.v4InV6. split.
    + rewrite !length_app, L. reflexivity.
    + apply Forall_app. split; [repeat constructor; unfold isByte; lia|].
      apply Forall_app. split; [repeat constructor; unfold isByte; lia|exact F].
  - destruct (Ascii.eqb c ":").
    + destruct (net.parseIPv6 whole) as [[ip' [|z zs]]|] eqn:E; try discriminate.
      intros H. inversion H. subst. apply parseIPv6_wf in E. exact E.
    + destruct (Ascii.eqb c "%"); [discriminate|]. exact IH.
Qed.

(** [net.ParseIP] gives [nil] or sixteen bytes. *)
Lemma ParseIP_wf (s : string) :
  net.ParseIP s = [] \/
  (List.length (net.ParseIP s) = 16%nat /\ Forall isByte (net.ParseIP s)).
Proof.
  unfold net.ParseIP.
  destruct (net.parseIP_scan s s) as [ip|] eqn:E; [|left; reflexivity].
  right. apply (parseIP_scan_wf s s ip E).
Qed.

(** Every error of [net.SplitHostPort] is an address error about its
    argument, with empty host and port. *)
Lemma SplitHostPort_error (addr h p : string) (e : error) :
  net.SplitHostPort addr = (h, p, Some e) ->
  h = "" /\ p = "" /\ exists why, e = AddrError why addr.
Proof.
  unfold net.SplitHostPort.
  repeat match goal with
         | |- context [if ?b then _ else _] => destruct b
         end;
    intros H; inversion H; subst; eauto.
Qed.

(** Every error of [strconv.Atoi] is a number error about its argument. *)
Lemma Atoi_error (s : string) (n : Z) (e : error) :
  strconv.Atoi s = (n, Some e) -> exists cause, e = NumError "Atoi" s cause.
Proof.
  unfold strconv.Atoi. cbv zeta.
  destruct s as [|c0 r]; [intros H; inversion H; eauto|].
  destruct (Ascii.eqb c0 "-" || Ascii.eqb c0 "+").
  - destruct r as [|c1 r']; [intros H; inversion H; eauto|].
    destruct (strconv.digits (String c1 r') 0);
      [|intros H; inversion H; eauto
       |destruct (Ascii.eqb c0 "-"); intros H; inversion H; eauto].
    destruct (strconv.maxInt <? _); [intros H; inversion H; eauto|].
    destruct (_ <? strconv.minInt); intros H; inversion H; eauto.
  - destruct (strconv.digits (String c0 r) 0);
      [|intros H; inversion H; eauto
       |destruct (Ascii.eqb c0 "-"); intros H; inversion H; eauto].
    destruct (strconv.maxInt <? _); [intros H; inversion H; eauto|].
    destruct (_ <? strconv.minInt); intros H; inversion H; eauto.
Qed.

(** The outcome of the second part of the parsers. *)
Lemma parseIPAndPort_outcome (addr hostStr portStr : string) :
  (snd (parseIPAndPort hostStr portStr) = None /\
   List.length (IP (fst (parseIPAndPort hostStr portStr))) = 16%nat /\
   wfNameserver (fst (parseIPAndPort hostStr portStr))) \/
  (fst (parseIPAndPort hostStr portStr) = noNameserver /\
   exists e, snd (parseIPAndPort hostStr portStr) = Some e /\
             (forall why, e <> wrapError "invalid IPv6 namerserver address format: "
                                 (AddrError why addr) "") /\
             parseError addr e).
Proof.
  unfold parseIPAndPort.
  destruct (ParseIP_wf hostStr) as [E|[L F]].
  - rewrite E. right. split; [reflexivity|]. eexists. split; [reflexivity|].
    split; [intros why; discriminate|]. apply invalidIP. exact E.
  - destruct (net.ParseIP hostStr) as [|b ip] eqn:E; [discriminate L|].
    destruct (strconv.Atoi _) as [port [e|]] eqn:A.
    + right. split; [reflexivity|]. eexists. split; [reflexivity|].
      apply Atoi_error in A as [cause ->].
      split; [intros why; discriminate|]. apply invalidPort.
    + destruct ((port <? 0) || (65535 <? port)) eqn:R.
      * right. split; [reflexivity|]. eexists. split; [reflexivity|].
        split; [intros why; discriminate|]. apply portOutOfRange.
        apply orb_true_iff in R as [R|R]; apply Z.ltb_lt in R; lia.
      * left. apply orb_false_iff in R as [R0 R1].
        apply Z.ltb_ge in R0. apply Z.ltb_ge in R1.
        cbn [fst snd IP Port]. split; [reflexivity|]. split; [exact L|].
        unfold wfNameserver. cbn [IP Port]. split; [exact F|].
        unfold uint16. rewrite Z.mod_small by lia. lia.
Qed.

(** X4. Whatever the input, [ParseNameserverAddr] and [parseNameserverAddr]
    return either no error and a well-formed nameserver (an address of
    exactly sixteen bytes, a port in [0, 65535]), or the zero nameserver
    and one of the parser's own errors: invalid address format, invalid
    IPv6 address format (the exported revision only), invalid IP address,
    port not a number, port out of range. They never return a nameserver
    together with an error. *)
Theorem ParseNameserverAddr_outcome :
  forall addr : string,
    ((snd (ParseNameserverAddr addr) = None /\
      List.length (IP (fst (ParseNameserverAddr addr))) = 16%nat /\
      wfNameserver (fst (ParseNameserverAddr addr))) \/
     (fst (ParseNameserverAddr addr) = noNameserver /\
      exists e, snd (ParseNameserverAddr addr) = Some e /\ parseError addr e)) /\
    ((snd (parseNameserverAddr addr) = None /\
      List.length (IP (fst (parseNameserverAddr addr))) = 16%nat /\
      wfNameserver (fst (parseNameserverAddr addr))) \/
     (fst (parseNameserverAddr addr) = noNameserver /\
      exists e, snd (parseNameserverAddr addr) = Some e /\
                (forall why, e <> wrapError "invalid IPv6 namerserver address format: "
                                    (AddrError why addr) "") /\
                parseError addr e)).
Proof.
  intros addr.
  assert (forall h p,
            (snd (parseIPAndPort h p) = None /\
             List.length (IP (fst (parseIPAndPort h p))) = 16%nat /\
             wfNameserver (fst (parseIPAndPort h p))) \/
            (fst (parseIPAndPort h p) = noNameserver /\
             exists e, snd (parseIPAndPort h p) = Some e /\ parseError addr e)) as T.
  { intros h p. destruct (parseIPAndPort_outcome addr h p) as [H|[H0 [e [H1 [_ H2]]]]];
      [left; exact H|right; eauto]. }
  split.
  - rewrite ParseNameserverAddr_parts.
    destruct (negb (ContainsRune addr ":")); [apply T|].
    destruct (net.SplitHostPort addr) as [[h p] [e|]] eqn:S; [|apply T].
    apply SplitHostPort_error in S as [-> [-> [why ->]]].
    destruct (negb (Contains addr "]")).
    + right. split; [reflexivity|]. eexists. split; [reflexivity|].
      apply invalidFormat.
    + destruct (byteIs addr 0 "[" && byteIs addr (len addr - 1) "]"); [apply T|].
      right. split; [reflexivity|]. eexists. split; [reflexivity|].
      apply invalidIPv6Format.
  - rewrite parseNameserverAddr_parts. unfold parseHostAndPort.
    destruct (ContainsRune addr ":"); [|apply parseIPAndPort_outcome].
    destruct (net.SplitHostPort addr) as [[h p] [e|]] eqn:S;
      [|apply parseIPAndPort_outcome].
    apply SplitHostPort_error in S as [-> [-> [why ->]]].
    destruct (Contains addr "]" && _); [apply parseIPAndPort_outcome|].
    right. split; [reflexivity|]. eexists. split; [reflexivity|].
    split; [intros why'; discriminate|]. apply invalidFormat.
Qed.

Lemma parseIPAndPort_empty_port (hostStr : string) :
  parseIPAndPort hostStr "" = parseIPAndPort hostStr "53".
Proof. reflexivity. Qed.

(** X5. The two revisions of the parser agree: on every input they return
    the same nameserver and the same error, except that an address with a
    closing bracket that [net.SplitHostPort] refuses and that is not of the
    form "[...]" fails with "invalid IPv6 namerserver address format" in
    the exported revision and with "invalid nameserver address format" in
    the later one, around the same cause. *)
Theorem parser_revisions_agree :
  forall addr : string,
    parseNameserverAddr addr = ParseNameserverAddr addr \/
    exists cause,
      ParseNameserverAddr addr =
        (noNameserver,
         Some (wrapError "invalid IPv6 namerserver address format: " cause "")) /\
      parseNameserverAddr addr =
        (noNameserver,
         Some (wrapError "invalid nameserver address format: " cause "")) /\
      Contains addr "]" = true /\
      (byteIs addr 0 "[" && byteIs addr (len addr - 1) "]") = false.
Proof.
  intros addr.
  rewrite ParseNameserverAddr_parts, parseNameserverAddr_parts.
  unfold parseHostAndPort.
  destruct (ContainsRune addr ":"); cbn [negb].
  - destruct (net.SplitHostPort addr) as [[h p] [e|]] eqn:S; [|left; reflexivity].
    apply SplitHostPort_error in S as [-> [-> _]].
    destruct (Contains addr "]"); cbn [negb andb]; [|left; reflexivity].
    destruct (byteIs addr 0 "[" && byteIs addr (len addr - 1) "]");
      [left; reflexivity|].
    right. exists e. auto.
  - left. symmetry. apply parseIPAndPort_empty_port.
Qed.

(** ** Strings put together *)

Lemma len_app (a b : string) : len (a ++ b) = len a + len b.
Proof.
  unfold len. induction a as [|c r IH]; simpl String.length; [simpl; lia|].
  simpl append. simpl String.length. lia.
Qed.

Lemma len_nonneg (s : string) : 0 <= len s.
Proof. unfold len. lia. Qed.

Lemma len_cons (c : ascii) (s : string) : len (String c s) = len s + 1.
Proof. unfold len. simpl String.length. lia. Qed.

Lemma count_app (a b : string) (c : ascii) :
  count (a ++ b) c = (count a c + count b c)%nat.
Proof.
  induction a as [|x r IH]; simpl; [reflexivity|]. rewrite IH. lia.
Qed.

Lemma allBytes_count (p : ascii -> bool) (s : string) (c : ascii) :
  allBytes p s = true -> p c = false -> count s c = O.
Proof.
  intros H Hc. induction s as [|x r IH]; [reflexivity|].
  simpl in *. apply andb_true_iff in H as [Hx Hr].
  destruct (Ascii.eqb_spec x c) as [->|N]; [congruence|]. apply IH. exact Hr.
Qed.

Lemma IndexByteString_app_absent (a b : string) (c : ascii) :
  count a c = O ->
  IndexByteString (a ++ b) c =
    if IndexByteString b c <? 0 then -1 else len a + IndexByteString b c.
Proof.
  induction a as [|x r IH]; intros H.
  - simpl append. change (len "") with 0.
    pose proof (IndexByteString_lower b c).
    destruct (IndexByteString b c <? 0) eqn:E; [apply Z.ltb_lt in E; lia|lia].
  - simpl in H. destruct (Ascii.eqb x c) eqn:X; [discriminate H|].
    simpl append. cbn [IndexByteString]. rewrite X, (IH H).
    replace (len (String x r)) with (len r + 1) by (unfold len; simpl String.length; lia).
    pose proof (len_nonneg r). pose proof (IndexByteString_lower b c).
    destruct (IndexByteString b c <? 0) eqn:E; [reflexivity|].
    apply Z.ltb_ge in E.
    destruct (len r + IndexByteString b c <? 0) eqn:F;
      [apply Z.ltb_lt in F; lia|lia].
Qed.

Lemma LastIndexByteString_app_absent (a b : string) (c : ascii) :
  count b c = O ->
  LastIndexByteString (a ++ String c b) c = len a.
Proof.
  intros H. induction a as [|x r IH].
  - simpl append. cbn [LastIndexByteString].
    apply LastIndexByteString_count in H.
    destruct (0 <=? LastIndexByteString b c) eqn:E; [apply Z.leb_le in E; lia|].
    rewrite Ascii.eqb_refl. reflexivity.
  - simpl append. cbn [LastIndexByteString]. rewrite IH.
    pose proof (len_nonneg r).
    destruct (0 <=? len r) eqn:E; [|apply Z.leb_gt in E; lia].
    unfold len. simpl String.length. lia.
Qed.

Lemma substring_full (s : string) : String.substring 0 (String.length s) s = s.
Proof.
  induction s as [|c r IH]; [reflexivity|]. simpl. rewrite IH. reflexivity.
Qed.

Lemma substring_prefix (a b : string) :
  String.substring 0 (String.length a) (a ++ b) = a.
Proof.
  induction a as [|c r IH]; simpl; [destruct b; reflexivity|].
  rewrite IH. reflexivity.
Qed.

Lemma substring_skip (a b : string) (n : nat) :
  String.substring (String.length a) n (a ++ b) = String.substring 0 n b.
Proof.
  induction a as [|c r IH]; simpl; [reflexivity|]. exact IH.
Qed.

(** [(a ++ b)[:len(a)] = a], [(a ++ b)[len(a):] = b] and
    [(a ++ b ++ c)[len(a):len(a)+len(b)] = b]. *)
Lemma slice_prefix (a b : string) : slice (a ++ b) 0 (len a) = a.
Proof.
  unfold slice, len. rewrite Z.sub_0_r, Nat2Z.id. apply substring_prefix.
Qed.

Lemma sliceFrom_app (a b : string) : sliceFrom (a ++ b) (len a) = b.
Proof.
  unfold sliceFrom, slice. rewrite len_app. unfold len.
  replace (Z.of_nat (String.length a) + Z.of_nat (String.length b) -
           Z.of_nat (String.length a)) with (Z.of_nat (String.length b)) by lia.
  rewrite !Nat2Z.id, substring_skip. apply substring_full.
Qed.

Lemma sliceFrom_0 (s : string) : sliceFrom s 0 = s.
Proof. apply (sliceFrom_app "" s). Qed.

Lemma slice_middle (a b c : string) :
  slice (a ++ b ++ c) (len a) (len a + len b) = b.
Proof.
  unfold slice, len.
  replace (Z.of_nat (String.length a) + Z.of_nat (String.length b) -
           Z.of_nat (String.length a)) with (Z.of_nat (String.length b)) by lia.
  rewrite !Nat2Z.id, substring_skip. apply substring_prefix.
Qed.

Lemma byteIs_0_absent (s : string) (c : ascii) :
  count s c = O -> byteIs s 0 c = false.
Proof.
  destruct s as [|x r]; [reflexivity|].
  intros H. simpl in H. unfold byteIs, at_. simpl.
  destruct (Ascii.eqb x c); [discriminate H|reflexivity].
Qed.

Lemma byteIs_last (a : string) (c x : ascii) :
  byteIs (a ++ String c "") (len (a ++ String c "") - 1) x = Ascii.eqb c x.
Proof.
  rewrite len_app. change (len (String c "")) with 1.
  replace (len a + 1 - 1) with (len a) by lia.
  unfold byteIs, at_, len.
  assert ((Z.of_nat (String.length a) <? 0) = false) as -> by (apply Z.ltb_ge; lia).
  rewrite Nat2Z.id.
  induction a as [|y r IH]; [reflexivity|]. simpl. exact IH.
Qed.

(** ** [net.SplitHostPort] on well-formed addresses *)

(** A host without colon or bracket, a colon, a port without colon or
    bracket. *)
Lemma SplitHostPort_plain (h p : string) :
  count h ":" = O -> count h "[" = O -> count h "]" = O ->
  count p ":" = O -> count p "[" = O -> count p "]" = O ->
  net.SplitHostPort (h ++ ":" ++ p) = (h, p, None).
Proof.
  intros Hc Ho Hb Pc Po Pb. unfold net.SplitHostPort.
  assert (LastIndexByteString (h ++ ":" ++ p) ":" = len h) as ->
    by apply (LastIndexByteString_app_absent h p ":" Pc).
  pose proof (len_nonneg h) as L.
  assert ((len h <? 0) = false) as -> by (apply Z.ltb_ge; lia).
  assert (count (h ++ ":" ++ p) "[" = O) as Co
    by (rewrite !count_app; simpl; lia).
  assert (count (h ++ ":" ++ p) "]" = O) as Cb
    by (rewrite !count_app; simpl; lia).
  rewrite (byteIs_0_absent _ _ Co), slice_prefix, sliceFrom_0.
  apply IndexByteString_count in Hc. apply IndexByteString_count in Co.
  apply IndexByteString_count in Cb.
  assert ((0 <=? IndexByteString h ":") = false) as -> by (apply Z.leb_gt; lia).
  assert ((0 <=? IndexByteString (h ++ ":" ++ p) "[") = false) as ->
    by (apply Z.leb_gt; lia).
  assert ((0 <=? IndexByteString (h ++ ":" ++ p) "]") = false) as ->
    by (apply Z.leb_gt; lia).
  replace (len h + 1) with (len (h ++ ":"))
    by (rewrite len_app; reflexivity).
  replace (h ++ ":" ++ p) with ((h ++ ":") ++ p)
    by (rewrite append_assoc; reflexivity).
  rewrite sliceFrom_app. reflexivity.
Qed.

(** A host without bracket between brackets, a colon, a port without colon
    or bracket. *)
Lemma SplitHostPort_bracketed (h p : string) :
  count h "[" = O -> count h "]" = O ->
  count p ":" = O -> count p "[" = O -> count p "]" = O ->
  net.SplitHostPort ("[" ++ h ++ "]:" ++ p) = (h, p, None).
Proof.
  intros Ho Hb Pc Po Pb.
  change ("[" ++ h ++ "]:" ++ p) with (String "[" (h ++ String "]" (String ":" p))).
  set (s := String "[" (h ++ String "]" (String ":" p))).
  pose proof (len_nonneg h) as L. pose proof (len_nonneg p) as Lp.
  assert (s = ("[" ++ h ++ "]") ++ String ":" p) as E1
    by (subst s; simpl; rewrite append_assoc; reflexivity).
  assert (s = ("[" ++ h) ++ String "]" (String ":" p)) as E2
    by (subst s; reflexivity).
  assert (s = "[" ++ h ++ String "]" (String ":" p)) as E3
    by (subst s; reflexivity).
  assert (s = ("[" ++ h ++ "]:") ++ p) as E4
    by (subst s; simpl; rewrite append_assoc; reflexivity).
  assert (len ("[" ++ h ++ "]") = len h + 2) as L1
    by (change ("[" ++ h ++ "]") with (String "[" (h ++ "]"));
        rewrite len_cons, len_app; change (len "]") with 1; lia).
  assert (len ("[" ++ h) = len h + 1) as L2
    by (change ("[" ++ h) with (String "[" h); rewrite len_cons; lia).
  assert (len ("[" ++ h ++ "]:") = len h + 3) as L4
    by (change ("[" ++ h ++ "]:") with (String "[" (h ++ "]:"));
        rewrite len_cons, len_app; change (len "]:") with 2; lia).
  assert (len s = len h + len p + 3) as F4
    by (rewrite E4, len_app, L4; lia).
  assert (LastIndexByteString s ":" = len h + 2) as F1
    by (rewrite E1, (LastIndexByteString_app_absent _ p ":" Pc); exact L1).
  assert (byteIs s 0 "[" = true) as F2 by reflexivity.
  assert (IndexByteString s "]" = len h + 1) as F3.
  { rewrite E2, IndexByteString_app_absent by (simpl; exact Hb).
    rewrite L2. cbn [IndexByteString]. rewrite Ascii.eqb_refl.
    change (0 <? 0) with false. cbv iota. lia. }
  assert (sliceFrom s 1 = h ++ String "]" (String ":" p)) as F5
    by (rewrite E3; apply (sliceFrom_app "[")).
  assert (sliceFrom s (len h + 1 + 1) = String ":" p) as F6
    by (rewrite E1; replace (len h + 1 + 1) with (len ("[" ++ h ++ "]")) by lia;
        apply sliceFrom_app).
  assert (slice s 1 (len h + 1) = h) as F7.
  { rewrite E3. replace (len h + 1) with (len "[" + len h)
      by (change (len "[") with 1; lia).
    apply (slice_middle "[" h). }
  assert (sliceFrom s (len h + 2 + 1) = p) as F8
    by (rewrite E4; replace (len h + 2 + 1) with (len ("[" ++ h ++ "]:")) by lia;
        apply sliceFrom_app).
  assert (IndexByteString (h ++ String "]" (String ":" p)) "[" < 0) as I1
    by (apply IndexByteString_count; rewrite count_app; simpl; lia).
  assert (IndexByteString (String ":" p) "]" < 0) as I2
    by (apply IndexByteString_count; simpl; exact Pb).
  clearbody s. unfold net.SplitHostPort.
  rewrite F1, F2, F3, F4, F5, F6, F7, F8.
  assert ((len h + 2 <? 0) = false) as -> by (apply Z.ltb_ge; lia).
  assert ((len h + 1 <? 0) = false) as -> by (apply Z.ltb_ge; lia).
  assert ((len h + 1 + 1 =? len h + len p + 3) = false) as ->
    by (apply Z.eqb_neq; lia).
  assert ((len h + 1 + 1 =? len h + 2) = true) as -> by (apply Z.eqb_eq; lia).
  assert ((0 <=? IndexByteString (h ++ String "]" (String ":" p)) "[") = false) as ->
    by (apply Z.leb_gt; exact I1).
  assert ((0 <=? IndexByteString (String ":" p) "]") = false) as ->
    by (apply Z.leb_gt; exact I2).
  reflexivity.
Qed.

(** ** Addresses the parsers accept *)

Lemma parseIPv4Fields_chars (s : string) :
  forall prev val pos digLen fields f,
    net.parseIPv4Fields s prev val pos digLen fields = Some f ->
    allBytes isDottedByte s = true.
Proof.
  induction s as [|c r IH]; intros prev val pos digLen fields f;
    cbn [net.parseIPv4Fields allBytes]; [reflexivity|].
  unfold isDottedByte at 1.
  destruct (strconv.isDigit c).
  - destruct ((digLen =? 1) && (val =? 0)); [discriminate|].
    destruct (255 <? _); [discriminate|]. intros H. apply IH in H. exact H.
  - destruct (Ascii.eqb c "."); [|discriminate].
    destruct (_ || _ || _); [discriminate|].
    destruct (pos =? 3); [discriminate|]. intros H. apply IH in H. exact H.
Qed.

Lemma parseIP_scan_no_colon_v4 (rest whole : string) (ip : list Z) :
  count rest ":" = O ->
  net.parseIP_scan rest whole = Some ip ->
  exists f, net.parseIPv4 whole = Some f.
Proof.
  induction rest as [|c r IH]; cbn [net.parseIP_scan count]; [discriminate|].
  intros Hc. destruct (Ascii.eqb c ".").
  - destruct (net.parseIPv4 whole) as [f|]; [eauto|discriminate].
  - destruct (Ascii.eqb c ":"); [simpl in Hc; discriminate|].
    destruct (Ascii.eqb c "%"); [discriminate|]. apply IH. exact Hc.
Qed.

(** A host without a colon that [net.ParseIP] accepts is made of decimal
    digits and dots. *)
Lemma ParseIP_no_colon_chars (host : string) :
  ContainsRune host ":" = false ->
  net.ParseIP host <> [] ->
  allBytes isDottedByte host = true.
Proof.
  intros Hc Hp. apply ContainsRune_false_count in Hc.
  unfold net.ParseIP in Hp.
  destruct (net.parseIP_scan host host) as [ip|] eqn:E; [|contradiction].
  destruct (parseIP_scan_no_colon_v4 host host ip Hc E) as [f Hf].
  apply parseIPv4Fields_chars in Hf. exact Hf.
Qed.

Lemma digits_chars (s : string) :
  forall k m,
    strconv.digits s k = strconv.Value m -> allBytes strconv.isDigit s = true.
Proof.
  induction s as [|c r IH]; intros k m; cbn [strconv.digits allBytes];
    [reflexivity|].
  destruct (strconv.isDigit c); [|discriminate].
  destruct (strconv.cutoff <=? k); [discriminate|]. cbv zeta.
  destruct (strconv.maxUint64 <? _); [discriminate|]. apply IH.
Qed.

Lemma allBytes_weaken (p q : ascii -> bool) (s : string) :
  (forall c, p c = true -> q c = true) ->
  allBytes p s = true -> allBytes q s = true.
Proof.
  intros Hpq. induction s as [|c r IH]; [reflexivity|]. simpl.
  intros H. apply andb_true_iff in H as [Hc Hr].
  rewrite (Hpq c Hc), (IH Hr). reflexivity.
Qed.

(** A text [strconv.Atoi] converts is made of decimal digits and signs. *)
Lemma Atoi_ok_chars (s : string) (n : Z) :
  strconv.Atoi s = (n, None) -> allBytes isNumberByte s = true.
Proof.
  assert (forall t k m, strconv.digits t k = strconv.Value m ->
            allBytes isNumberByte t = true) as D.
  { intros t k m H. apply digits_chars in H.
    apply (allBytes_weaken strconv.isDigit); [|exact H].
    intros c Hc. unfold isNumberByte. rewrite Hc. reflexivity. }
  unfold strconv.Atoi. cbv zeta.
  destruct s as [|c0 r]; [discriminate|].
  destruct (Ascii.eqb c0 "-" || Ascii.eqb c0 "+") eqn:S.
  - destruct r as [|c1 r']; [discriminate|].
    destruct (strconv.digits (String c1 r') 0) eqn:E;
      [|discriminate|destruct (Ascii.eqb c0 "-"); discriminate].
    intros _. apply D in E.
    change (allBytes isNumberByte (String c0 (String c1 r')))
      with (isNumberByte c0 && allBytes isNumberByte (String c1 r')).
    rewrite E. unfold isNumberByte.
    apply orb_true_iff in S as [S|S]; rewrite S;
      rewrite ?orb_true_r; reflexivity.
  - destruct (strconv.digits (String c0 r) 0) eqn:E;
      [|discriminate|destruct (Ascii.eqb c0 "-"); discriminate].
    intros _. apply D in E. exact E.
Qed.

Lemma dotted_counts (s : string) :
  allBytes isDottedByte s = true ->
  count s ":" = O /\ count s "[" = O /\ count s "]" = O.
Proof.
  intros H. repeat split; apply (allBytes_count isDottedByte); auto.
Qed.

Lemma number_counts (s : string) :
  allBytes isNumberByte s = true ->
  count s ":" = O /\ count s "[" = O /\ count s "]" = O.
Proof.
  intros H. repeat split; apply (allBytes_count isNumberByte); auto.
Qed.

(** The second part of the parsers on a host that parses and a port in
    range. *)
Lemma parseIPAndPort_ok (hostStr portStr : string) (n : Z) :
  net.ParseIP hostStr <> [] ->
  strconv.Atoi (portText portStr) = (n, None) ->
  0 <= n <= 65535 ->
  parseIPAndPort hostStr portStr = (mkNameserver (net.ParseIP hostStr) n, None).
Proof.
  intros Hip Ha Hn. unfold parseIPAndPort. fold (portText portStr).
  destruct (net.ParseIP hostStr) as [|b ip]; [contradiction|].
  rewrite Ha.
  assert ((n <? 0) || (65535 <? n) = false) as ->.
  { apply orb_false_iff. split; apply Z.ltb_ge; lia. }
  unfold uint16. rewrite Z.mod_small by lia. reflexivity.
Qed.

Lemma portText_counts (portStr : string) (n : Z) :
  strconv.Atoi (portText portStr) = (n, None) ->
  count portStr ":" = O /\ count portStr "[" = O /\ count portStr "]" = O.
Proof.
  unfold portText. destruct (String.eqb_spec portStr "") as [->|N].
  - intros _. auto.
  - intros H. apply number_counts. apply (Atoi_ok_chars _ n H).
Qed.

Lemma ContainsRune_app_colon (h p : string) :
  ContainsRune (h ++ ":" ++ p) ":" = true.
Proof.
  apply ContainsRune_true_count. rewrite count_app. simpl. lia.
Qed.

(** X6. An address "host:port" parses to the host and the port: for every
    host without a colon that [net.ParseIP] accepts and every port text
    that [strconv.Atoi] converts to a number in [0, 65535] (the empty text
    counting as "53"), both revisions of the parser return the nameserver
    with that address and that number as port. *)
Theorem ParseNameserverAddr_host_port :
  forall (host portStr : string) (n : Z),
    ContainsRune host ":" = false ->
    net.ParseIP host <> [] ->
    strconv.Atoi (portText portStr) = (n, None) ->
    0 <= n <= 65535 ->
    ParseNameserverAddr (host ++ ":" ++ portStr) =
      (mkNameserver (net.ParseIP host) n, None) /\
    parseNameserverAddr (host ++ ":" ++ portStr) =
      (mkNameserver (net.ParseIP host) n, None).
Proof.
  intros host portStr n Hc Hip Ha Hn.
  destruct (dotted_counts host (ParseIP_no_colon_chars host Hc Hip)) as [H1 [H2 H3]].
  destruct (portText_counts portStr n Ha) as [P1 [P2 P3]].
  pose proof (SplitHostPort_plain host portStr H1 H2 H3 P1 P2 P3) as S.
  pose proof (ContainsRune_app_colon host portStr) as C.
  rewrite ParseNameserverAddr_parts, parseNameserverAddr_parts.
  unfold parseHostAndPort. rewrite C, S. cbn [negb].
  split; apply parseIPAndPort_ok; assumption.
Qed.

(** X6 at "203.0.113.1:0053". *)
Lemma ParseNameserverAddr_host_port_witness :
  ParseNameserverAddr ("203.0.113.1" ++ ":" ++ "0053") =
    (mkNameserver (net.ParseIP "203.0.113.1") 53, None).
Proof.
  apply (ParseNameserverAddr_host_port "203.0.113.1" "0053" 53);
    [reflexivity|discriminate|reflexivity|lia].
Defined.

(** X7. A bracketed address parses to what is between the brackets: for
    every host without a bracket that [net.ParseIP] accepts, "[host]:port"
    gives the nameserver with that address and the number of the port text
    (the empty text counting as "53"), and, when the host holds a colon,
    "[host]" gives port 53; in both revisions of the parser. *)
Theorem ParseNameserverAddr_bracketed :
  forall (host portStr : string) (n : Z),
    count host "[" = O -> count host "]" = O ->
    net.ParseIP host <> [] ->
    strconv.Atoi (portText portStr) = (n, None) ->
    0 <= n <= 65535 ->
    (ParseNameserverAddr ("[" ++ host ++ "]:" ++ portStr) =
       (mkNameserver (net.ParseIP host) n, None) /\
     parseNameserverAddr ("[" ++ host ++ "]:" ++ portStr) =
       (mkNameserver (net.ParseIP host) n, None)) /\
    (ContainsRune host ":" = true ->
     ParseNameserverAddr ("[" ++ host ++ "]") =
       (mkNameserver (net.ParseIP host) 53, None) /\
     parseNameserverAddr ("[" ++ host ++ "]") =
       (mkNameserver (net.ParseIP host) 53, None)).
Proof.
  intros host portStr n Ho Hb Hip Ha Hn. split.
  - destruct (portText_counts portStr n Ha) as [P1 [P2 P3]].
    pose proof (SplitHostPort_bracketed host portStr Ho Hb P1 P2 P3) as S.
    assert (ContainsRune ("[" ++ host ++ "]:" ++ portStr) ":" = true) as C.
    { apply ContainsRune_true_count.
      change ("[" ++ host ++ "]:" ++ portStr)
        with (String "[" (host ++ String "]" (String ":" portStr))).
      cbn [count]. rewrite count_app. simpl. lia. }
    rewrite ParseNameserverAddr_parts, parseNameserverAddr_parts.
    unfold parseHostAndPort. rewrite C, S. cbn [negb].
    split; apply parseIPAndPort_ok; assumption.
  - intros Hc.
    set (s := "[" ++ host ++ "]").
    assert (ContainsRune s ":" = true) as C.
    { apply ContainsRune_true_count. apply ContainsRune_true_count in Hc.
      subst s. change ("[" ++ host ++ "]") with (String "[" (host ++ "]")).
      cbn [count]. rewrite count_app. simpl. lia. }
    assert (exists why, net.SplitHostPort s = ("", "", Some (AddrError why s))) as [why S].
    { unfold net.SplitHostPort.
      assert (0 <= LastIndexByteString s ":") as Hi.
      { pose proof (LastIndexByteString_lower s ":").
        apply ContainsRune_true_count in C.
        destruct (Z.eq_dec (LastIndexByteString s ":") (-1)) as [E|E]; [|lia].
        assert (LastIndexByteString s ":" < 0) as F by lia.
        apply LastIndexByteString_count in F. lia. }
      apply Z.ltb_ge in Hi. rewrite Hi.
      assert (byteIs s 0 "[" = true) as -> by reflexivity.
      assert (IndexByteString s "]" = len host + 1) as ->.
      { subst s. change ("[" ++ host ++ "]") with (("[" ++ host) ++ "]").
        rewrite IndexByteString_app_absent by (simpl; exact Hb).
        change ("[" ++ host) with (String "[" host). rewrite len_cons.
        cbn [IndexByteString]. rewrite Ascii.eqb_refl.
        change (0 <? 0) with false. cbv iota. lia. }
      assert (len s = len host + 2) as ->.
      { subst s. change ("[" ++ host ++ "]") with (String "[" (host ++ "]")).
        rewrite len_cons, len_app. change (len "]") with 1. lia. }
      pose proof (len_nonneg host).
      assert ((len host + 1 <? 0) = false) as -> by (apply Z.ltb_ge; lia).
      assert ((len host + 1 + 1 =? len host + 2) = true) as ->
        by (apply Z.eqb_eq; lia).
      eexists. reflexivity. }
    assert (Contains s "]" = true) as B.
    { rewrite Contains_byte. apply ContainsRune_true_count.
      subst s. change ("[" ++ host ++ "]") with (String "[" (host ++ "]")).
      cbn [count]. rewrite count_app. simpl. lia. }
    assert (byteIs s 0 "[" = true) as B0 by reflexivity.
    assert (byteIs s (len s - 1) "]" = true) as B1.
    { subst s. change ("[" ++ host ++ "]") with (("[" ++ host) ++ String "]" "").
      rewrite byteIs_last. reflexivity. }
    assert (slice s 1 (len s - 1) = host) as Sl.
    { assert (len s - 1 = len "[" + len host) as ->.
      { subst s. change ("[" ++ host ++ "]") with (String "[" (host ++ "]")).
        rewrite len_cons, len_app. change (len "]") with 1.
        change (len "[") with 1. lia. }
      subst s. apply (slice_middle "[" host "]"). }
    rewrite ParseNameserverAddr_parts, parseNameserverAddr_parts.
    unfold parseHostAndPort. rewrite C, S, B, B0, B1, Sl. cbn [negb andb].
    split; apply parseIPAndPort_ok; try assumption; try reflexivity; lia.
Qed.

(** X7 at the host fd00::1 with the port text "5353". *)
Lemma ParseNameserverAddr_bracketed_witness :
  ParseNameserverAddr ("[" ++ "fd00::1" ++ "]:" ++ "5353") =
    (mkNameserver (net.ParseIP "fd00::1") 5353, None) /\
  ParseNameserverAddr ("[" ++ "fd00::1" ++ "]") =
    (mkNameserver (net.ParseIP "fd00::1") 53, None).
Proof.
  destruct (ParseNameserverAddr_bracketed "fd00::1" "5353" 5353)
    as [[H1 _] H2]; [reflexivity|reflexivity|discriminate|reflexivity|lia|].
  destruct (H2 eq_refl) as [H3 _]. split; assumption.
Defined.

(** ** The round trip of an IPv4 nameserver *)

Lemma formatBits_step (f : nat) (u : Z) (acc : string) :
  strconv.formatBits (S f) u acc =
    if u / 10 =? 0 then String (strconv.digitChar (u mod 10)) acc
    else strconv.formatBits f (u / 10) (String (strconv.digitChar (u mod 10)) acc).
Proof. reflexivity. Qed.

(** The numeral of a byte has one, two or three digits. *)
Lemma Itoa_byte (a : Z) :
  0 <= a <= 255 ->
  (a < 10 /\ strconv.Itoa a = String (strconv.digitChar a) "") \/
  (10 <= a < 100 /\
   strconv.Itoa a =
     String (strconv.digitChar (a / 10)) (String (strconv.digitChar (a mod 10)) "")) \/
  (100 <= a /\
   strconv.Itoa a =
     String (strconv.digitChar (a / 100))
       (String (strconv.digitChar ((a / 10) mod 10))
          (String (strconv.digitChar (a mod 10)) ""))).
Proof.
  intros H. unfold strconv.Itoa.
  assert ((a <? 0) = false) as -> by (apply Z.ltb_ge; lia).
  change 20%nat with (S (S (S 17))). rewrite formatBits_step.
  destruct (Z.eqb_spec (a / 10) 0) as [E|N].
  - left. assert (a < 10) as L
      by (destruct (Z_lt_ge_dec a 10) as [L|G]; [exact L|];
          assert (1 <= a / 10) by (apply Z.div_le_lower_bound; lia); lia).
    split; [exact L|]. rewrite Z.mod_small by lia. reflexivity.
  - assert (10 <= a) as G
      by (destruct (Z_lt_ge_dec a 10) as [L|G]; [|lia];
          rewrite Z.div_small in N by lia; contradiction).
    rewrite formatBits_step. rewrite Z.div_div by lia. change (10 * 10) with 100.
    destruct (Z.eqb_spec (a / 100) 0) as [E2|N2].
    + right. left.
      assert (a < 100) as L
        by (destruct (Z_lt_ge_dec a 100) as [L|G2]; [exact L|];
            assert (1 <= a / 100) by (apply Z.div_le_lower_bound; lia); lia).
      split; [lia|].
      assert (a / 10 < 10) by (apply Z.div_lt_upper_bound; lia).
      assert (0 <= a / 10) by (apply Z.div_pos; lia).
      rewrite (Z.mod_small (a / 10)) by lia. reflexivity.
    + right. right.
      assert (100 <= a) as G2
        by (destruct (Z_lt_ge_dec a 100) as [L|G2]; [|lia];
            rewrite Z.div_small in N2 by lia; contradiction).
      split; [exact G2|].
      rewrite formatBits_step. rewrite Z.div_div by lia. change (100 * 10) with 1000.
      assert (a / 1000 = 0) as -> by (apply Z.div_small; lia).
      change (0 =? 0) with true. cbv iota.
      assert (0 <= a / 100 < 10)
        by (split; [apply Z.div_pos; lia|apply Z.div_lt_upper_bound; lia]).
      rewrite (Z.mod_small (a / 100)) by lia. reflexivity.
Qed.

Lemma parseIPv4Fields_digit (c : ascii) (r : string) (prev : option ascii)
    (val pos digLen : Z) (fields : list Z) :
  strconv.isDigit c = true ->
  (digLen =? 1) && (val =? 0) = false ->
  val * 10 + strconv.digitVal c <= 255 ->
  net.parseIPv4Fields (String c r) prev val pos digLen fields =
    net.parseIPv4Fields r (Some c) (val * 10 + strconv.digitVal c) pos
      (digLen + 1) fields.
Proof.
  intros Hd Hz Hv. cbn [net.parseIPv4Fields]. rewrite Hd, Hz.
  assert ((255 <? val * 10 + strconv.digitVal c) = false) as ->
    by (apply Z.ltb_ge; lia).
  reflexivity.
Qed.

(** Reading the numeral of a byte leaves the byte as the value and a digit
    as the last byte read. *)
Lemma parseIPv4Fields_octet (a : Z) (r : string) (prev : option ascii)
    (pos : Z) (fields : list Z) :
  0 <= a <= 255 ->
  exists c k,
    strconv.isDigit c = true /\
    net.parseIPv4Fields (strconv.Itoa a ++ r) prev 0 pos 0 fields =
      net.parseIPv4Fields r (Some c) a pos k fields.
Proof.
  intros H.
  assert (forall d, 0 <= d < 10 ->
            strconv.isDigit (strconv.digitChar d) = true /\
            strconv.digitVal (strconv.digitChar d) = d) as D
    by (intros d Hd; apply digitChar_isDigit; exact Hd).
  pose proof (Z.mod_pos_bound a 10 ltac:(lia)) as M.
  pose proof (Z.div_mod a 10 ltac:(lia)) as DM.
  destruct (Itoa_byte a H) as [[L ->]|[[[G L] ->]|[G ->]]].
  - destruct (D a ltac:(lia)) as [D1 D2].
    exists (strconv.digitChar a), 1. split; [exact D1|].
    cbn [append].
    rewrite (parseIPv4Fields_digit _ _ _ 0 _ 0 _ D1 eq_refl) by (rewrite D2; lia).
    rewrite D2. replace (0 * 10 + a) with a by lia. reflexivity.
  - assert (1 <= a / 10 < 10) as X
      by (split; [apply Z.div_le_lower_bound; lia|apply Z.div_lt_upper_bound; lia]).
    destruct (D (a / 10) ltac:(lia)) as [D1 D2].
    destruct (D (a mod 10) M) as [E1 E2].
    exists (strconv.digitChar (a mod 10)), 2. split; [exact E1|].
    cbn [append].
    rewrite (parseIPv4Fields_digit _ _ _ 0 _ 0 _ D1 eq_refl) by (rewrite D2; lia).
    rewrite D2.
    assert ((0 + 1 =? 1) && (0 * 10 + a / 10 =? 0) = false) as Hz
      by (apply andb_false_iff; right; apply Z.eqb_neq; lia).
    rewrite (parseIPv4Fields_digit _ _ _ _ _ _ _ E1 Hz) by (rewrite E2; lia).
    rewrite E2. replace ((0 * 10 + a / 10) * 10 + a mod 10) with a by lia.
    reflexivity.
  - pose proof (Z.div_mod (a / 10) 10 ltac:(lia)) as DM2.
    rewrite Z.div_div in DM2 by lia. change (10 * 10) with 100 in DM2.
    pose proof (Z.mod_pos_bound (a / 10) 10 ltac:(lia)) as M2.
    assert (1 <= a / 100 < 10) as X
      by (split; [apply Z.div_le_lower_bound; lia|apply Z.div_lt_upper_bound; lia]).
    destruct (D (a / 100) ltac:(lia)) as [D1 D2].
    destruct (D ((a / 10) mod 10) M2) as [E1 E2].
    destruct (D (a mod 10) M) as [F1 F2].
    exists (strconv.digitChar (a mod 10)), 3. split; [exact F1|].
    cbn [append].
    rewrite (parseIPv4Fields_digit _ _ _ 0 _ 0 _ D1 eq_refl) by (rewrite D2; lia).
    rewrite D2.
    assert ((0 + 1 =? 1) && (0 * 10 + a / 100 =? 0) = false) as Hz
      by (apply andb_false_iff; right; apply Z.eqb_neq; lia).
    rewrite (parseIPv4Fields_digit _ _ _ _ _ _ _ E1 Hz) by (rewrite E2; lia).
    rewrite E2.
    assert ((0 + 1 + 1 =? 1) && ((0 * 10 + a / 100) * 10 + (a / 10) mod 10 =? 0) = false)
      as Hz2 by reflexivity.
    rewrite (parseIPv4Fields_digit _ _ _ _ _ _ _ F1 Hz2) by (rewrite F2; lia).
    rewrite F2.
    replace (((0 * 10 + a / 100) * 10 + (a / 10) mod 10) * 10 + a mod 10) with a by lia.
    reflexivity.
Qed.

Lemma isDigit_not_dot (c : ascii) :
  strconv.isDigit c = true -> Ascii.eqb c "." = false.
Proof.
  intros H. destruct (Ascii.eqb_spec c ".") as [->|N]; [discriminate H|reflexivity].
Qed.

Lemma Itoa_nonempty (n : Z) :
  0 <= n -> exists c r, strconv.Itoa n = String c r /\ strconv.isDigit c = true.
Proof.
  intros H. unfold strconv.Itoa.
  assert ((n <? 0) = false) as -> by (apply Z.ltb_ge; lia).
  apply formatBits_head. right. lia.
Qed.

Lemma formatBits_allDigits (fuel : nat) :
  forall u acc,
    allBytes strconv.isDigit acc = true ->
    allBytes strconv.isDigit (strconv.formatBits fuel u acc) = true.
Proof.
  induction fuel as [|f IH]; intros u acc H; [exact H|].
  pose proof (Z.mod_pos_bound u 10 ltac:(lia)) as Hd.
  destruct (digitChar_isDigit _ Hd) as [D _].
  assert (allBytes strconv.isDigit (String (strconv.digitChar (u mod 10)) acc) = true)
    as H' by (simpl; rewrite D, H; reflexivity).
  rewrite formatBits_step. destruct (u / 10 =? 0); [exact H'|]. apply IH. exact H'.
Qed.

Lemma Itoa_allDigits (n : Z) :
  0 <= n -> allBytes strconv.isDigit (strconv.Itoa n) = true.
Proof.
  intros H. unfold strconv.Itoa.
  assert ((n <? 0) = false) as -> by (apply Z.ltb_ge; lia).
  apply formatBits_allDigits. reflexivity.
Qed.

(** The numeral of a byte, a dot and more text: the byte is stored and the
    reading goes on after the dot. *)
Lemma parseIPv4Fields_octet_dot (a : Z) (r : string) (prev : option ascii)
    (pos : Z) (fields : list Z) :
  0 <= a <= 255 -> pos <> 3 -> r <> "" ->
  net.parseIPv4Fields (strconv.Itoa a ++ String "." r) prev 0 pos 0 fields =
    net.parseIPv4Fields r (Some "."%char) 0 (pos + 1) 0 (net.store fields pos a).
Proof.
  intros H Hp Hr.
  destruct (parseIPv4Fields_octet a (String "." r) prev pos fields H)
    as [c [k [Hc ->]]].
  cbn [net.parseIPv4Fields].
  change (strconv.isDigit ".") with false. cbv iota.
  rewrite Ascii.eqb_refl, (isDigit_not_dot c Hc).
  destruct r as [|x r']; [contradiction|]. cbn [orb].
  assert ((pos =? 3) = false) as -> by (apply Z.eqb_neq; exact Hp).
  reflexivity.
Qed.

Lemma parseIPv4Fields_octet_end (a : Z) (prev : option ascii) (fields : list Z) :
  0 <= a <= 255 ->
  net.parseIPv4Fields (strconv.Itoa a) prev 0 3 0 fields =
    Some (net.store fields 3 a).
Proof.
  intros H.
  destruct (parseIPv4Fields_octet a "" prev 3 fields H) as [c [k [Hc E]]].
  assert (forall s : string, s ++ "" = s) as N
    by (induction s as [|x r IH]; simpl; [reflexivity|rewrite IH; reflexivity]).
  rewrite N in E. rewrite E. reflexivity.
Qed.

(** Parsing the dotted text of four bytes gives the four bytes. *)
Lemma parseIPv4_string4 (a b c d : Z) :
  isByte a -> isByte b -> isByte c -> isByte d ->
  net.parseIPv4 (net.string4 [a; b; c; d]) = Some [a; b; c; d].
Proof.
  unfold isByte. intros Ha Hb Hc Hd.
  unfold net.parseIPv4, net.string4.
  change (net.load [a; b; c; d] 0) with a.
  change (net.load [a; b; c; d] 1) with b.
  change (net.load [a; b; c; d] 2) with c.
  change (net.load [a; b; c; d] 3) with d.
  destruct (Itoa_nonempty b ltac:(lia)) as [cb [rb [Eb _]]].
  destruct (Itoa_nonempty c ltac:(lia)) as [cc [rc [Ec _]]].
  destruct (Itoa_nonempty d ltac:(lia)) as [cd [rd [Ed _]]].
  change (strconv.Itoa a ++ "." ++ strconv.Itoa b ++ "." ++ strconv.Itoa c ++ "." ++
          strconv.Itoa d)
    with (strconv.Itoa a ++
          String "." (strconv.Itoa b ++
                      String "." (strconv.Itoa c ++ String "." (strconv.Itoa d)))).
  rewrite parseIPv4Fields_octet_dot;
    [|lia|lia|rewrite Eb; discriminate].
  rewrite parseIPv4Fields_octet_dot;
    [|lia|lia|rewrite Ec; discriminate].
  rewrite parseIPv4Fields_octet_dot;
    [|lia|lia|rewrite Ed; discriminate].
  change (0 + 1 + 1 + 1) with 3.
  rewrite parseIPv4Fields_octet_end by lia. reflexivity.
Qed.

Lemma parseIP_scan_digits (ds r whole : string) :
  allBytes strconv.isDigit ds = true ->
  net.parseIP_scan (ds ++ String "." r) whole =
    option_map net.v4InV6 (net.parseIPv4 whole).
Proof.
  induction ds as [|c t IH]; intros H; [reflexivity|].
  simpl in H. apply andb_true_iff in H as [Hc Ht].
  simpl append. cbn [net.parseIP_scan].
  rewrite (isDigit_not_dot c Hc).
  assert (Ascii.eqb c ":" = false) as ->
    by (destruct (Ascii.eqb_spec c ":") as [->|N]; [discriminate Hc|reflexivity]).
  assert (Ascii.eqb c "%" = false) as ->
    by (destruct (Ascii.eqb_spec c "%") as [->|N]; [discriminate Hc|reflexivity]).
  apply IH. exact Ht.
Qed.

(** [net.ParseIP] reads the dotted text of four bytes back as their
    sixteen-byte form. *)
Lemma ParseIP_string4 (a b c d : Z) :
  isByte a -> isByte b -> isByte c -> isByte d ->
  net.ParseIP (net.string4 [a; b; c; d]) = net.v4InV6 [a; b; c; d].
Proof.
  intros Ha Hb Hc Hd. unfold net.ParseIP.
  assert (net.parseIP_scan (net.string4 [a; b; c; d]) (net.string4 [a; b; c; d]) =
          option_map net.v4InV6 (net.parseIPv4 (net.string4 [a; b; c; d]))) as ->.
  { unfold net.string4 at 1.
    change (net.load [a; b; c; d] 0) with a.
    apply (parseIP_scan_digits (strconv.Itoa a)).
    apply Itoa_allDigits. unfold isByte in Ha. lia. }
  rewrite (parseIPv4_string4 a b c d Ha Hb Hc Hd). reflexivity.
Qed.

Lemma string4_dotted (a b c d : Z) :
  isByte a -> isByte b -> isByte c -> isByte d ->
  allBytes isDottedByte (net.string4 [a; b; c; d]) = true.
Proof.
  unfold isByte. intros Ha Hb Hc Hd.
  assert (forall n, 0 <= n -> allBytes isDottedByte (strconv.Itoa n) = true) as D.
  { intros n Hn. apply (allBytes_weaken strconv.isDigit); [|apply Itoa_allDigits; exact Hn].
    intros x Hx. unfold isDottedByte. rewrite Hx. reflexivity. }
  unfold net.string4.
  change (net.load [a; b; c; d] 0) with a.
  change (net.load [a; b; c; d] 1) with b.
  change (net.load [a; b; c; d] 2) with c.
  change (net.load [a; b; c; d] 3) with d.
  rewrite !allBytes_app, !D by lia. reflexivity.
Qed.

Lemma IPString_v4InV6 (a b c d : Z) :
  net.IPString (net.v4InV6 [a; b; c; d]) = net.string4 [a; b; c; d].
Proof. reflexivity. Qed.

(** A sixteen-byte address in IPv4 form is the IPv4-mapped form of its last
    four bytes. *)
Lemma IPv4_mapped_form (ip : net.IP) :
  List.length ip = 16%nat -> isIPv4 ip ->
  exists a b c d, ip = net.v4InV6 [a; b; c; d].
Proof.
  intros L H.
  destruct ip as [|x0 [|x1 [|x2 [|x3 [|x4 [|x5 [|x6 [|x7 [|x8 [|x9 [|x10 [|x11
                 [|x12 [|x13 [|x14 [|x15 [|y ip]]]]]]]]]]]]]]]]];
    try discriminate L.
  assert (net.To4 [x0; x1; x2; x3; x4; x5; x6; x7; x8; x9; x10; x11; x12; x13; x14; x15] =
          if forallb (Z.eqb 0) [x0; x1; x2; x3; x4; x5; x6; x7; x8; x9] &&
             (x10 =? 255) && (x11 =? 255)
          then [x12; x13; x14; x15] else []) as E by reflexivity.
  unfold isIPv4 in H. rewrite E in H.
  destruct (forallb (Z.eqb 0) [x0; x1; x2; x3; x4; x5; x6; x7; x8; x9] &&
            (x10 =? 255) && (x11 =? 255)) eqn:B; [|contradiction].
  apply andb_true_iff in B as [B B11]. apply andb_true_iff in B as [B B10].
  cbn [forallb] in B.
  repeat (apply andb_true_iff in B; destruct B as [? B]).
  repeat match goal with
         | Q : (_ =? _) = true |- _ => apply Z.eqb_eq in Q
         end.
  subst. exists x12, x13, x14, x15. reflexivity.
Qed.

(** "host:port" for a dotted host and a port in range, as in X6. *)
Lemma host_port_parses (host portStr : string) (n : Z) :
  allBytes isDottedByte host = true ->
  net.ParseIP host <> [] ->
  strconv.Atoi (portText portStr) = (n, None) ->
  0 <= n <= 65535 ->
  ParseNameserverAddr (host ++ ":" ++ portStr) =
    (mkNameserver (net.ParseIP host) n, None) /\
  parseNameserverAddr (host ++ ":" ++ portStr) =
    (mkNameserver (net.ParseIP host) n, None).
Proof.
  intros Hd Hip Ha Hn.
  destruct (dotted_counts host Hd) as [H1 [H2 H3]].
  destruct (portText_counts portStr n Ha) as [P1 [P2 P3]].
  pose proof (SplitHostPort_plain host portStr H1 H2 H3 P1 P2 P3) as S.
  pose proof (ContainsRune_app_colon host portStr) as C.
  rewrite ParseNameserverAddr_parts, parseNameserverAddr_parts.
  unfold parseHostAndPort. rewrite C, S. cbn [negb].
  split; apply parseIPAndPort_ok; assumption.
Qed.

(** X8. The text [Addr] gives for an IPv4 nameserver parses back to the
    same nameserver: for every well-formed nameserver whose address has
    sixteen bytes and is in IPv4 form (as every IPv4 nameserver the parser
    returns), both revisions of the parser applied to [Addr] return it
    unchanged, with no error. *)
Theorem Addr_parses_back_IPv4 :
  forall ns : Nameserver,
    List.length (IP ns) = 16%nat ->
    wfNameserver ns ->
    isIPv4 (IP ns) ->
    ParseNameserverAddr (Addr ns) = (ns, None) /\
    parseNameserverAddr (Addr ns) = (ns, None).
Proof.
  intros [ip port] L [F P] V. cbn [IP Port] in *.
  destruct (IPv4_mapped_form ip L V) as [a [b [c [d ->]]]].
  assert (isByte a /\ isByte b /\ isByte c /\ isByte d) as [Ha [Hb [Hc Hd]]].
  { unfold net.v4InV6 in F. apply Forall_app in F as [_ F].
    apply Forall_app in F as [_ F].
    inversion F as [|? ? A F1]; subst. inversion F1 as [|? ? B F2]; subst.
    inversion F2 as [|? ? C F3]; subst. inversion F3 as [|? ? D F4]; subst. auto. }
  unfold Addr. cbn [IP Port]. rewrite IPString_v4InV6.
  pose proof (ParseIP_string4 a b c d Ha Hb Hc Hd) as E.
  destruct (Itoa_nonempty port ltac:(lia)) as [c0 [r0 [Ep _]]].
  assert (strconv.Atoi (portText (strconv.Itoa port)) = (port, None)) as A.
  { unfold portText. rewrite Ep. cbn [String.eqb]. rewrite <- Ep.
    apply Atoi_Itoa.
    assert (strconv.maxInt = 9223372036854775807) as Hmax by reflexivity. lia. }
  destruct (host_port_parses (net.string4 [a; b; c; d]) (strconv.Itoa port) port)
    as [R1 R2].
  - apply string4_dotted; assumption.
  - rewrite E. discriminate.
  - exact A.
  - lia.
  - rewrite E in R1, R2. split; assumption.
Qed.

(** X8 on 203.0.113.1, port 5353. *)
Lemma Addr_parses_back_IPv4_witness :
  ParseNameserverAddr (Addr (mkNameserver (net.ParseIP "203.0.113.1") 5353)) =
    (mkNameserver (net.ParseIP "203.0.113.1") 5353, None).
Proof.
  destruct (Addr_parses_back_IPv4 (mkNameserver (net.ParseIP "203.0.113.1") 5353))
    as [H _].
  - reflexivity.
  - split; [|simpl; lia]. vm_compute. repeat constructor; discriminate.
  - unfold isIPv4. vm_compute. discriminate.
  - exact H.
Defined.

(** ** The parser of module.go and its successor *)

(** X9. The parser of module.go agrees with its successor wherever the
    successor accepts an address that has no colon or that
    [net.SplitHostPort] splits with a port that is not empty: it returns
    the same nameserver and no error. (On an empty port and on a bare
    "[host]" the successor alone succeeds.) *)
Theorem ParseNameserver_agrees_with_successor :
  forall (addr : string) (ns : Nameserver),
    ParseNameserverAddr addr = (ns, None) ->
    (ContainsRune addr ":" = false \/
     exists h p, net.SplitHostPort addr = (h, p, None) /\ p <> "") ->
    ParseNameserver (mkResolveOptions addr) = (ns, None).
Proof.
  intros addr [ip port] H C. rewrite ParseNameserverAddr_parts in H.
  unfold ParseNameserver. cbn [nameserver].
  destruct C as [C|[h [p [S Hp]]]].
  - rewrite C in *. cbn [negb] in H.
    apply parseIPAndPort_success in H as [H1 [_ [H3 H4]]].
    cbn [IP Port String.eqb] in *. subst ip.
    change (strconv.Atoi "53") with (53, @None error) in *.
    inversion H4. subst port. reflexivity.
  - assert (ContainsRune addr ":" = true) as C.
    { destruct (ContainsRune addr ":") eqn:E; [reflexivity|].
      unfold net.SplitHostPort in S.
      unfold ContainsRune in E. apply Z.leb_gt in E.
      apply IndexByteString_count in E. apply LastIndexByteString_count in E.
      apply Z.ltb_lt in E. rewrite E in S. discriminate S. }
    rewrite C, S in *. cbn [negb] in H.
    apply parseIPAndPort_success in H as [H1 [_ [H3 H4]]].
    cbn [IP Port] in *. subst ip.
    destruct (String.eqb_spec p "") as [E|_]; [contradiction|].
    rewrite H4. unfold NewNameserver, uint16.
    rewrite Z.mod_small by lia. reflexivity.
Qed.

(** X9 at "203.0.113.1:5353". *)
Lemma ParseNameserver_agrees_with_successor_witness :
  ParseNameserver (mkResolveOptions "203.0.113.1:5353") =
    (mkNameserver (net.ParseIP "203.0.113.1") 5353, None).
Proof.
  apply (ParseNameserver_agrees_with_successor "203.0.113.1:5353").
  - vm_compute. reflexivity.
  - right. exists "203.0.113.1", "5353". split; [vm_compute; reflexivity|discriminate].
Defined.

(** ** The text of an IPv6 nameserver does not parse back *)

Lemma print6_colon (ip : list Z) (zs ze : Z) :
  (1 <= count (net.print6 8 ip 0 zs ze) ":")%nat.
Proof.
  change 8%nat with (S (S 6)). cbn [net.print6].
  change (negb (0 <? 8)) with false. cbv iota.
  destruct (0 =? zs).
  - rewrite count_app. simpl. lia.
  - change (0 <? 0) with false. cbv iota.
    rewrite !count_app.
    change (negb (0 + 1 <? 8)) with false. cbv iota.
    destruct (0 + 1 =? zs).
    + rewrite count_app. simpl. lia.
    + change (0 <? 0 + 1) with true. cbv iota. rewrite !count_app. simpl. lia.
Qed.

Lemma IPString_IPv6 (ip : net.IP) :
  List.length ip = 16%nat -> ~ isIPv4 ip -> net.IPString ip = net.string6 ip.
Proof.
  intros L H. unfold net.IPString. rewrite L.
  change (Z.of_nat 16 =? 0) with false.
  change (negb (Z.of_nat 16 =? 4) && negb (Z.of_nat 16 =? 16)) with false.
  cbv iota.
  destruct (net.To4 ip) as [|b t] eqn:E; [reflexivity|].
  exfalso. apply H. unfold isIPv4. rewrite E. discriminate.
Qed.

(** X10. The text [Addr] gives for an IPv6 nameserver does not parse back:
    for every nameserver whose address has sixteen bytes and is not in IPv4
    form, both revisions of the parser refuse [Addr] with the
    invalid-address-format error, because the text holds two colons or
    more and no bracket. *)
Theorem Addr_does_not_parse_back_IPv6 :
  forall ns : Nameserver,
    List.length (IP ns) = 16%nat ->
    Forall isByte (IP ns) ->
    ~ isIPv4 (IP ns) ->
    (2 <= count (Addr ns) ":")%nat /\
    invalidAddressFormat (ParseNameserverAddr (Addr ns)) /\
    invalidAddressFormat (parseNameserverAddr (Addr ns)).
Proof.
  intros ns L F V.
  assert (2 <= count (Addr ns) ":")%nat as C2.
  { unfold Addr. rewrite (IPString_IPv6 _ L V). unfold net.string6.
    destruct (net.longestZeroRun 8 (IP ns) 0 255 255) as [zs ze].
    pose proof (print6_colon (IP ns) zs ze).
    rewrite count_app.
    change (":" ++ strconv.Itoa (Port ns)) with (String ":" (strconv.Itoa (Port ns))).
    cbn [count]. rewrite Ascii.eqb_refl. lia. }
  split; [exact C2|].
  destruct (Addr_notBracket ns F) as [_ B].
  apply ContainsRune_false_count in B.
  destruct (SplitHostPort_bare_IPv6 (Addr ns) C2 B) as [why S].
  assert (ContainsRune (Addr ns) ":" = true) as Hc
    by (apply ContainsRune_true_count; lia).
  assert (Contains (Addr ns) "]" = false) as Hb
    by (rewrite Contains_byte; apply ContainsRune_false_count; exact B).
  unfold invalidAddressFormat.
  rewrite ParseNameserverAddr_parts, parseNameserverAddr_parts.
  unfold parseHostAndPort. rewrite Hc, S, Hb. cbn [negb andb].
  split; eexists; reflexivity.
Qed.

(** X10 on fd00::1, port 53. *)
Lemma Addr_does_not_parse_back_IPv6_witness :
  invalidAddressFormat
    (ParseNameserverAddr (Addr (mkNameserver (net.ParseIP "fd00::1") 53))).
Proof.
  destruct (Addr_does_not_parse_back_IPv6 (mkNameserver (net.ParseIP "fd00::1") 53))
    as [_ [H _]].
  - reflexivity.
  - vm_compute. repeat constructor; discriminate.
  - unfold isIPv4. intros H. apply H. vm_compute. reflexivity.
  - exact H.
Defined.

(** ** The nameservers of the system *)


Lemma splitFrom_newline (a b cur : string) :
  strings.splitFrom (a ++ newline ++ b) cur
  = (strings.splitFrom a cur ++ strings.splitFrom b "")%list.
Proof.
  revert cur. induction a as [|c a IH]; intros cur.
  - reflexivity.
  - change ((String c a ++ newline ++ b)%string)
      with (String c (a ++ newline ++ b)).
    cbn [strings.splitFrom].
    destruct (strings.code c =? 10).
    + rewrite IH. reflexivity.
    + apply IH.
Qed.

Lemma splitFrom_one_line (s cur : string) :
  allBytes notNewline s = true ->
  strings.splitFrom s cur = [cur ++ s].
Proof.
  revert cur. induction s as [|c s IH]; intros cur H.
  - cbn. f_equal. induction cur as [|d cur IHc]; [reflexivity|].
    cbn. f_equal. exact IHc.
  - cbn [allBytes] in H. apply andb_true_iff in H. destruct H as [Hc Hs].
    cbn [strings.splitFrom]. unfold notNewline in Hc.
    destruct (strings.code c =? 10); [discriminate|].
    rewrite (IH _ Hs). f_equal. rewrite append_assoc. reflexivity.
Qed.

Lemma systemNameservers_lines_acc (lines : list string) (acc : list string) :
  systemNameservers_lines lines acc
  = (acc ++ systemNameservers_lines lines [])%list.
Proof.
  revert acc. induction lines as [|l lines IH]; intros acc.
  - cbn. rewrite app_nil_r. reflexivity.
  - cbn [systemNameservers_lines].
    destruct (strings.HasPrefix l "nameserver"); [|apply IH].
    cbv zeta.
    destruct (1 <? Z.of_nat (List.length (strings.Fields l))); [|apply IH].
    rewrite IH. rewrite (IH ([] ++ _)%list). rewrite <- app_assoc.
    reflexivity.
Qed.

Lemma systemNameservers_lines_app (l1 l2 : list string) (acc : list string) :
  systemNameservers_lines (l1 ++ l2) acc
  = systemNameservers_lines l2 (systemNameservers_lines l1 acc).
Proof.
  revert acc. induction l1 as [|l l1 IH]; intros acc.
  - reflexivity.
  - cbn [systemNameservers_lines app].
    destruct (strings.HasPrefix l "nameserver"); [|apply IH].
    cbv zeta.
    destruct (1 <? Z.of_nat (List.length (strings.Fields l))); apply IH.
Qed.

(** X11. The lines of the file are read independently and in order: the
    servers of two contents joined by a line feed are the servers of the
    first followed by the servers of the second. *)
Theorem systemNameservers_joins_contents (c1 c2 : string) :
  serversIn (c1 ++ newline ++ c2) = (serversIn c1 ++ serversIn c2)%list.
Proof.
  unfold serversIn, systemNameservers. cbn [fst].
  unfold strings.SplitLines. rewrite splitFrom_newline.
  rewrite systemNameservers_lines_app.
  apply systemNameservers_lines_acc.
Qed.


Lemma closeField_good (cur : string) :
  allBytes notAsciiSpace cur = true ->
  Forall (fun f => f <> "" /\ allBytes notAsciiSpace f = true)
    (strings.closeField cur).
Proof.
  intros H. destruct cur as [|c cur]; cbn [strings.closeField].
  - constructor.
  - constructor; [|constructor]. split; [discriminate|exact H].
Qed.

Lemma spaceWidth_0_notAsciiSpace (c : ascii) (r : string) :
  strings.spaceWidth (String c r) = 0%nat -> notAsciiSpace c = true.
Proof.
  unfold strings.spaceWidth, notAsciiSpace.
  destruct (strings.asciiSpace c); [discriminate|reflexivity].
Qed.

Lemma fieldsFrom_good (s : string) :
  forall (skip : nat) (cur : string),
    allBytes notAsciiSpace cur = true ->
    Forall (fun f => f <> "" /\ allBytes notAsciiSpace f = true)
      (strings.fieldsFrom s skip cur).
Proof.
  induction s as [|c s IH]; intros skip cur H.
  - apply closeField_good. exact H.
  - cbn [strings.fieldsFrom]. destruct skip as [|k].
    + destruct (strings.spaceWidth (String c s)) as [|w] eqn:E.
      * apply IH. rewrite allBytes_app, H.
        cbn [allBytes andb]. rewrite (spaceWidth_0_notAsciiSpace _ _ E).
        reflexivity.
      * apply Forall_app. split; [apply closeField_good; exact H|].
        apply IH. reflexivity.
    + apply IH. exact H.
Qed.

Lemma systemNameservers_lines_sound (lines : list string) :
  forall (acc : list string) (s : string),
    In s (systemNameservers_lines lines acc) ->
    In s acc \/
    exists line, In line lines /\
      strings.HasPrefix line "nameserver" = true /\
      nth_error (strings.Fields line) 1 = Some s.
Proof.
  induction lines as [|l lines IH]; intros acc s H.
  - left. exact H.
  - cbn [systemNameservers_lines] in H.
    assert (Hrest : forall acc', In s (systemNameservers_lines lines acc') ->
              (In s acc' -> In s acc \/
                 exists line, In line (l :: lines) /\
                   strings.HasPrefix line "nameserver" = true /\
                   nth_error (strings.Fields line) 1 = Some s) ->
              In s acc \/
              exists line, In line (l :: lines) /\
                strings.HasPrefix line "nameserver" = true /\
                nth_error (strings.Fields line) 1 = Some s).
    { intros acc' H' Hacc. destruct (IH _ _ H') as [Hin|[line [Hl Hr]]].
      - apply Hacc. exact Hin.
      - right. exists line. split; [right; exact Hl|exact Hr]. }
    destruct (strings.HasPrefix l "nameserver") eqn:Hp.
    + cbv zeta in H.
      destruct (strings.Fields l) as [|f0 [|f1 fs]] eqn:Hf;
        cbn [List.length nth] in H.
      * apply (Hrest _ H). intros Hin. left. exact Hin.
      * apply (Hrest _ H). intros Hin. left. exact Hin.
      * replace (1 <? Z.of_nat (S (S (List.length fs)))) with true in H
          by (symmetry; apply Z.ltb_lt; lia).
        apply (Hrest _ H). intros Hin. apply in_app_or in Hin.
        destruct Hin as [Hin|[Heq|[]]]; [left; exact Hin|].
        right. exists l. split; [left; reflexivity|].
        split; [exact Hp|]. rewrite Hf. cbn. f_equal. exact Heq.
    + apply (Hrest _ H). intros Hin. left. exact Hin.
Qed.

(** X12. Every server [systemNameservers] returns is the second field of a
    line of the file that begins with the text nameserver; it is not empty
    and holds no ASCII white space. *)
Theorem systemNameservers_sound (content s : string) :
  In s (serversIn content) ->
  (exists line, In line (strings.SplitLines content) /\
     strings.HasPrefix line "nameserver" = true /\
     nth_error (strings.Fields line) 1 = Some s) /\
  s <> "" /\ allBytes notAsciiSpace s = true.
Proof.
  unfold serversIn, systemNameservers. cbn [fst]. intros H.
  destruct (systemNameservers_lines_sound _ _ _ H) as [[]|[line [Hl [Hp Hn]]]].
  split; [exists line; repeat split; assumption|].
  pose proof (fieldsFrom_good line 0 "" eq_refl) as Hg.
  rewrite Forall_forall in Hg. apply Hg.
  apply (nth_error_In _ 1). exact Hn.
Qed.

Lemma systemNameservers_sound_witness :
  In "1.1.1.1" (serversIn "nameserver 1.1.1.1") /\
  ((exists line, In line (strings.SplitLines "nameserver 1.1.1.1") /\
      strings.HasPrefix line "nameserver" = true /\
      nth_error (strings.Fields line) 1 = Some "1.1.1.1") /\
   "1.1.1.1" <> "" /\ allBytes notAsciiSpace "1.1.1.1" = true).
Proof.
  assert (H : In "1.1.1.1" (serversIn "nameserver 1.1.1.1"))
    by (vm_compute; left; reflexivity).
  split; [exact H|].
  exact (systemNameservers_sound "nameserver 1.1.1.1" "1.1.1.1" H).
Defined.


Lemma spaceWidth_plain (c : ascii) (r : string) :
  isPlainByte c = true -> strings.spaceWidth (String c r) = 0%nat.
Proof.
  unfold isPlainByte, strings.spaceWidth. intros H.
  apply andb_true_iff in H. destruct H as [Hs Hc].
  destruct (strings.asciiSpace c); [discriminate|].
  apply Z.ltb_lt in Hc. cbv zeta.
  replace (strings.code c =? 194) with false by (symmetry; apply Z.eqb_neq; lia).
  replace (strings.code c =? 225) with false by (symmetry; apply Z.eqb_neq; lia).
  replace (strings.code c =? 226) with false by (symmetry; apply Z.eqb_neq; lia).
  replace (strings.code c =? 227) with false by (symmetry; apply Z.eqb_neq; lia).
  reflexivity.
Qed.

Lemma append_nil_r (s : string) : (s ++ "")%string = s.
Proof.
  induction s as [|c s IH]; [reflexivity|]. cbn. f_equal. exact IH.
Qed.

Lemma fieldsFrom_plain (t s : string) :
  forall cur : string,
    allBytes isPlainByte t = true ->
    strings.fieldsFrom (t ++ s) 0 cur = strings.fieldsFrom s 0 (cur ++ t).
Proof.
  induction t as [|c t IH]; intros cur H.
  - rewrite append_nil_r. reflexivity.
  - cbn [allBytes] in H. apply andb_true_iff in H. destruct H as [Hc Ht].
    change ((String c t ++ s)%string) with (String c (t ++ s)).
    cbn [strings.fieldsFrom]. rewrite (spaceWidth_plain _ _ Hc).
    rewrite (IH _ Ht). rewrite append_assoc. reflexivity.
Qed.

Lemma fieldsFrom_space (c : ascii) (s cur : string) :
  strings.asciiSpace c = true ->
  strings.fieldsFrom (String c s) 0 cur
  = (strings.closeField cur ++ strings.fieldsFrom s 0 "")%list.
Proof.
  intros H. cbn [strings.fieldsFrom]. unfold strings.spaceWidth.
  rewrite H. reflexivity.
Qed.

Lemma fieldsFrom_blanks (sep s : string) :
  allBytes isBlankByte sep = true ->
  strings.fieldsFrom (sep ++ s) 0 "" = strings.fieldsFrom s 0 "".
Proof.
  induction sep as [|c sep IH]; intros H.
  - reflexivity.
  - cbn [allBytes] in H. apply andb_true_iff in H. destruct H as [Hc Hs].
    unfold isBlankByte in Hc. apply andb_true_iff in Hc.
    change ((String c sep ++ s)%string) with (String c (sep ++ s)).
    rewrite fieldsFrom_space by apply Hc. apply IH. exact Hs.
Qed.

Lemma isPlainByte_notNewline (s : string) :
  allBytes isPlainByte s = true -> allBytes notNewline s = true.
Proof.
  apply allBytes_weaken. intros c H. unfold isPlainByte in H.
  apply andb_true_iff in H. destruct H as [H _].
  unfold notNewline, strings.asciiSpace in *.
  destruct (strings.code c =? 10) eqn:E; [|reflexivity].
  apply Z.eqb_eq in E. rewrite E in H. discriminate.
Qed.

Lemma isBlankByte_notNewline (s : string) :
  allBytes isBlankByte s = true -> allBytes notNewline s = true.
Proof.
  apply allBytes_weaken. intros c H. unfold isBlankByte in H.
  apply andb_true_iff in H. apply H.
Qed.

Lemma restOfLine_notNewline (tail : string) :
  restOfLine tail = true -> allBytes notNewline tail = true.
Proof.
  destruct tail as [|c junk]; [reflexivity|]. cbn [restOfLine allBytes].
  intros H. apply andb_true_iff in H. destruct H as [Hc Hj].
  unfold isBlankByte in Hc. apply andb_true_iff in Hc.
  destruct Hc as [_ Hc]. rewrite Hc, Hj. reflexivity.
Qed.

(** The fields of a line that holds the keyword, any plain text joined to
    it, blanks, the address and the rest of the line. *)
Lemma Fields_nameserver_line (x sep tok tail : string) :
  allBytes isPlainByte x = true ->
  allBytes isBlankByte sep = true -> sep <> "" ->
  allBytes isPlainByte tok = true -> tok <> "" ->
  restOfLine tail = true ->
  exists more,
    strings.Fields ("nameserver" ++ x ++ sep ++ tok ++ tail)
    = ("nameserver" ++ x)%string :: tok :: more.
Proof.
  intros Hx Hsep Hne Htok Hte Htail. unfold strings.Fields.
  rewrite <- append_assoc.
  rewrite fieldsFrom_plain
    by (rewrite allBytes_app, Hx; reflexivity).
  destruct sep as [|c sep]; [contradiction|].
  cbn [allBytes] in Hsep. apply andb_true_iff in Hsep.
  destruct Hsep as [Hc Hsep].
  change ((String c sep ++ tok ++ tail)%string)
    with (String c (sep ++ tok ++ tail)).
  unfold isBlankByte in Hc. apply andb_true_iff in Hc.
  rewrite fieldsFrom_space by apply Hc.
  rewrite fieldsFrom_blanks by exact Hsep.
  rewrite fieldsFrom_plain by exact Htok.
  change (("" ++ "nameserver" ++ x)%string) with (("nameserver" ++ x)%string).
  change (("" ++ tok)%string) with tok.
  destruct tail as [|d junk].
  - exists []. cbn [strings.fieldsFrom].
    destruct tok; [contradiction|]. reflexivity.
  - cbn [restOfLine] in Htail. apply andb_true_iff in Htail.
    destruct Htail as [Hd _]. unfold isBlankByte in Hd.
    apply andb_true_iff in Hd.
    rewrite fieldsFrom_space by apply Hd.
    exists (strings.fieldsFrom junk 0 "").
    destruct tok; [contradiction|]. reflexivity.
Qed.

(** X13. A line that begins with the text nameserver, goes on with any
    text free of white space, then blanks, then an address, and ends there
    or with a blank and anything more, gives the address: the keyword is
    matched as a prefix of the line, not as a word, and what follows the
    address is left out. *)
Theorem systemNameservers_second_field (x sep tok tail : string) :
  allBytes isPlainByte x = true ->
  allBytes isBlankByte sep = true -> sep <> "" ->
  allBytes isPlainByte tok = true -> tok <> "" ->
  restOfLine tail = true ->
  serversIn ("nameserver" ++ x ++ sep ++ tok ++ tail) = [tok].
Proof.
  intros Hx Hsep Hne Htok Hte Htail.
  destruct (Fields_nameserver_line x sep tok tail Hx Hsep Hne Htok Hte Htail)
    as [more Hf].
  unfold serversIn, systemNameservers. cbn [fst].
  unfold strings.SplitLines. rewrite splitFrom_one_line.
  - change (("" ++ "nameserver" ++ x ++ sep ++ tok ++ tail)%string)
      with (("nameserver" ++ x ++ sep ++ tok ++ tail)%string).
    cbn [systemNameservers_lines].
    assert (Hp : strings.HasPrefix ("nameserver" ++ x ++ sep ++ tok ++ tail)
                   "nameserver" = true).
    { unfold strings.HasPrefix. cbn.
      destruct (x ++ sep ++ tok ++ tail)%string; reflexivity. }
    rewrite Hp. cbv zeta. rewrite Hf. cbn [List.length nth].
    replace (1 <? Z.of_nat (S (S (List.length more)))) with true
      by (symmetry; apply Z.ltb_lt; lia).
    reflexivity.
  - rewrite !allBytes_app.
    rewrite (isPlainByte_notNewline _ Hx), (isBlankByte_notNewline _ Hsep),
      (isPlainByte_notNewline _ Htok), (restOfLine_notNewline _ Htail).
    reflexivity.
Qed.

Lemma systemNameservers_second_field_witness :
  serversIn ("nameserver" ++ "s" ++ "  " ++ "fd00::1" ++ " # main") = ["fd00::1"].
Proof.
  apply (systemNameservers_second_field "s" "  " "fd00::1" " # main");
    solve [reflexivity | discriminate].
Defined.


(** ** The module *)

(** Resolve returns no error only when the record type parsed and the
    transport answered its question at the address of the nameserver, in
    the later revision with success status; the list is then that answer,
    record by record. *)
Lemma ClientRev1_Resolve_ok (exchange : miekg.transport)
    (query recordType : string) (ns : Nameserver) :
  err (ClientRev1.Resolve exchange query recordType ns) = None ->
  exists rt response,
    RecordTypeString recordType = (rt, None) /\
    exchange (miekg.SetQuestion miekg.emptyMsg (query ++ ".")
                (ClientRev1.concreteType rt)) (Addr ns) = miekg.Response response /\
    ips (ClientRev1.Resolve exchange query recordType ns) =
      map renderRev1 (miekg.Answer response).
Proof.
  unfold ClientRev1.Resolve.
  destruct (RecordTypeString recordType) as [rt [e|]]; [discriminate|].
  cbv beta iota zeta.
  destruct (exchange _ _) as [r|e] eqn:E; [|discriminate].
  destruct (ClientRev1.decodeAnswers _ _) as [l [e|]] eqn:D; [discriminate|].
  intros _. apply ClientRev1_decodeAnswers_ok in D as [_ ->].
  exists rt, r. split; [reflexivity|]. split; [exact E|reflexivity].
Qed.

Lemma ClientRev2_Resolve_ok (exchange : miekg.transport)
    (query recordType : string) (ns : Nameserver) :
  err (ClientRev2.Resolve exchange query recordType ns) = None ->
  exists rt response,
    RecordTypeString recordType = (rt, None) /\
    exchange (miekg.SetQuestion miekg.emptyMsg (query ++ ".") (uint16 rt))
      (Addr ns) = miekg.Response response /\
    miekg.Rcode response = miekg.RcodeSuccess /\
    ips (ClientRev2.Resolve exchange query recordType ns) =
      map renderRev2 (miekg.Answer response).
Proof.
  unfold ClientRev2.Resolve.
  destruct (RecordTypeString recordType) as [rt [e|]]; [discriminate|].
  cbv beta iota zeta.
  destruct (exchange _ _) as [r|e] eqn:E; [|discriminate].
  destruct (Z.eqb_spec (miekg.Rcode r) miekg.RcodeSuccess) as [Hok|Hno];
    [|discriminate]. cbn [negb].
  destruct (ClientRev2.decodeAnswers _ _) as [l [e|]] eqn:D; [discriminate|].
  intros _. apply ClientRev2_decodeAnswers_ok in D as [_ ->].
  exists rt, r. split; [reflexivity|]. split; [exact E|].
  split; [exact Hok|reflexivity].
Qed.

Lemma emitResolutionMetrics_tags (tags : metrics.TagSet) (ctx : context)
    (duration : Z) (query recordType : string) (ns : Nameserver) :
  Forall (resolutionTags query recordType (Addr ns))
    (emitResolutionMetrics tags ctx duration query recordType ns).
Proof.
  unfold emitResolutionMetrics, metrics.PushIfNotDone.
  destruct (doneAtFirstPush ctx), (doneAtSecondPush ctx); cbn [app];
    repeat constructor.
Qed.

(** X14. In both revisions of the module, [Resolve] pushes samples only
    for a promise it resolves, and it resolves a promise only with what
    the transport answered: the arguments were converted by the runtime,
    the nameserver text and the record type parsed, the transport
    answered the question for the query at the address of the parsed
    nameserver (with success status, in the later revision), the value of
    the promise is that answer decoded record by record, and every sample
    pushed names in its tags the query, the record type and, as
    nameserver, the very target at which the transport gave that
    answer. *)
Theorem module_Resolve_resolves_with_the_answer :
  forall (JSValue : Type) (ExportTo : JSValue -> string * option error)
         (format : JSValue -> string) (exchange : miekg.transport)
         (state : option metrics.TagSet) (ctx : context) (elapsed : Z)
         (JSObject : Type) (ExportOptions : JSObject -> resolveOptions * option error)
         (query recordType nameserverAddr : JSValue) (options : JSObject),
    match settled (Resolve_Rev2 JSValue ExportTo format exchange state ctx elapsed
                     query recordType nameserverAddr) with
    | Rejected _ =>
        pushed (Resolve_Rev2 JSValue ExportTo format exchange state ctx elapsed
                  query recordType nameserverAddr) = []
    | Resolved value =>
        exists q rts a ns rt response,
          ExportTo query = (q, None) /\
          ExportTo recordType = (rts, None) /\
          ExportTo nameserverAddr = (a, None) /\
          ParseNameserverAddr a = (ns, None) /\
          RecordTypeString rts = (rt, None) /\
          exchange (miekg.SetQuestion miekg.emptyMsg (q ++ ".") (uint16 rt))
            (Addr ns) = miekg.Response response /\
          miekg.Rcode response = miekg.RcodeSuccess /\
          value = map renderRev2 (miekg.Answer response) /\
          Forall (resolutionTags q rts (Addr ns))
            (pushed (Resolve_Rev2 JSValue ExportTo format exchange state ctx
                       elapsed query recordType nameserverAddr))
    end /\
    match settled (Resolve_Rev1 JSValue ExportTo format exchange state ctx elapsed
                     JSObject ExportOptions query recordType options) with
    | Rejected _ =>
        pushed (Resolve_Rev1 JSValue ExportTo format exchange state ctx elapsed
                  JSObject ExportOptions query recordType options) = []
    | Resolved value =>
        exists q rts o ns rt response,
          ExportTo query = (q, None) /\
          ExportTo recordType = (rts, None) /\
          ExportOptions options = (o, None) /\
          ParseNameserver o = (ns, None) /\
          RecordTypeString rts = (rt, None) /\
          exchange (miekg.SetQuestion miekg.emptyMsg (q ++ ".")
                      (ClientRev1.concreteType rt)) (Addr ns) =
            miekg.Response response /\
          value = map renderRev1 (miekg.Answer response) /\
          Forall (resolutionTags q rts (Addr ns))
            (pushed (Resolve_Rev1 JSValue ExportTo format exchange state ctx
                       elapsed JSObject ExportOptions query recordType options))
    end.
Proof.
  intros. split.
  - unfold Resolve_Rev2. destruct state as [tags|]; [|reflexivity].
    destruct (ExportTo query) as [q [e|]] eqn:Eq; [reflexivity|].
    destruct (ExportTo recordType) as [rts [e|]] eqn:Er; [reflexivity|].
    destruct (ExportTo nameserverAddr) as [a [e|]] eqn:Ea; [reflexivity|].
    destruct (ParseNameserverAddr a) as [ns [e|]] eqn:Ep; [reflexivity|].
    unfold resolveAsync.
    destruct (err (ClientRev2.Resolve exchange q rts ns)) as [e|] eqn:E;
      [reflexivity|].
    cbn [settled pushed].
    destruct (ClientRev2_Resolve_ok _ _ _ _ E) as [rt [response [P [X [Hok I]]]]].
    exists q, rts, a, ns, rt, response.
    repeat split; try assumption; try reflexivity.
    apply emitResolutionMetrics_tags.
  - unfold Resolve_Rev1, newResolveOptionsFrom.
    destruct state as [tags|]; [|reflexivity].
    destruct (ExportTo query) as [q [e|]] eqn:Eq; [reflexivity|].
    destruct (ExportTo recordType) as [rts [e|]] eqn:Er; [reflexivity|].
    destruct (ExportOptions options) as [o [e|]] eqn:Eo; [reflexivity|].
    destruct (ParseNameserver o) as [ns [e|]] eqn:Ep; [reflexivity|].
    unfold resolveAsync.
    destruct (err (ClientRev1.Resolve exchange q rts ns)) as [e|] eqn:E;
      [reflexivity|].
    cbn [settled pushed].
    destruct (ClientRev1_Resolve_ok _ _ _ _ E) as [rt [response [P [X I]]]].
    exists q, rts, o, ns, rt, response.
    repeat split; try assumption; try reflexivity.
    apply emitResolutionMetrics_tags.
Qed.

(** The text [Addr] gives for an IPv4 nameserver parses back to it. *)
Lemma Addr_roundtrip_IPv4 (ns : Nameserver) :
  List.length (IP ns) = 16%nat ->
  wfNameserver ns ->
  isIPv4 (IP ns) ->
  ParseNameserverAddr (Addr ns) = (ns, None).
Proof.
  destruct ns as [ip port]. intros L [F P] V. cbn [IP Port] in *.
  destruct (IPv4_mapped_form ip L V) as [a [b [c [d ->]]]].
  assert (isByte a /\ isByte b /\ isByte c /\ isByte d) as [Ha [Hb [Hc Hd]]].
  { unfold net.v4InV6 in F. apply Forall_app in F as [_ F].
    apply Forall_app in F as [_ F].
    inversion F as [|? ? A F1]; subst. inversion F1 as [|? ? B F2]; subst.
    inversion F2 as [|? ? C F3]; subst. inversion F3 as [|? ? D F4]; subst. auto. }
  unfold Addr. cbn [IP Port]. rewrite IPString_v4InV6.
  pose proof (ParseIP_string4 a b c d Ha Hb Hc Hd) as E.
  destruct (Itoa_nonempty port ltac:(lia)) as [c0 [r0 [Ep _]]].
  assert (strconv.Atoi (portText (strconv.Itoa port)) = (port, None)) as A.
  { unfold portText. rewrite Ep. cbn [String.eqb]. rewrite <- Ep.
    apply Atoi_Itoa.
    assert (strconv.maxInt = 9223372036854775807) as Hmax by reflexivity. lia. }
  destruct (host_port_parses (net.string4 [a; b; c; d]) (strconv.Itoa port) port)
    as [R1 _].
  - apply string4_dotted; assumption.
  - rewrite E. discriminate.
  - exact A.
  - lia.
  - rewrite E in R1. exact R1.
Qed.

(** X15. From the script to the network, in the later revision: outside
    the init context, with arguments the runtime converts to strings, a
    supported record type and as nameserver the text [Addr] gives for a
    well-formed IPv4 nameserver, what becomes of the promise is decided
    by what the transport answers, to the question for the query followed
    by a dot with the numeric value of the record type, at the very text
    the script passed: a failure of the transport there rejects the
    promise with that failure, wrapped, and no sample; an answer there
    with success status and records that all have a decoder resolves the
    promise with these records decoded. What the transport does for any
    other message or target plays no part. *)
Theorem module_Resolve_dials_given_address :
  forall (JSValue : Type) (ExportTo : JSValue -> string * option error)
         (format : JSValue -> string) (exchange : miekg.transport)
         (tags : metrics.TagSet) (ctx : context) (elapsed : Z)
         (query recordType nameserverAddr : JSValue)
         (q rts : string) (rt : RecordType) (ns : Nameserver),
    ExportTo query = (q, None) ->
    ExportTo recordType = (rts, None) ->
    ExportTo nameserverAddr = (Addr ns, None) ->
    RecordTypeString rts = (rt, None) ->
    List.length (IP ns) = 16%nat ->
    wfNameserver ns ->
    isIPv4 (IP ns) ->
    (forall e : error,
       exchange (miekg.SetQuestion miekg.emptyMsg (q ++ ".") (uint16 rt))
         (Addr ns) = miekg.Failure e ->
       settled (Resolve_Rev2 JSValue ExportTo format exchange (Some tags) ctx
                  elapsed query recordType nameserverAddr) =
         Rejected (wrapError "querying the DNS nameserver failed: " e "") /\
       pushed (Resolve_Rev2 JSValue ExportTo format exchange (Some tags) ctx
                 elapsed query recordType nameserverAddr) = []) /\
    (forall response : miekg.Msg,
       exchange (miekg.SetQuestion miekg.emptyMsg (q ++ ".") (uint16 rt))
         (Addr ns) = miekg.Response response ->
       miekg.Rcode response = miekg.RcodeSuccess ->
       forallb ClientRev2.decodable (miekg.Answer response) = true ->
       settled (Resolve_Rev2 JSValue ExportTo format exchange (Some tags) ctx
                  elapsed query recordType nameserverAddr) =
         Resolved (map renderRev2 (miekg.Answer response))).
Proof.
  intros JSValue ExportTo format exchange tags ctx elapsed query recordType
    nameserverAddr q rts rt ns Hq Hr Ha Hrt L W V.
  split.
  - intros e E. unfold Resolve_Rev2. rewrite Hq, Hr, Ha.
    rewrite (Addr_roundtrip_IPv4 ns L W V). unfold resolveAsync.
    rewrite (ClientRev2_Resolve_failure _ _ _ _ _ _ Hrt E).
    split; reflexivity.
  - intros response E Hok Hall. unfold Resolve_Rev2. rewrite Hq, Hr, Ha.
    rewrite (Addr_roundtrip_IPv4 ns L W V). unfold resolveAsync.
    rewrite (ClientRev2_Resolve_answers _ _ _ _ _ _ Hrt E Hok Hall).
    reflexivity.
Qed.

(** X15 for the query example.com, type A, at 203.0.113.1:5353, on a
    network that answers there and nowhere else. *)
Lemma module_Resolve_dials_given_address_witness :
  settled
    (Resolve_Rev2 string (fun v => (v, None)) (fun v => v)
       (answersAt "203.0.113.1:5353"
          (miekg.mkMsg true 0 [] [miekg.RR_A (net.ParseIP "203.0.113.7")]))
       (Some []) (mkContext false false) 7
       "example.com" "A" "203.0.113.1:5353")
  = Resolved ["203.0.113.7"].
Proof.
  destruct (module_Resolve_dials_given_address string (fun v => (v, None))
              (fun v => v)
              (answersAt "203.0.113.1:5353"
                 (miekg.mkMsg true 0 [] [miekg.RR_A (net.ParseIP "203.0.113.7")]))
              [] (mkContext false false) 7 "example.com" "A" "203.0.113.1:5353"
              "example.com" "A" RecordTypeA
              (mkNameserver (net.ParseIP "203.0.113.1") 5353)) as [_ H].
  - reflexivity.
  - reflexivity.
  - vm_compute. reflexivity.
  - vm_compute. reflexivity.
  - reflexivity.
  - split; [|simpl; lia]. vm_compute. repeat constructor; discriminate.
  - unfold isIPv4. vm_compute. discriminate.
  - etransitivity.
    + apply (H (miekg.mkMsg true 0 [] [miekg.RR_A (net.ParseIP "203.0.113.7")]));
        vm_compute; reflexivity.
    + vm_compute. reflexivity.
Defined.

(** X16. A nameserver given by a name: when the nameserver text holds no
    colon and [net.ParseIP] refuses it, the module of module.go goes to
    the network all the same, at the text of a nil address with port 53:
    what becomes of the promise is decided by what the transport answers
    to the question at the target "<nil>:53", a failure there rejecting
    the promise with that failure and an answer there, of records that
    all have a decoder, resolving it; while the later module rejects the
    promise with the invalid-address error, whatever the transport
    does. *)
Theorem module_Resolve_nameserver_by_name :
  forall (JSValue : Type) (ExportTo : JSValue -> string * option error)
         (format : JSValue -> string) (exchange : miekg.transport)
         (tags : metrics.TagSet) (ctx : context) (elapsed : Z)
         (JSObject : Type) (ExportOptions : JSObject -> resolveOptions * option error)
         (query recordType nameserverAddr : JSValue) (options : JSObject)
         (q rts host : string) (rt : RecordType),
    ExportTo query = (q, None) ->
    ExportTo recordType = (rts, None) ->
    RecordTypeString rts = (rt, None) ->
    ExportOptions options = (mkResolveOptions host, None) ->
    ExportTo nameserverAddr = (host, None) ->
    ContainsRune host ":" = false ->
    net.ParseIP host = [] ->
    (forall e : error,
       exchange (miekg.SetQuestion miekg.emptyMsg (q ++ ".")
                   (ClientRev1.concreteType rt)) "<nil>:53" = miekg.Failure e ->
       settled (Resolve_Rev1 JSValue ExportTo format exchange (Some tags) ctx
                  elapsed JSObject ExportOptions query recordType options) =
         Rejected e) /\
    (forall response : miekg.Msg,
       exchange (miekg.SetQuestion miekg.emptyMsg (q ++ ".")
                   (ClientRev1.concreteType rt)) "<nil>:53" =
         miekg.Response response ->
       forallb ClientRev1.decodable (miekg.Answer response) = true ->
       settled (Resolve_Rev1 JSValue ExportTo format exchange (Some tags) ctx
                  elapsed JSObject ExportOptions query recordType options) =
         Resolved (map renderRev1 (miekg.Answer response))) /\
    Resolve_Rev2 JSValue ExportTo format exchange (Some tags) ctx elapsed
      query recordType nameserverAddr
    = rejectedEarly (errorString ("invalid nameserver IP address: " ++ host)).
Proof.
  intros JSValue ExportTo format exchange tags ctx elapsed JSObject
    ExportOptions query recordType nameserverAddr options q rts host rt
    Hq Hr Hrt Ho Ha Hc Hip.
  assert (ParseNameserver (mkResolveOptions host) = (mkNameserver [] 53, None))
    as Hp.
  { unfold ParseNameserver. cbn [nameserver]. rewrite Hc.
    change (strconv.Atoi "53") with (53, @None error).
    cbv iota beta. rewrite Hip. reflexivity. }
  assert (Addr (mkNameserver [] 53) = "<nil>:53") as Hn by reflexivity.
  split; [|split].
  - intros e E. unfold Resolve_Rev1, newResolveOptionsFrom.
    rewrite Hq, Hr, Ho, Hp. unfold resolveAsync. rewrite <- Hn in E.
    rewrite (ClientRev1_Resolve_failure _ _ _ _ _ _ Hrt E). reflexivity.
  - intros response E Hall. unfold Resolve_Rev1, newResolveOptionsFrom.
    rewrite Hq, Hr, Ho, Hp. unfold resolveAsync. rewrite <- Hn in E.
    rewrite (ClientRev1_Resolve_answers _ _ _ _ _ _ Hrt E Hall). reflexivity.
  - unfold Resolve_Rev2. rewrite Hq, Hr, Ha.
    assert (ParseNameserverAddr host
            = (noNameserver,
               Some (errorString ("invalid nameserver IP address: " ++ host))))
      as ->.
    { rewrite ParseNameserverAddr_parts. rewrite Hc. cbn [negb].
      unfold parseIPAndPort. rewrite Hip. reflexivity. }
    reflexivity.
Qed.

(** X16 for the nameserver dns.example, on a network that answers at
    "<nil>:53" and nowhere else. *)
Lemma module_Resolve_nameserver_by_name_witness :
  settled
    (Resolve_Rev1 string (fun v => (v, None)) (fun v => v)
       (answersAt "<nil>:53"
          (miekg.mkMsg true 0 [] [miekg.RR_A (net.ParseIP "203.0.113.7")]))
       (Some []) (mkContext false false) 7
       string (fun o => (mkResolveOptions o, None))
       "example.com" "A" "dns.example") = Resolved ["203.0.113.7"] /\
  Resolve_Rev2 string (fun v => (v, None)) (fun v => v)
    (answersAt "<nil>:53"
       (miekg.mkMsg true 0 [] [miekg.RR_A (net.ParseIP "203.0.113.7")]))
    (Some []) (mkContext false false) 7
    "example.com" "A" "dns.example"
  = rejectedEarly (errorString "invalid nameserver IP address: dns.example").
Proof.
  destruct (module_Resolve_nameserver_by_name string (fun v => (v, None))
              (fun v => v)
              (answersAt "<nil>:53"
                 (miekg.mkMsg true 0 [] [miekg.RR_A (net.ParseIP "203.0.113.7")]))
              [] (mkContext false false) 7 string
              (fun o => (mkResolveOptions o, None))
              "example.com" "A" "dns.example" "dns.example"
              "example.com" "A" "dns.example" RecordTypeA) as [_ [H1 H2]].
  - reflexivity.
  - reflexivity.
  - vm_compute. reflexivity.
  - reflexivity.
  - reflexivity.
  - vm_compute. reflexivity.
  - vm_compute. reflexivity.
  - split; [|exact H2].
    etransitivity.
    + apply (H1 (miekg.mkMsg true 0 [] [miekg.RR_A (net.ParseIP "203.0.113.7")]));
        vm_compute; reflexivity.
    + vm_compute. reflexivity.
Defined.

Lemma emitLookupMetrics_tagged (tags : metrics.TagSet) (ctx : context)
    (duration : Z) (host : string) :
  Forall (fun s => metrics.tagValue (metrics.Tags s) "host" = Some host)
    (emitLookupMetrics tags ctx duration host).
Proof.
  unfold emitLookupMetrics, metrics.PushIfNotDone.
  destruct (doneAtFirstPush ctx), (doneAtSecondPush ctx); cbn [app];
    repeat constructor.
Qed.

Lemma moduleLookup_outcome (JSValue : Type)
    (ExportTo : JSValue -> string * option error) (format : JSValue -> string)
    (LookupHost : string -> list string * option error)
    (state : option metrics.TagSet) (ctx : context) (elapsed : Z)
    (clientLookup : string -> list string * option error)
    (hostname : JSValue) :
  (forall h addrs, clientLookup h = (addrs, None) -> LookupHost h = (addrs, None)) ->
  lookupOutcome JSValue ExportTo LookupHost hostname
    (moduleLookup JSValue ExportTo format state ctx elapsed clientLookup hostname).
Proof.
  intros Hc. unfold moduleLookup, lookupOutcome.
  destruct state as [tags|]; [|split; reflexivity].
  destruct (ExportTo hostname) as [h [e|]] eqn:Eh; [split; reflexivity|].
  destruct (clientLookup h) as [addrs [e|]] eqn:El; [split; reflexivity|].
  split; [reflexivity|]. cbn [settled pushed]. exists h.
  split; [reflexivity|]. split; [apply Hc; exact El|].
  apply emitLookupMetrics_tagged.
Qed.

(** X17. In both revisions of the module, [Lookup] never uses the DNS
    transport, pushes samples only for a promise it resolves, and resolves
    a promise only with the addresses the resolver of the system returned
    without error for the host name the runtime converted; every sample
    pushed carries that host name as its host tag. *)
Theorem module_Lookup_outcome :
  forall (JSValue : Type) (ExportTo : JSValue -> string * option error)
         (format : JSValue -> string)
         (LookupHost : string -> list string * option error)
         (state : option metrics.TagSet) (ctx : context) (elapsed : Z)
         (hostname : JSValue),
    lookupOutcome JSValue ExportTo LookupHost hostname
      (Lookup_module_Rev1 JSValue ExportTo format LookupHost state ctx elapsed
         hostname) /\
    lookupOutcome JSValue ExportTo LookupHost hostname
      (Lookup_module_Rev2 JSValue ExportTo format LookupHost state ctx elapsed
         hostname).
Proof.
  intros. split.
  - apply moduleLookup_outcome. intros h addrs H. unfold Lookup_Rev1 in H.
    destruct (LookupHost h) as [l [e|]]; [discriminate|exact H].
  - apply moduleLookup_outcome. intros h addrs H. unfold Lookup_Rev2 in H.
    destruct (LookupHost h) as [l [e|]]; [discriminate|exact H].
Qed.
